(** * Multi_agent: the routing workflow and the content-addressed index cache

    A shallow embedding of the orchestration code of the repository
    (helper.py, utils.py, agent_router.py, routing_nodes.py,
    weather_agent.py, weather_nodes.py, integrated_workflow.py,
    integrated_app.py) together with the properties the specification
    states about it. *)

From Stdlib Require Import ZArith List String Ascii Bool Lia.
From Stdlib Require Import DecimalString DecimalPos DecimalZ.
From stdpp Require Import base option list strings gmap.

Import ListNotations.
Local Open Scope string_scope.
Local Open Scope Z_scope.

(** ** hashlib: the two digests the fingerprint code calls *)

Module Hashlib.

Definition w32 (x : Z) : Z := x mod 2 ^ 32.
Definition add32 (a b : Z) : Z := w32 (a + b).
Definition not32 (x : Z) : Z := Z.lxor x 0xffffffff.
Definition rotr (n x : Z) : Z :=
  Z.lor (Z.shiftr x n) (w32 (Z.shiftl x (32 - n))).
Definition rotl (n x : Z) : Z :=
  Z.lor (w32 (Z.shiftl x n)) (Z.shiftr x (32 - n)).

Definition byte_of (b : Byte.byte) : Z := Z.of_N (Byte.to_N b).

(** Big-endian and little-endian encodings of [len] bytes of [x]. *)
Fixpoint be_bytes (len : nat) (x : Z) : list Z :=
  match len with
  | O => []
  | S k => be_bytes k (Z.shiftr x 8) ++ [Z.land x 0xff]
  end.

Fixpoint le_bytes (len : nat) (x : Z) : list Z :=
  match len with
  | O => []
  | S k => Z.land x 0xff :: le_bytes k (Z.shiftr x 8)
  end.

Definition be_word (bs : list Z) : Z :=
  fold_left (fun acc b => Z.lor (Z.shiftl acc 8) b) bs 0.
Definition le_word (bs : list Z) : Z := be_word (rev bs).

(** Message padding shared by both digests: a 1 bit, zeros up to
    56 mod 64, then the bit length on eight bytes. *)
Definition pad (len_bytes : nat -> Z -> list Z) (msg : list Z) : list Z :=
  let n := Z.of_nat (length msg) in
  let zeros := Z.to_nat ((55 - n) mod 64) in
  msg ++ [0x80] ++ repeat 0 zeros ++ len_bytes 8%nat ((8 * n) mod 2 ^ 64).

Fixpoint chunks (fuel : nat) (size : nat) (l : list Z) : list (list Z) :=
  match fuel with
  | O => []
  | S k =>
      match l with
      | [] => []
      | _ => firstn size l :: chunks k size (skipn size l)
      end
  end.

Definition words (word : list Z -> Z) (block : list Z) : list Z :=
  map word (chunks 16 4 block).

Definition hex_digit (d : Z) : ascii :=
  ascii_of_nat (Z.to_nat (if d <? 10 then 48 + d else 87 + d)).

Fixpoint hex_of_bytes (bs : list Z) : string :=
  match bs with
  | [] => EmptyString
  | b :: r => String (hex_digit (Z.shiftr b 4)) (String (hex_digit (Z.land b 0xf)) (hex_of_bytes r))
  end.

(** *** SHA-256 (FIPS 180-4) *)

(** The round constants and the initial hash value are the first 32
    bits of the fractional parts of the cube roots, and of the square
    roots, of the first primes. *)
Definition is_prime (n : Z) : bool :=
  forallb (fun d => negb (n mod Z.of_nat d =? 0)) (seq 2 (Z.to_nat n - 2)).

Definition primes : list Z :=
  filter (fun n => is_prime n) (map Z.of_nat (seq 2 310)).

(** The integer cube root, one bit at a time from bit [bits - 1] down. *)
Fixpoint cube_root (bits : nat) (acc n : Z) : Z :=
  match bits with
  | O => acc
  | S b =>
      let c := acc + 2 ^ Z.of_nat b in
      cube_root b (if c * c * c <=? n then c else acc) n
  end.

Definition K256 : list Z :=
  Eval vm_compute in map (fun p => w32 (cube_root 36 0 (p * 2 ^ 96))) primes.

Definition H256 : list Z :=
  Eval vm_compute in map (fun p => w32 (Z.sqrt (p * 2 ^ 64))) (firstn 8 primes).

Definition Ch (x y z : Z) : Z := Z.lxor (Z.land x y) (Z.land (not32 x) z).
Definition Maj (x y z : Z) : Z :=
  Z.lxor (Z.lxor (Z.land x y) (Z.land x z)) (Z.land y z).
Definition Sigma0 (x : Z) : Z := Z.lxor (Z.lxor (rotr 2 x) (rotr 13 x)) (rotr 22 x).
Definition Sigma1 (x : Z) : Z := Z.lxor (Z.lxor (rotr 6 x) (rotr 11 x)) (rotr 25 x).
Definition sigma0 (x : Z) : Z := Z.lxor (Z.lxor (rotr 7 x) (rotr 18 x)) (Z.shiftr x 3).
Definition sigma1 (x : Z) : Z := Z.lxor (Z.lxor (rotr 17 x) (rotr 19 x)) (Z.shiftr x 10).

(** The message schedule, grown one word at a time; [w] holds the
    words computed so far, most recent first. *)
Fixpoint schedule (n : nat) (w : list Z) : list Z :=
  match n with
  | O => w
  | S k =>
      let at_ i := nth i w 0 in
      schedule k (add32 (add32 (sigma1 (at_ 1%nat)) (at_ 6%nat))
                        (add32 (sigma0 (at_ 14%nat)) (at_ 15%nat)) :: w)
  end.

Definition round256 (s : list Z) (kw : Z * Z) : list Z :=
  match s with
  | [a; b; c; d; e; f; g; h] =>
      let t1 := add32 (add32 (add32 h (Sigma1 e)) (add32 (Ch e f g) (fst kw))) (snd kw) in
      let t2 := add32 (Sigma0 a) (Maj a b c) in
      [add32 t1 t2; a; b; c; add32 d t1; e; f; g]
  | _ => s
  end.

Definition compress256 (h : list Z) (block : list Z) : list Z :=
  let w := rev (schedule 48 (rev (words be_word block))) in
  let s := fold_left round256 (combine K256 w) h in
  map (fun p => add32 (fst p) (snd p)) (combine h s).

Definition sha256_digest (msg : list Byte.byte) : list Z :=
  let padded := pad be_bytes (map byte_of msg) in
  let h := fold_left compress256 (chunks (length padded) 64 padded) H256 in
  flat_map (be_bytes 4) h.

(** [hashlib.sha256(data).hexdigest()] *)
Definition sha256_hexdigest (msg : list Byte.byte) : string :=
  hex_of_bytes (sha256_digest msg).

(** *** MD5 (RFC 1321) *)

Definition T5 : list Z :=
  [0xd76aa478; 0xe8c7b756; 0x242070db; 0xc1bdceee;
   0xf57c0faf; 0x4787c62a; 0xa8304613; 0xfd469501;
   0x698098d8; 0x8b44f7af; 0xffff5bb1; 0x895cd7be;
   0x6b901122; 0xfd987193; 0xa679438e; 0x49b40821;
   0xf61e2562; 0xc040b340; 0x265e5a51; 0xe9b6c7aa;
   0xd62f105d; 0x02441453; 0xd8a1e681; 0xe7d3fbc8;
   0x21e1cde6; 0xc33707d6; 0xf4d50d87; 0x455a14ed;
   0xa9e3e905; 0xfcefa3f8; 0x676f02d9; 0x8d2a4c8a;
   0xfffa3942; 0x8771f681; 0x6d9d6122; 0xfde5380c;
   0xa4beea44; 0x4bdecfa9; 0xf6bb4b60; 0xbebfbc70;
   0x289b7ec6; 0xeaa127fa; 0xd4ef3085; 0x04881d05;
   0xd9d4d039; 0xe6db99e5; 0x1fa27cf8; 0xc4ac5665;
   0xf4292244; 0x432aff97; 0xab9423a7; 0xfc93a039;
   0x655b59c3; 0x8f0ccc92; 0xffeff47d; 0x85845dd1;
   0x6fa87e4f; 0xfe2ce6e0; 0xa3014314; 0x4e0811a1;
   0xf7537e82; 0xbd3af235; 0x2ad7d2bb; 0xeb86d391].

Definition S5 : list Z :=
  [7; 12; 17; 22; 7; 12; 17; 22; 7; 12; 17; 22; 7; 12; 17; 22;
   5; 9; 14; 20; 5; 9; 14; 20; 5; 9; 14; 20; 5; 9; 14; 20;
   4; 11; 16; 23; 4; 11; 16; 23; 4; 11; 16; 23; 4; 11; 16; 23;
   6; 10; 15; 21; 6; 10; 15; 21; 6; 10; 15; 21; 6; 10; 15; 21].

Definition A5 : list Z := [0x67452301; 0xefcdab89; 0x98badcfe; 0x10325476].

Definition round5 (m : list Z) (s : list Z) (i : Z) : list Z :=
  match s with
  | [a; b; c; d] =>
      let '(f, g) :=
        if i <? 16 then (Z.lor (Z.land b c) (Z.land (not32 b) d), i)
        else if i <? 32 then (Z.lor (Z.land d b) (Z.land (not32 d) c), (5 * i + 1) mod 16)
        else if i <? 48 then (Z.lxor (Z.lxor b c) d, (3 * i + 5) mod 16)
        else (Z.lxor c (Z.lor b (not32 d)), (7 * i) mod 16) in
      let n := Z.to_nat i in
      let x := add32 (add32 a f) (add32 (nth n T5 0) (nth (Z.to_nat g) m 0)) in
      [d; add32 b (rotl (nth n S5 0) x); b; c]
  | _ => s
  end.

Definition compress5 (h : list Z) (block : list Z) : list Z :=
  let s := fold_left (round5 (words le_word block)) (map Z.of_nat (seq 0 64)) h in
  map (fun p => add32 (fst p) (snd p)) (combine h s).

Definition md5_digest (msg : list Byte.byte) : list Z :=
  let padded := pad le_bytes (map byte_of msg) in
  let h := fold_left compress5 (chunks (length padded) 64 padded) A5 in
  flat_map (le_bytes 4) h.

(** [hashlib.md5(data).hexdigest()] *)
Definition md5_hexdigest (msg : list Byte.byte) : string :=
  hex_of_bytes (md5_digest msg).

(** [str.encode()]: the strings of this development hold the UTF-8
    encoding of the text already. *)
Definition encode (s : string) : list Byte.byte := list_byte_of_string s.

End Hashlib.


(** ** The operations on [str] the code uses *)

(** A [str] is kept as its UTF-8 encoding, one [ascii] per byte: a
    character of the text is a lead byte followed by its continuation
    bytes.  Lengths and slices count characters; the case changes know
    the letters A-Z and a-z. *)
Module Py.

Definition between (lo hi : nat) (c : ascii) : bool :=
  let n := nat_of_ascii c in ((lo <=? n) && (n <=? hi))%nat.
Definition is_byte (n : nat) (c : ascii) : bool := (nat_of_ascii c =? n)%nat.

(** The bytes [10xxxxxx], which continue a character. *)
Definition is_continuation : ascii -> bool := between 128 191.

(** [len(s)] *)
Fixpoint len (s : string) : nat :=
  match s with
  | EmptyString => 0
  | String c r => if is_continuation c then len r else S (len r)
  end.
Definition is_upper : ascii -> bool := between 65 90.
Definition is_lower : ascii -> bool := between 97 122.
Definition is_alpha (c : ascii) : bool := is_upper c || is_lower c.

(** The white space of [str.isspace]: the characters U+0009 to U+000D,
    U+001C to U+0020, then U+0085 and U+00A0 on two bytes, and U+1680,
    U+2000 to U+200A, U+2028, U+2029, U+202F, U+205F and U+3000 on
    three. *)
Definition is_space (c : ascii) : bool := between 9 13 c || between 28 32 c.
Definition is_space2 (a b : ascii) : bool :=
  is_byte 194 a && (is_byte 133 b || is_byte 160 b).
Definition is_space3 (a b c : ascii) : bool :=
  (is_byte 225 a && is_byte 154 b && is_byte 128 c) ||
  (is_byte 226 a && is_byte 128 b &&
   (between 128 138 c || is_byte 168 c || is_byte 169 c || is_byte 175 c)) ||
  (is_byte 226 a && is_byte 129 b && is_byte 159 c) ||
  (is_byte 227 a && is_byte 128 b && is_byte 128 c).

Definition to_lower (c : ascii) : ascii :=
  if is_upper c then ascii_of_nat (nat_of_ascii c + 32) else c.
Definition to_upper (c : ascii) : ascii :=
  if is_lower c then ascii_of_nat (nat_of_ascii c - 32) else c.

(** [s.lower()] and [s.upper()]: the letters A-Z and a-z change case,
    every other byte is kept. *)
Fixpoint lower (s : string) : string :=
  match s with
  | EmptyString => EmptyString
  | String c r => String (to_lower c) (lower r)
  end.

Fixpoint upper (s : string) : string :=
  match s with
  | EmptyString => EmptyString
  | String c r => String (to_upper c) (upper r)
  end.

(** [s.title()]: a letter is upper-cased when it starts a run of
    letters and lower-cased inside one. *)
Fixpoint title_from (inside : bool) (s : string) : string :=
  match s with
  | EmptyString => EmptyString
  | String c r =>
      String (if inside then to_lower c else to_upper c) (title_from (is_alpha c) r)
  end.
Definition title : string -> string := title_from false.

(** [s.lstrip()] *)
Fixpoint lstrip (s : string) : string :=
  match s with
  | EmptyString => EmptyString
  | String a r1 =>
      if is_space a then lstrip r1
      else
        match r1 with
        | EmptyString => s
        | String b r2 =>
            if is_space2 a b then lstrip r2
            else
              match r2 with
              | EmptyString => s
              | String c r3 => if is_space3 a b c then lstrip r3 else s
              end
        end
  end.

(** [s.rstrip()] on the text read backwards: the bytes of a character
    come last byte first. *)
Fixpoint lstrip_reversed (s : string) : string :=
  match s with
  | EmptyString => EmptyString
  | String c r1 =>
      if is_space c then lstrip_reversed r1
      else
        match r1 with
        | EmptyString => s
        | String b r2 =>
            if is_space2 b c then lstrip_reversed r2
            else
              match r2 with
              | EmptyString => s
              | String a r3 => if is_space3 a b c then lstrip_reversed r3 else s
              end
        end
  end.

Fixpoint reverse (acc s : string) : string :=
  match s with
  | EmptyString => acc
  | String c r => reverse (String c acc) r
  end.

(** [s.strip()] *)
Definition strip (s : string) : string :=
  reverse EmptyString (lstrip_reversed (reverse EmptyString (lstrip s))).

(** [needle in hay] *)
Fixpoint str_in (needle hay : string) : bool :=
  String.prefix needle hay ||
  match hay with
  | EmptyString => false
  | String _ r => str_in needle r
  end.

(** [s[:n]]: the first [n] characters *)
Fixpoint slice_to (n : nat) (s : string) : string :=
  match s with
  | EmptyString => EmptyString
  | String c r =>
      if is_continuation c then String c (slice_to n r)
      else
        match n with
        | O => EmptyString
        | S k => String c (slice_to k r)
        end
  end.

(** [str(i)] for an [int] *)
Definition str_of_int (z : Z) : string := NilZero.string_of_int (Z.to_int z).

(** [sep.join(parts)] *)
Fixpoint join (sep : string) (parts : list string) : string :=
  match parts with
  | [] => EmptyString
  | [x] => x
  | x :: r => x +:+ sep +:+ join sep r
  end.

(** Truth value of a string and of an optional string ([None] and
    [""] are false). *)
Definition truthy (s : string) : bool := negb (String.eqb s EmptyString).
Definition truthy_opt (o : option string) : bool :=
  match o with
  | Some s => truthy s
  | None => false
  end.

(** The line feed and the double quote, as one-character strings. *)
Definition nl : string := String (ascii_of_nat 10) EmptyString.
Definition dq : string := String (ascii_of_nat 34) EmptyString.

End Py.

(** ** Data model *)

(** The exceptions that can leave a function of the program. *)
Inductive exn :=
| FileNotFoundError
| ValueError
| KeyError (key : string)
| TypeError
| AttributeError
| JSONDecodeError
| OSError
| GraphRecursionError
| CollaboratorError (who : string).

Inductive outcome (A : Type) :=
| Ok (a : A)
| Raise (e : exn).
Arguments Ok {A} a.
Arguments Raise {A} e.

(** A langchain [Document]. *)
Record Document := { page_content : string; source : string }.

(** What [Path.stat()] and [Path.open("rb")] give for a file:
    [st_mtime] is the modification time already cut to whole seconds,
    the way [int(stat.st_mtime)] reads it. *)
Record file := { content : list Byte.byte; st_mtime : Z }.
Definition st_size (f : file) : Z := Z.of_nat (length (content f)).

(** The dictionary [file_fingerprint] returns. *)
Record fingerprint := {
  sha256 : string;
  size : Z;
  mtime : Z;
  quick_key : string
}.

(** A JSON object in [meta.json], seen through the keys that are read
    from it; a key that is absent reads as [None], as [dict.get] does.
    The file is the descriptor of the program and, at the same path,
    the file in which the local Qdrant client keeps the registry of its
    storage, [{"collections": {...}, "aliases": {...}}]: [meta_registry]
    is the registry, by the names of its collections, when the object
    carries one.  [meta_other_keys] tells whether the object has a key
    besides these. *)
Record index_meta := {
  meta_pdf_fingerprint : option fingerprint;
  meta_chunk_size : option Z;
  meta_chunk_overlap : option Z;
  meta_embedding_model : option string;
  meta_format : option string;
  meta_collection_name : option string;
  meta_registry : option (gset string);
  meta_other_keys : bool
}.

(** A file that is read with [json.loads]: text that does not parse,
    the object it parses to, or a value that is no object (a list, a
    string, a number, [true], [false], [null]) with its truth value. *)
Inductive json_file (A : Type) :=
| Malformed
| Parsed (a : A)
| NonObject (truthy : bool).
Arguments Malformed {A}.
Arguments Parsed {A} a.
Arguments NonObject {A} truthy.

Global Instance fingerprint_eq_dec : EqDecision fingerprint.
Proof. solve_decision. Defined.

(** The three intents of [Literal["rag", "weather", "unknown"]]. *)
Inductive Intent := Rag | Weather | Unknown.

Definition intent_name (i : Intent) : string :=
  match i with
  | Rag => "rag"
  | Weather => "weather"
  | Unknown => "unknown"
  end.

(** A Qdrant vector store handle: client, collection and embeddings. *)
Record vectorstore := {
  vs_client : string;
  vs_collection_name : string;
  vs_embeddings : string
}.

(** The entry ["main"] of a weather payload: absent, a value that
    cannot be indexed by a key, or a dictionary seen through the three
    keys read in it. *)
Inductive main_entry :=
| MainMissing
| MainOther
| MainDict (temp feels_like humidity : option string).

(** The weather payload, a JSON value that is not empty: a dictionary,
    seen through the lookups the code makes on it, or another value
    (a list, a string, a number).  A field is the text of the value, or
    [None] when the lookup raises; the description is [None] as well
    when its value is no string, on which [title] raises. *)
Inductive weather_payload :=
| NotDict
| Payload (main : main_entry) (description wind : option string).

Definition main_of (wd : weather_payload) : main_entry :=
  match wd with
  | Payload main _ _ => main
  | NotDict => MainOther
  end.

(** The five lookups of [format_weather_answer]. *)
Definition main_temp (wd : weather_payload) : option string :=
  match main_of wd with
  | MainDict temp _ _ => temp
  | _ => None
  end.
Definition main_feels_like (wd : weather_payload) : option string :=
  match main_of wd with
  | MainDict _ feels_like _ => feels_like
  | _ => None
  end.
Definition main_humidity (wd : weather_payload) : option string :=
  match main_of wd with
  | MainDict _ _ humidity => humidity
  | _ => None
  end.
Definition weather_0_description (wd : weather_payload) : option string :=
  match wd with
  | Payload _ description _ => description
  | NotDict => None
  end.
Definition wind_speed (wd : weather_payload) : option string :=
  match wd with
  | Payload _ _ wind => wind
  | NotDict => None
  end.

(** Result of [requests.get(url, timeout=10)]; [body] is what
    [response.json()] gives, [None] when it raises or is empty. *)
Inductive http_result :=
| RequestFailed
| Response (status_code : Z) (body : option weather_payload).

(** A value parsed by [json.loads] from the extractor's reply, seen
    through the two keys the caller reads. *)
Inductive json_value :=
| JsonDict (city state : option string)
| JsonOther.

(** The [metadata] entry of a result. *)
Record result_metadata := {
  agent : string;
  success : option bool;
  md_city : option string;
  md_state : option string;
  temperature : option string
}.

(** The state dictionary of the workflow ([UnifiedState], a TypedDict
    with [total=False]): every key may be absent.  A key bound to
    [None] reads like an absent one. *)
Record UnifiedState := {
  question : option string;
  pdf_path : option string;
  agent_type : option Intent;
  chunk_size : option Z;
  chunk_overlap : option Z;
  embed_model : option string;
  force_rebuild : option bool;
  k : option Z;
  docs : option (list Document);
  splits : option (list Document);
  collection_name : option string;
  persist_dir : option string;
  cache_hit : option bool;
  vectorstore_ : option vectorstore;
  retrieved_docs : option (list Document);
  context : option string;
  city : option string;
  state : option string;
  weather_data : option weather_payload;
  answer : option string;
  metadata : option result_metadata;
  steps : list string
}.

(** The prompts sent to the chat model. *)
Inductive prompt :=
| SummarizeSection (content : string)
| CombineSummaries (summaries : string)
| MergeSummaries (summaries : string)
| Classify (pdf_context question : string)
| ExtractLocation (question : string)
| AnswerFromContext (question context : string).

(** The nodes of the workflow graph. *)
Inductive node :=
| RouterN | WeatherN | UnknownN | CheckCacheN | LoadPdfN | SplitDocsN
| BuildIndexN | LoadIndexN | RetrieveN | GenerateN.

Global Instance node_eq_dec : EqDecision node.
Proof. solve_decision. Defined.

(** What the program asks of its collaborators, recorded in order. *)
Inductive event :=
| Enter (n : node)
| ChatCall (p : prompt)
| ContextLookup (folder : string)
| PdfLoad (path : string)
| EmbedCall (model : string)
| SearchCall (collection question : string)
| WeatherFetch (city : string) (state : option string).

(** ** The world the program runs in *)

(** The collaborators and the documents on disk: the program reads
    them and cannot change them.  Building a client object
    ([ChatOpenAI(...)], [OpenAIEmbeddings(...)], [Qdrant(...)]) makes no
    call and is taken to succeed; every call made through one can fail. *)
Record env := {
  (** the documents: [Path(p).stat()] and [Path(p).open("rb")] *)
  disk : string -> option file;
  (** [Path(folder).glob("*.pdf")], by file name; [None] when the
      folder does not exist *)
  glob_pdf : string -> option (list string);
  (** whether [write_text] to a path succeeds *)
  writable : string -> bool;
  (** [PyPDFLoader(path).load()] *)
  pdf_loader : string -> outcome (list Document);
  (** [RecursiveCharacterTextSplitter(chunk_size, chunk_overlap).split_documents(docs)] *)
  text_splitter : Z -> Z -> list Document -> outcome (list Document);
  (** a chat chain invoked on a prompt, with its text output *)
  llm : prompt -> outcome string;
  (** [ChatPromptTemplate.from_messages] on the router's messages, by
      the text pasted into the system template: the text is parsed as
      a template, and a brace in it can make the parse raise *)
  from_messages : string -> outcome unit;
  (** [json.loads] on the extractor's reply; [None] when it raises *)
  json_loads : string -> option json_value;
  (** [OpenAIEmbeddings(model).embed_query(text)], by its length *)
  embed_query : string -> string -> outcome nat;
  (** [OpenAIEmbeddings(model).embed_documents(texts)] *)
  embed_documents : string -> list string -> outcome unit;
  (** whether [QdrantClient(path=...)] can lock the storage folder (no
      other client holds it) *)
  qdrant_open : string -> bool;
  (** the similarity search of a retriever over the stored documents:
      embedding model, stored documents, query, [k] *)
  similarity_search : string -> list Document -> string -> Z -> outcome (list Document);
  (** [requests.get] on the OpenWeather URL of a city and a state *)
  requests_get : string -> option string -> http_result
}.

(** What the program writes: its JSON files, the index directories, the
    documents stored in the Qdrant storages (collection name to stored
    documents, per storage path), the three module-level caches of
    helper.py, the collections each client object holds ([collections]
    of the local client, by name), and the record of collaborator
    calls.  A client is named by its storage path. *)
Record store := {
  cache_files : gmap string (json_file fingerprint);
  meta_files : gmap string (json_file index_meta);
  dirs : gset string;
  qdrant : gmap string (gmap string (list Document));
  client_collections : gmap string (gset string);
  _client_cache : gset string;
  _vectorstore_cache : gmap string vectorstore;
  _pdf_context_cache : gmap string string;
  trace : list event
}.

Definition set_cache_files (f : gmap string (json_file fingerprint)) (s : store) : store :=
  {| cache_files := f; meta_files := meta_files s; dirs := dirs s;
     qdrant := qdrant s; client_collections := client_collections s;
     _client_cache := _client_cache s; _vectorstore_cache := _vectorstore_cache s;
     _pdf_context_cache := _pdf_context_cache s; trace := trace s |}.
Definition set_meta_files (f : gmap string (json_file index_meta)) (s : store) : store :=
  {| cache_files := cache_files s; meta_files := f; dirs := dirs s;
     qdrant := qdrant s; client_collections := client_collections s;
     _client_cache := _client_cache s; _vectorstore_cache := _vectorstore_cache s;
     _pdf_context_cache := _pdf_context_cache s; trace := trace s |}.
Definition set_dirs (f : gset string) (s : store) : store :=
  {| cache_files := cache_files s; meta_files := meta_files s; dirs := f;
     qdrant := qdrant s; client_collections := client_collections s;
     _client_cache := _client_cache s; _vectorstore_cache := _vectorstore_cache s;
     _pdf_context_cache := _pdf_context_cache s; trace := trace s |}.
Definition set_qdrant (f : gmap string (gmap string (list Document))) (s : store) : store :=
  {| cache_files := cache_files s; meta_files := meta_files s; dirs := dirs s;
     qdrant := f; client_collections := client_collections s;
     _client_cache := _client_cache s; _vectorstore_cache := _vectorstore_cache s;
     _pdf_context_cache := _pdf_context_cache s; trace := trace s |}.
Definition set_client_collections (f : gmap string (gset string)) (s : store) : store :=
  {| cache_files := cache_files s; meta_files := meta_files s; dirs := dirs s;
     qdrant := qdrant s; client_collections := f;
     _client_cache := _client_cache s; _vectorstore_cache := _vectorstore_cache s;
     _pdf_context_cache := _pdf_context_cache s; trace := trace s |}.
Definition set_client_cache (f : gset string) (s : store) : store :=
  {| cache_files := cache_files s; meta_files := meta_files s; dirs := dirs s;
     qdrant := qdrant s; client_collections := client_collections s;
     _client_cache := f; _vectorstore_cache := _vectorstore_cache s;
     _pdf_context_cache := _pdf_context_cache s; trace := trace s |}.
Definition set_vectorstore_cache (f : gmap string vectorstore) (s : store) : store :=
  {| cache_files := cache_files s; meta_files := meta_files s; dirs := dirs s;
     qdrant := qdrant s; client_collections := client_collections s;
     _client_cache := _client_cache s; _vectorstore_cache := f;
     _pdf_context_cache := _pdf_context_cache s; trace := trace s |}.
Definition set_pdf_context_cache (f : gmap string string) (s : store) : store :=
  {| cache_files := cache_files s; meta_files := meta_files s; dirs := dirs s;
     qdrant := qdrant s; client_collections := client_collections s;
     _client_cache := _client_cache s; _vectorstore_cache := _vectorstore_cache s;
     _pdf_context_cache := f; trace := trace s |}.
Definition set_trace (f : list event) (s : store) : store :=
  {| cache_files := cache_files s; meta_files := meta_files s; dirs := dirs s;
     qdrant := qdrant s; client_collections := client_collections s;
     _client_cache := _client_cache s; _vectorstore_cache := _vectorstore_cache s;
     _pdf_context_cache := _pdf_context_cache s; trace := f |}.

(** The store of a fresh process on an empty disk. *)
Definition empty_store : store :=
  {| cache_files := ∅; meta_files := ∅; dirs := ∅; qdrant := ∅;
     client_collections := ∅; _client_cache := ∅;
     _vectorstore_cache := ∅; _pdf_context_cache := ∅; trace := [] |}.

(** ** Computations: read the world, change the store, return or raise *)

Definition M (A : Type) : Type := env -> store -> outcome A * store.

Definition ret {A} (a : A) : M A := fun _ s => (Ok a, s).
Definition raise {A} (e : exn) : M A := fun _ s => (Raise e, s).
Definition bind {A B} (m : M A) (f : A -> M B) : M B :=
  fun w s =>
    match m w s with
    | (Ok a, s') => f a w s'
    | (Raise e, s') => (Raise e, s')
    end.

Notation "'let!' x ':=' m 'in' f" := (bind m (fun x => f))
  (at level 10, x name, m at level 100, f at level 200).

(** [try: m  except Exception: h] *)
Definition try_except {A} (m : M A) (h : exn -> M A) : M A :=
  fun w s =>
    match m w s with
    | (Ok a, s') => (Ok a, s')
    | (Raise e, s') => h e w s'
    end.

Definition ask {A} (f : env -> A) : M A := fun w s => (Ok (f w), s).
Definition get {A} (f : store -> A) : M A := fun _ s => (Ok (f s), s).
Definition modify (f : store -> store) : M unit := fun _ s => (Ok tt, f s).
Definition lift {A} (o : outcome A) : M A := fun _ s => (o, s).
Definition emit (ev : event) : M unit := modify (fun s => set_trace (trace s ++ [ev]) s).

(** [d[key]] on a dictionary with optional keys. *)
Definition item {A} (key : string) (v : option A) : M A :=
  match v with
  | Some a => ret a
  | None => raise (KeyError key)
  end.

(** A call to the chat model. *)
Definition chat (p : prompt) : M string :=
  let! _ := emit (ChatCall p) in
  let! r := ask (fun w => llm w p) in
  lift r.

(** ** config.py *)

Definition INDEX_ROOT : string := ".indices".
Definition LLM_MODEL : string := "gpt-4o-mini".
Definition EMBEDDING_MODEL : string := "text-embedding-3-small".
Definition DEFAULT_CHUNK_SIZE : Z := 1000.
Definition DEFAULT_CHUNK_OVERLAP : Z := 150.
Definition DEFAULT_K : Z := 4.

(** ** pathlib and the Qdrant client *)

(** [dir / name] *)
Definition path_join (dir name : string) : string := dir +:+ "/" +:+ name.

Definition path_exists (p : string) : M bool :=
  get (fun s => bool_decide (p ∈ dirs s)).

Definition mkdir (p : string) : M unit :=
  modify (fun s => set_dirs ({[p]} ∪ dirs s) s).

(** The local Qdrant client ([QdrantClient(path=...)]).  A storage is a
    folder: the file [meta.json] in it is the registry of its
    collections, and each collection keeps its documents in a folder of
    its own.  A client object loads the registry when it is built and
    rewrites the file whenever it creates or deletes a collection.  It
    is the same file [save_metadata] writes the descriptor to. *)

Definition registry_path (client : string) : string := path_join client "meta.json".

(** The collections the client object of a storage holds. *)
Definition held (client : string) (s : store) : gset string :=
  default ∅ (client_collections s !! client).

Definition hold (client : string) (names : gset string) (s : store) : store :=
  set_client_collections (<[client := names]> (client_collections s)) s.

(** The collection folders of a storage, with the documents in them. *)
Definition stored (client : string) (s : store) : gmap string (list Document) :=
  default ∅ (qdrant s !! client).

Definition set_stored (client : string) (c : gmap string (list Document)) (s : store) : store :=
  set_qdrant (<[client := c]> (qdrant s)) s.

(** The documents of a collection; a folder that is not there holds
    none. *)
Definition points_of (client name : string) (s : store) : list Document :=
  default [] (stored client s !! name).

(** The registry [meta.json] holds, if it holds one. *)
Definition registry_of (f : option (json_file index_meta)) : option (gset string) :=
  match f with
  | Some (Parsed m) => meta_registry m
  | _ => None
  end.

(** The names of the collections of a storage: those its client holds
    when the process has one open, those the registry lists otherwise. *)
Definition collection_names (client : string) (s : store) : gset string :=
  if bool_decide (client ∈ _client_cache s) then held client s
  else default ∅ (registry_of (meta_files s !! registry_path client)).

(** The collections of the storage at [client]. *)
Definition collections_of (client : string) (s : store) : gmap string (list Document) :=
  set_to_map (fun name => (name, points_of client name s)) (collection_names client s).

(** The object [{"collections": {...}, "aliases": {}}]. *)
Definition registry (names : gset string) : index_meta :=
  {| meta_pdf_fingerprint := None; meta_chunk_size := None; meta_chunk_overlap := None;
     meta_embedding_model := None; meta_format := None; meta_collection_name := None;
     meta_registry := Some names; meta_other_keys := false |}.

(** A registry is written to [meta.json]. *)
Definition write_registry (client : string) (names : gset string) : M unit :=
  let! ok := ask (fun w => writable w (registry_path client)) in
  if ok then
    modify (fun s => set_meta_files
                       (<[registry_path client := Parsed (registry names)]> (meta_files s)) s)
  else raise OSError.

(** [QdrantLocal._save] *)
Definition save_registry (client : string) : M unit :=
  let! names := get (held client) in
  write_registry client names.

(** [QdrantClient(path=path)]: when the folder has no [meta.json], it
    is created with an empty registry; otherwise the file is parsed and
    the collections listed under its key ["collections"] are loaded.
    Then the folder is locked.  A client is named by its storage path. *)
Definition QdrantClient (path : string) : M string :=
  let! meta := get (fun s => meta_files s !! registry_path path) in
  let! names :=
    match meta with
    | None =>
        let! _ := mkdir path in
        let! _ := write_registry path ∅ in
        ret ∅
    | Some Malformed => raise JSONDecodeError
    | Some (NonObject _) => raise TypeError
    | Some (Parsed m) => item "collections" (meta_registry m)
    end in
  let! free := ask (fun w => qdrant_open w path) in
  if free then
    let! _ := mkdir path in
    let! _ := modify (hold path names) in
    ret path
  else raise (CollaboratorError "qdrant").

(** [client.get_collections().collections], by name *)
Definition get_collections (client : string) : M (list string) :=
  get (fun s => elements (held client s)).

(** [client.delete_collection]: the collection is dropped, its folder
    removed, the registry saved. *)
Definition delete_collection (client name : string) : M unit :=
  let! _ := modify (fun s =>
              set_stored client (delete name (stored client s))
                (hold client (held client s ∖ {[name]}) s)) in
  save_registry client.

(** [client.create_collection]: a collection opens the folder of its
    name, with the documents that are in it. *)
Definition create_collection (client name : string) : M unit :=
  let! names := get (held client) in
  if bool_decide (name ∈ names) then raise ValueError
  else
    let! _ := modify (hold client ({[name]} ∪ names)) in
    save_registry client.

Definition upsert (client name : string) (points : list Document) : M unit :=
  let! names := get (held client) in
  if bool_decide (name ∈ names) then
    modify (fun s =>
      set_stored client (<[name := (points_of client name s ++ points)%list]> (stored client s)) s)
  else raise ValueError.

(** [vectorstore.add_documents(docs)]: embed the texts, then store them. *)
Definition add_documents (vs : vectorstore) (ds : list Document) : M unit :=
  let! _ := emit (EmbedCall (vs_embeddings vs)) in
  let! r := ask (fun w => embed_documents w (vs_embeddings vs) (map page_content ds)) in
  let! _ := lift r in
  upsert (vs_client vs) (vs_collection_name vs) ds.

(** ** helper.py *)

Definition get_or_create_client (persist_dir : string) : M string :=
  let! cached := get (fun s => bool_decide (persist_dir ∈ _client_cache s)) in
  if cached then ret persist_dir
  else
    let! client := QdrantClient persist_dir in
    let! _ := modify (fun s => set_client_cache ({[persist_dir]} ∪ _client_cache s) s) in
    ret client.

(** [client.close()] is a collaborator: [close client] is what the call
    does, it returns or raises. *)
Fixpoint close_all (close : string -> outcome unit) (clients : list string) : M unit :=
  match clients with
  | [] => ret tt
  | client :: rest =>
      let! _ := try_except (lift (close client)) (fun _ => ret tt) in
      close_all close rest
  end.

(** [helper.cleanup_clients], which [IntegratedApp.cleanup] calls. *)
Definition cleanup_clients (close : string -> outcome unit) : M unit :=
  let! clients := get (fun s => elements (_client_cache s)) in
  let! _ := close_all close clients in
  let! _ := modify (set_client_cache ∅) in
  modify (set_vectorstore_cache ∅).

Definition load_pdf (path : string) : M (list Document) :=
  let! _ := emit (PdfLoad path) in
  let! r := ask (fun w => pdf_loader w path) in
  lift r.

Definition split_documents (ds : list Document) (chunk_size chunk_overlap : Z) : M (list Document) :=
  let! r := ask (fun w => text_splitter w chunk_size chunk_overlap ds) in
  lift r.

(** The loop of [extract_pdf_context] over the first chunks: short
    sections are skipped, and so is a section whose summary fails. *)
Fixpoint summarize_chunks (chunks : list Document) : M (list string) :=
  match chunks with
  | [] => ret []
  | chunk :: rest =>
      let text := Py.strip (page_content chunk) in
      if negb (Py.truthy text) || (Py.len text <? 100)%nat then summarize_chunks rest
      else
        let! summary := try_except (let! r := chat (SummarizeSection text) in ret (Some r))
                                   (fun _ => ret None) in
        let! others := summarize_chunks rest in
        ret (match summary with
             | Some r => r :: others
             | None => others
             end)
  end.

Definition extract_pdf_context (pdf_path model_name : string) : M string :=
  let cache_key := pdf_path +:+ ":" +:+ model_name in
  let! cached := get (fun s => _pdf_context_cache s !! cache_key) in
  match cached with
  | Some summary => ret summary
  | None =>
      let! ds := load_pdf pdf_path in
      let! chunks := split_documents ds 2000 200 in
      let! all_summaries := summarize_chunks (firstn 10 chunks) in
      match all_summaries with
      | [] => ret "Unable to extract meaningful context from the PDF."
      | _ =>
          let combined_text := Py.join (Py.nl +:+ Py.nl) all_summaries in
          try_except
            (let! final_summary := chat (CombineSummaries combined_text) in
             let! _ := modify (fun s =>
                         set_pdf_context_cache
                           (<[cache_key := Py.strip final_summary]> (_pdf_context_cache s)) s) in
             ret (Py.strip final_summary))
            (fun _ => ret (Py.slice_to 1000 combined_text))
      end
  end.

Fixpoint summarize_pdfs (folder : string) (names : list string) (model_name : string) : M (list string) :=
  match names with
  | [] => ret []
  | name :: rest =>
      let! summary := extract_pdf_context (path_join folder name) model_name in
      let! others := summarize_pdfs folder rest model_name in
      ret (("📄 " +:+ name +:+ Py.nl +:+ summary +:+ Py.nl) :: others)
  end.

Definition extract_all_pdf_contexts (folder_path model_name : string) : M string :=
  let! _ := emit (ContextLookup folder_path) in
  let! folder := ask (fun w => glob_pdf w folder_path) in
  match folder with
  | None => raise FileNotFoundError
  | Some [] => raise ValueError
  | Some pdf_files =>
      let! all_summaries := summarize_pdfs folder_path pdf_files model_name in
      let! final_context := chat (MergeSummaries (Py.join Py.nl all_summaries)) in
      ret (Py.strip final_context)
  end.

Definition build_qdrant_vectorstore (splits : list Document)
    (collection_name persist_dir embed_model_name : string) : M vectorstore :=
  let! client := get_or_create_client persist_dir in
  let! _ := emit (EmbedCall embed_model_name) in
  let! test_embedding := ask (fun w => embed_query w embed_model_name "test") in
  let! vector_size := lift test_embedding in
  let! _ := try_except (delete_collection client collection_name) (fun _ => ret tt) in
  let! _ := create_collection client collection_name in
  let vs := {| vs_client := client; vs_collection_name := collection_name;
               vs_embeddings := embed_model_name |} in
  let! _ := add_documents vs splits in
  ret vs.

Definition load_qdrant_vectorstore (collection_name persist_dir embed_model_name : string)
    : M vectorstore :=
  let cache_key := persist_dir +:+ ":" +:+ collection_name +:+ ":" +:+ embed_model_name in
  let! cached := get (fun s => _vectorstore_cache s !! cache_key) in
  match cached with
  | Some vs => ret vs
  | None =>
      let! client := get_or_create_client persist_dir in
      let vs := {| vs_client := client; vs_collection_name := collection_name;
                   vs_embeddings := embed_model_name |} in
      let! _ := modify (fun s =>
                  set_vectorstore_cache (<[cache_key := vs]> (_vectorstore_cache s)) s) in
      ret vs
  end.

Definition save_metadata (persist_dir : string) (metadata : index_meta) : M unit :=
  let! _ := mkdir persist_dir in
  let meta_path := path_join persist_dir "meta.json" in
  let! ok := ask (fun w => writable w meta_path) in
  if ok then modify (fun s => set_meta_files (<[meta_path := Parsed metadata]> (meta_files s)) s)
  else raise OSError.

(** The value read is never [Malformed]: text that does not parse
    makes [json.loads] raise. *)
Definition load_metadata (persist_dir : string) : M (option (json_file index_meta)) :=
  let meta_path := path_join persist_dir "meta.json" in
  let! f := get (fun s => meta_files s !! meta_path) in
  match f with
  | Some Malformed => raise JSONDecodeError
  | Some value => ret (Some value)
  | None => ret None
  end.

(** The name of the cache file of [path]. *)
Definition cache_file_of (path : string) : string :=
  ".cache_" +:+ Hashlib.md5_hexdigest (Hashlib.encode path) +:+ ".json".

Definition make_quick_key (f : file) : string :=
  Py.str_of_int (st_size f) +:+ "_" +:+ Py.str_of_int (st_mtime f).

(** The block that reads the cache file: the entry is used when it
    parses and carries the current quick key; a missing file and any
    exception give nothing. *)
Definition read_cached (cache : option (json_file fingerprint)) (quick_key_ : string)
    : option fingerprint :=
  match cache with
  | Some (Parsed c) => if String.eqb (quick_key c) quick_key_ then Some c else None
  | Some Malformed => None
  | Some (NonObject _) => None
  | None => None
  end.

(** The dictionary built after hashing the content. *)
Definition hashed (stat : file) : fingerprint :=
  {| sha256 := Hashlib.sha256_hexdigest (content stat);
     size := st_size stat;
     mtime := st_mtime stat;
     quick_key := make_quick_key stat |}.

Definition file_fingerprint (path : string) : M fingerprint :=
  let! p := ask (fun w => disk w path) in
  match p with
  | None => raise FileNotFoundError
  | Some stat =>
      let quick_key_ := make_quick_key stat in
      let cache_file := cache_file_of path in
      let! cache := get (fun s => cache_files s !! cache_file) in
      match read_cached cache quick_key_ with
      | Some cached => ret cached
      | None =>
          let result := hashed stat in
          let! ok := ask (fun w => writable w cache_file) in
          let! _ := (if ok then modify (fun s =>
                       set_cache_files (<[cache_file := Parsed result]> (cache_files s)) s)
                     else ret tt) in
          ret result
      end
  end.

Definition generate_collection_name (pdf_path : string) : M string :=
  let! fp := file_fingerprint pdf_path in
  ret ("pdf_" +:+ Py.slice_to 24 (sha256 fp)).

Definition get_index_metadata (pdf_path : string) (chunk_size chunk_overlap : Z)
    (embed_model : string) : M index_meta :=
  let! fp := file_fingerprint pdf_path in
  ret {| meta_pdf_fingerprint := Some fp;
         meta_chunk_size := Some chunk_size;
         meta_chunk_overlap := Some chunk_overlap;
         meta_embedding_model := Some embed_model;
         meta_format := Some "v2";
         meta_collection_name := None;
         meta_registry := None;
         meta_other_keys := false |}.

(** [not saved_meta] for a dictionary that was read: it has no key. *)
Definition meta_is_empty (m : index_meta) : bool :=
  match m with
  | {| meta_pdf_fingerprint := None; meta_chunk_size := None; meta_chunk_overlap := None;
       meta_embedding_model := None; meta_format := None; meta_collection_name := None;
       meta_registry := None; meta_other_keys := false |} => true
  | _ => false
  end.

(** [not saved_meta] for a value that was read. *)
Definition falsy (value : json_file index_meta) : bool :=
  match value with
  | Parsed m => meta_is_empty m
  | NonObject truthy => negb truthy
  | Malformed => true
  end.

(** The receiver of [saved_meta.get]: a value that is no object has no
    [get]. *)
Definition getter (value : json_file index_meta) : M index_meta :=
  match value with
  | Parsed m => ret m
  | NonObject _ => raise AttributeError
  | Malformed => raise AttributeError
  end.

(** [saved.get(key) == current] *)
Definition get_eq {A} `{EqDecision A} (saved : option A) (current : A) : bool :=
  bool_decide (saved = Some current).

Definition is_index_valid (collection_name persist_dir pdf_path : string)
    (chunk_size chunk_overlap : Z) (embed_model : string) : M bool :=
  let! there := path_exists persist_dir in
  if negb there then ret false
  else
    let! found :=
      try_except
        (let! client := get_or_create_client persist_dir in
         let! collections := get_collections client in
         ret (existsb (String.eqb collection_name) collections))
        (fun _ => ret false) in
    if negb found then ret false
    else
      let! saved_meta := load_metadata persist_dir in
      match saved_meta with
      | None => ret false
      | Some value =>
          if falsy value then ret false
          else
            let! current_meta := get_index_metadata pdf_path chunk_size chunk_overlap embed_model in
            let! saved := getter value in
            let! fp := item "pdf_fingerprint" (meta_pdf_fingerprint current_meta) in
            let! cs := item "chunk_size" (meta_chunk_size current_meta) in
            let! co := item "chunk_overlap" (meta_chunk_overlap current_meta) in
            let! em := item "embedding_model" (meta_embedding_model current_meta) in
            ret (get_eq (meta_pdf_fingerprint saved) fp &&
                 get_eq (meta_chunk_size saved) cs &&
                 get_eq (meta_chunk_overlap saved) co &&
                 get_eq (meta_embedding_model saved) em)
      end.

Definition format_documents (ds : list Document) : string :=
  Py.join (Py.nl +:+ Py.nl) (map page_content ds).

(** ** The state dictionary and the updates the nodes return *)

(** One [key: value] pair of the dictionary a node returns. *)
Inductive entry :=
| Agent_type (v : Intent)
| Docs (v : list Document)
| Splits (v : list Document)
| Collection_name (v : string)
| Persist_dir (v : string)
| Cache_hit (v : bool)
| Vectorstore (v : vectorstore)
| Retrieved_docs (v : list Document)
| Context (v : string)
| City (v : string)
| State (v : option string)
| Weather_data (v : weather_payload)
| Answer (v : string)
| Metadata (v : result_metadata)
| Steps (v : list string).

(** The engine writes a returned pair into the state: a key is
    overwritten, except [steps], whose reducer is [operator.add]. *)
Definition write (st : UnifiedState) (e : entry) : UnifiedState :=
  let '{| question := q; pdf_path := pp; agent_type := at_; chunk_size := cs;
          chunk_overlap := co; embed_model := em; force_rebuild := fr; k := k_;
          docs := ds; splits := sp; collection_name := cn; persist_dir := pd;
          cache_hit := ch; vectorstore_ := vs; retrieved_docs := rd; context := cx;
          city := ci; state := sa; weather_data := wd; answer := an;
          metadata := md; steps := ss |} := st in
  let mk at_ ds sp cn pd ch vs rd cx ci sa wd an md ss :=
    {| question := q; pdf_path := pp; agent_type := at_; chunk_size := cs;
       chunk_overlap := co; embed_model := em; force_rebuild := fr; k := k_;
       docs := ds; splits := sp; collection_name := cn; persist_dir := pd;
       cache_hit := ch; vectorstore_ := vs; retrieved_docs := rd; context := cx;
       city := ci; state := sa; weather_data := wd; answer := an;
       metadata := md; steps := ss |} in
  match e with
  | Agent_type v => mk (Some v) ds sp cn pd ch vs rd cx ci sa wd an md ss
  | Docs v => mk at_ (Some v) sp cn pd ch vs rd cx ci sa wd an md ss
  | Splits v => mk at_ ds (Some v) cn pd ch vs rd cx ci sa wd an md ss
  | Collection_name v => mk at_ ds sp (Some v) pd ch vs rd cx ci sa wd an md ss
  | Persist_dir v => mk at_ ds sp cn (Some v) ch vs rd cx ci sa wd an md ss
  | Cache_hit v => mk at_ ds sp cn pd (Some v) vs rd cx ci sa wd an md ss
  | Vectorstore v => mk at_ ds sp cn pd ch (Some v) rd cx ci sa wd an md ss
  | Retrieved_docs v => mk at_ ds sp cn pd ch vs (Some v) cx ci sa wd an md ss
  | Context v => mk at_ ds sp cn pd ch vs rd (Some v) ci sa wd an md ss
  | City v => mk at_ ds sp cn pd ch vs rd cx (Some v) sa wd an md ss
  | State v => mk at_ ds sp cn pd ch vs rd cx ci v wd an md ss
  | Weather_data v => mk at_ ds sp cn pd ch vs rd cx ci sa (Some v) an md ss
  | Answer v => mk at_ ds sp cn pd ch vs rd cx ci sa wd (Some v) md ss
  | Metadata v => mk at_ ds sp cn pd ch vs rd cx ci sa wd an (Some v) ss
  | Steps v => mk at_ ds sp cn pd ch vs rd cx ci sa wd an md (ss ++ v)%list
  end.

Definition merge (st : UnifiedState) (update : list entry) : UnifiedState :=
  fold_left write update st.

(** ** utils.py: the nodes of the document pipeline *)

Definition check_cache_node (st : UnifiedState) : M (list entry) :=
  let! pdf := item "pdf_path" (pdf_path st) in
  let! collection_name := generate_collection_name pdf in
  let persist_dir := path_join INDEX_ROOT collection_name in
  let! cs := item "chunk_size" (chunk_size st) in
  let! co := item "chunk_overlap" (chunk_overlap st) in
  let! em := item "embed_model" (embed_model st) in
  let! valid := is_index_valid collection_name persist_dir pdf cs co em in
  let cache_hit := valid && negb (default false (force_rebuild st)) in
  let status := if cache_hit then "✓ Found valid cached index" else "✗ No valid cache found" in
  ret [Collection_name collection_name; Persist_dir persist_dir; Cache_hit cache_hit;
       Steps [status]].

Definition len_str {A} (l : list A) : string := Py.str_of_int (Z.of_nat (length l)).

Definition load_pdf_node (st : UnifiedState) : M (list entry) :=
  let! pdf := item "pdf_path" (pdf_path st) in
  let! ds := load_pdf pdf in
  ret [Docs ds; Steps ["✓ Loaded PDF (" +:+ len_str ds +:+ " pages)"]].

Definition split_docs_node (st : UnifiedState) : M (list entry) :=
  let! ds := item "docs" (docs st) in
  let! cs := item "chunk_size" (chunk_size st) in
  let! co := item "chunk_overlap" (chunk_overlap st) in
  let! sp := split_documents ds cs co in
  ret [Splits sp; Steps ["✓ Split into " +:+ len_str sp +:+ " chunks"]].

Definition build_index_node (st : UnifiedState) : M (list entry) :=
  let! sp := item "splits" (splits st) in
  let! name := item "collection_name" (collection_name st) in
  let! dir := item "persist_dir" (persist_dir st) in
  let! em := item "embed_model" (embed_model st) in
  let! vs := build_qdrant_vectorstore sp name dir em in
  let! pdf := item "pdf_path" (pdf_path st) in
  let! cs := item "chunk_size" (chunk_size st) in
  let! co := item "chunk_overlap" (chunk_overlap st) in
  let! m := get_index_metadata pdf cs co em in
  let m' := {| meta_pdf_fingerprint := meta_pdf_fingerprint m;
               meta_chunk_size := meta_chunk_size m;
               meta_chunk_overlap := meta_chunk_overlap m;
               meta_embedding_model := meta_embedding_model m;
               meta_format := meta_format m;
               meta_collection_name := Some name;
               meta_registry := meta_registry m;
               meta_other_keys := meta_other_keys m |} in
  let! _ := save_metadata dir m' in
  ret [Vectorstore vs; Steps ["✓ Built and saved new Qdrant index"]].

Definition load_index_node (st : UnifiedState) : M (list entry) :=
  let! name := item "collection_name" (collection_name st) in
  let! dir := item "persist_dir" (persist_dir st) in
  let! em := item "embed_model" (embed_model st) in
  let! vs := load_qdrant_vectorstore name dir em in
  ret [Vectorstore vs; Steps ["⚡ Loaded cached index (fast path)"]].

(** [vectorstore.as_retriever(...).invoke(question)] *)
Definition retriever_invoke (vs : vectorstore) (k_ : Z) (q : string) : M (list Document) :=
  let! _ := emit (SearchCall (vs_collection_name vs) q) in
  let! c := get (collections_of (vs_client vs)) in
  match c !! vs_collection_name vs with
  | Some stored =>
      let! r := ask (fun w => similarity_search w (vs_embeddings vs) stored q k_) in
      lift r
  | None => raise (CollaboratorError "qdrant")
  end.

Definition retrieve_node (st : UnifiedState) : M (list entry) :=
  let! vs := item "vectorstore" (vectorstore_ st) in
  let! q := item "question" (question st) in
  let! ds := retriever_invoke vs (default 4 (k st)) q in
  let context_ := format_documents ds in
  ret [Retrieved_docs ds; Context context_;
       Steps ["✓ Retrieved " +:+ len_str ds +:+ " relevant chunks"]].

Definition generate_answer_node (st : UnifiedState) : M (list entry) :=
  let! q := item "question" (question st) in
  let! cx := item "context" (context st) in
  let! answer_ := chat (AnswerFromContext q cx) in
  ret [Answer answer_; Steps ["✓ Generated answer"]].

Definition should_build_index (st : UnifiedState) : M string :=
  let! hit := item "cache_hit" (cache_hit st) in
  ret (if hit then "load_index" else "load_pdf").

(** ** agent_router.py *)

Definition weather_keywords : list string :=
  ["weather"; "temperature"; "rain"; "climate"; "humidity"; "forecast"].

(** [category if category in ["rag", "weather", "unknown"] else "unknown"] *)
Definition coerce_category (category : string) : Intent :=
  if String.eqb category "rag" then Rag
  else if String.eqb category "weather" then Weather
  else Unknown.

Definition route_to_agent (question_ : string) (pdf_available : bool) : M Intent :=
  if existsb (fun word => Py.str_in word (Py.lower question_)) weather_keywords then ret Weather
  else
    let! pdf_context :=
      (if pdf_available then extract_all_pdf_contexts "uploaded_pdfs" LLM_MODEL
       else ret EmptyString) in
    if negb (Py.truthy pdf_context) then ret Unknown
    else
      let! prompt_ := ask (fun w => from_messages w (Py.slice_to 3000 pdf_context)) in
      let! _ := lift prompt_ in
      try_except
        (let! result := chat (Classify (Py.slice_to 3000 pdf_context) question_) in
         let category := Py.lower (Py.strip result) in
         ret (coerce_category category))
        (fun _ => ret Unknown).

(** ** routing_nodes.py *)

Definition router_node (st : UnifiedState) : M (list entry) :=
  let pdf_available := Py.truthy_opt (pdf_path st) in
  let! q := item "question" (question st) in
  let! agent_type_ := route_to_agent q pdf_available in
  ret [Agent_type agent_type_;
       Steps ["🧭 Routed to: " +:+ Py.upper (intent_name agent_type_) +:+ " agent"]].

(** ** weather_agent.py *)

Definition extract_location_from_query (question_ : string) : M json_value :=
  let! result := chat (ExtractLocation question_) in
  let! parsed := ask (fun w => json_loads w result) in
  ret (match parsed with
       | Some location => location
       | None => JsonDict None None
       end).

Definition fetch_weather_data (city_ : string) (state_ : option string)
    : M (option weather_payload) :=
  if negb (Py.truthy city_) then ret None
  else
    let! _ := emit (WeatherFetch city_ state_) in
    let! response := ask (fun w => requests_get w city_ state_) in
    ret (match response with
         | Response status_code body => if status_code =? 200 then body else None
         | RequestFailed => None
         end).

Definition format_weather_answer (weather_data_ : option weather_payload) (city_ : string)
    : string :=
  match weather_data_ with
  | None => "Sorry, couldn't fetch weather for " +:+ city_ +:+ "."
  | Some wd =>
      match main_temp wd, main_feels_like wd, main_humidity wd,
            weather_0_description wd, wind_speed wd with
      | Some temp, Some feels_like, Some humidity, Some description, Some wind =>
          "🌤️ **Weather in " +:+ Py.title city_ +:+ "**

**Temperature:** " +:+ temp +:+ "°C (Feels like " +:+ feels_like +:+ "°C)
**Condition:** " +:+ Py.title description +:+ "
**Humidity:** " +:+ humidity +:+ "%
**Wind Speed:** " +:+ wind +:+ " m/s

Have a great day! 🌈"
      | _, _, _, _, _ => "Weather data received but couldn't parse it."
      end
  end.

(** ** weather_nodes.py *)

Definition no_city_answer : string :=
  "I couldn't identify a city from your question. Please specify a city name.

**Example:** 'What's the weather in Mumbai?' or 'Temperature in Pune, Maharashtra?'".

(** [f"{city}, {state_name}" if state_name else city] *)
Definition location_str (city_ : string) (state_name : option string) : string :=
  if Py.truthy_opt state_name then city_ +:+ ", " +:+ default EmptyString state_name
  else city_.

Definition fetch_failed_answer (city_ : string) (state_name : option string) : string :=
  "Sorry, couldn't fetch weather data for " +:+ location_str city_ state_name +:+
  ". Please check the city/state name and try again.".

(** [weather_data["main"]["temp"]] *)
Definition main_temp_item (wd : weather_payload) : M string :=
  match wd with
  | NotDict => raise TypeError
  | Payload MainMissing _ _ => raise (KeyError "main")
  | Payload MainOther _ _ => raise TypeError
  | Payload (MainDict temp _ _) _ _ => item "temp" temp
  end.

Definition weather_node (st : UnifiedState) : M (list entry) :=
  let! q := item "question" (question st) in
  let! location := extract_location_from_query q in
  match location with
  | JsonOther => raise AttributeError
  | JsonDict city_ state_name =>
      if negb (Py.truthy_opt city_) then
        ret [Answer no_city_answer;
             Metadata {| agent := "weather"; success := Some false; md_city := None;
                         md_state := None; temperature := None |};
             Steps ["❌ No city found in query"]]
      else
        let city_ := default EmptyString city_ in
        let! weather_data_ := fetch_weather_data city_ state_name in
        match weather_data_ with
        | None =>
            ret [Answer (fetch_failed_answer city_ state_name);
                 Metadata {| agent := "weather"; success := Some false; md_city := Some city_;
                             md_state := state_name; temperature := None |};
                 Steps ["❌ Weather API failed for " +:+ location_str city_ state_name]]
        | Some wd =>
            let answer_ := format_weather_answer (Some wd) city_ in
            let! temp := main_temp_item wd in
            ret [City city_; State state_name; Weather_data wd; Answer answer_;
                 Metadata {| agent := "weather"; success := Some true; md_city := Some city_;
                             md_state := state_name; temperature := Some temp |};
                 Steps ["✓ Fetched weather for " +:+ city_ +:+
                        (if Py.truthy_opt state_name
                         then ", " +:+ default EmptyString state_name
                         else EmptyString)]]
        end
  end.

Definition unknown_node (st : UnifiedState) : M (list entry) :=
  let pdf_status := if Py.truthy_opt (pdf_path st) then "✓ PDF loaded" else "✗ No PDF" in
  ret [Answer ("I can help you with:

1. 📄 **Document Questions** - Ask about your uploaded PDF
   Status: " +:+ pdf_status +:+ "
   
2. 🌤️ **Weather Information** - Get weather for any city
   Example: " +:+ Py.dq +:+ "What's the weather in Mumbai?" +:+ Py.dq +:+ "

Please ask a question in one of these categories!");
       Metadata {| agent := "unknown"; success := None; md_city := None; md_state := None;
                   temperature := None |};
       Steps ["❓ Unknown query type"]].

(** ** integrated_workflow.py *)

Definition route_after_classification (st : UnifiedState) : string :=
  match default Unknown (agent_type st) with
  | Weather => "weather"
  | Rag => if negb (Py.truthy_opt (pdf_path st)) then "unknown" else "check_cache"
  | Unknown => "unknown"
  end.

(** The function a node name is bound to by [graph.add_node]. *)
Definition node_function (n : node) : UnifiedState -> M (list entry) :=
  match n with
  | RouterN => router_node
  | WeatherN => weather_node
  | UnknownN => unknown_node
  | CheckCacheN => check_cache_node
  | LoadPdfN => load_pdf_node
  | SplitDocsN => split_docs_node
  | BuildIndexN => build_index_node
  | LoadIndexN => load_index_node
  | RetrieveN => retrieve_node
  | GenerateN => generate_answer_node
  end.

(** A conditional edge: the key the function returns is looked up in
    the table given to [add_conditional_edges]. *)
Definition dispatch (key : string) (table : list (string * node)) : M (option node) :=
  match find (fun kv => String.eqb (fst kv) key) table with
  | Some kv => ret (Some (snd kv))
  | None => raise (KeyError key)
  end.

(** The edges of the graph; [None] is [END]. *)
Definition next_node (n : node) (st : UnifiedState) : M (option node) :=
  match n with
  | RouterN =>
      dispatch (route_after_classification st)
        [("weather", WeatherN); ("check_cache", CheckCacheN); ("unknown", UnknownN)]
  | WeatherN => ret None
  | UnknownN => ret None
  | CheckCacheN =>
      let! key := should_build_index st in
      dispatch key [("load_index", LoadIndexN); ("load_pdf", LoadPdfN)]
  | LoadPdfN => ret (Some SplitDocsN)
  | SplitDocsN => ret (Some BuildIndexN)
  | BuildIndexN => ret (Some RetrieveN)
  | LoadIndexN => ret (Some RetrieveN)
  | RetrieveN => ret (Some GenerateN)
  | GenerateN => ret None
  end.

(** The engine: run the node, merge what it returns into the state,
    follow the edge.  [limit] is the recursion limit of the graph. *)
Fixpoint run (limit : nat) (n : node) (st : UnifiedState) : M UnifiedState :=
  match limit with
  | O => raise GraphRecursionError
  | S limit' =>
      let! _ := emit (Enter n) in
      let! update := node_function n st in
      let st' := merge st update in
      let! succ := next_node n st' in
      match succ with
      | None => ret st'
      | Some n' => run limit' n' st'
      end
  end.

Definition recursion_limit : nat := 25.

(** [workflow.invoke(input_state)]: the graph starts at the router. *)
Definition invoke (input_state : UnifiedState) : M UnifiedState :=
  run recursion_limit RouterN input_state.

(** ** integrated_app.py *)

Definition query (question_ : string) (pdf_path_ : option string)
    (chunk_size_ chunk_overlap_ : Z) (embed_model_ : string) (k_ : Z)
    (force_rebuild_ : bool) : M UnifiedState :=
  let input_state :=
    {| question := Some question_; pdf_path := pdf_path_; agent_type := None;
       chunk_size := Some chunk_size_; chunk_overlap := Some chunk_overlap_;
       embed_model := Some embed_model_; force_rebuild := Some force_rebuild_;
       k := Some k_; docs := None; splits := None; collection_name := None;
       persist_dir := None; cache_hit := None; vectorstore_ := None;
       retrieved_docs := None; context := None; city := None; state := None;
       weather_data := None; answer := None; metadata := None; steps := [] |} in
  invoke input_state.

(** [IntegratedApp.get_sources]: for each retrieved document the first
    200 characters of its text followed by ["..."], and its metadata. *)
Definition get_sources (result : UnifiedState) : list (string * string) :=
  map (fun doc => (Py.slice_to 200 (page_content doc) +:+ "...", source doc))
      (default [] (retrieved_docs result)).

(** ** The engine as a transition system *)

(** One transition in the world [w]: the node is entered and returns,
    its update is merged, and its edge leads to the next node. *)
Inductive step (w : env) : node * UnifiedState * store -> node * UnifiedState * store -> Prop :=
| step_edge n st s update s1 n' s2 :
    node_function n st w (set_trace (trace s ++ [Enter n]) s) = (Ok update, s1) ->
    next_node n (merge st update) w s1 = (Ok (Some n'), s2) ->
    step w (n, st, s) (n', merge st update, s2).

(** The nodes after which the graph ends. *)
Definition terminal (n : node) : bool :=
  match n with
  | WeatherN | UnknownN | GenerateN => true
  | _ => false
  end.

(** The number of nodes on the longest path from a node to the end. *)
Definition rank (n : node) : nat :=
  match n with
  | RouterN => 7
  | CheckCacheN => 6
  | LoadPdfN => 5
  | SplitDocsN => 4
  | BuildIndexN => 3
  | LoadIndexN => 3
  | RetrieveN => 2
  | GenerateN => 1
  | WeatherN => 1
  | UnknownN => 1
  end.

(** ** Vocabulary of the properties *)

(** The value a computation returned, if it did. *)
Definition fst_ok {A} (r : outcome A * store) : option A :=
  match fst r with
  | Ok a => Some a
  | Raise _ => None
  end.

(** [s'] differs from [s] at most in the fingerprint cache files. *)
Definition same_but_cache (s s' : store) : Prop :=
  s' = set_cache_files (cache_files s') s.

(** A computation preserves a component of the store when, whatever it
    returns or raises, the component is as it was. *)
Definition preserves {A X : Type} (proj : store -> X) (m : M A) : Prop :=
  forall w s, proj (snd (m w s)) = proj s.

(** A computation respects a relation on stores when, whatever it
    returns or raises, the store it leaves is related to the one it
    started from. *)
Definition respects {A : Type} (R : store -> store -> Prop) (m : M A) : Prop :=
  forall w s, R s (snd (m w s)).

(** The character [c] does not occur in [s]. *)
Fixpoint free_of (c : ascii) (s : string) : Prop :=
  match s with
  | EmptyString => True
  | String a r => a <> c /\ free_of c r
  end.

(** What [fetch_weather_data] makes of the provider's answer. *)
Definition fetched (r : http_result) : option weather_payload :=
  match r with
  | Response status_code body => if status_code =? 200 then body else None
  | RequestFailed => None
  end.

(** The store after [meta.json] of a storage was written with the
    registry [names], and after a client has opened the storage: the
    folder is there, the client holds [names] and is cached. *)
Definition registered (dir : string) (names : gset string) (s : store) : store :=
  set_meta_files (<[registry_path dir := Parsed (registry names)]> (meta_files s)) s.

Definition opened (dir : string) (names : gset string) (s : store) : store :=
  set_client_cache ({[dir]} ∪ _client_cache s)
    (hold dir names (set_dirs ({[dir]} ∪ dirs s) s)).

(** [s'] differs from [s] at most in the storage at [dir] (the
    collections its client holds, the documents stored in it and its
    file [meta.json]) and in the record of calls. *)
Definition storage_only (dir : string) (s s' : store) : Prop :=
  cache_files s' = cache_files s /\
  dirs s' = dirs s /\
  _client_cache s' = _client_cache s /\
  _vectorstore_cache s' = _vectorstore_cache s /\
  _pdf_context_cache s' = _pdf_context_cache s /\
  (forall d, d <> dir -> qdrant s' !! d = qdrant s !! d) /\
  (forall d, d <> dir -> client_collections s' !! d = client_collections s !! d) /\
  (forall p, p <> registry_path dir -> meta_files s' !! p = meta_files s !! p).

(** The nodes a store records as entered, in order. *)
Definition entered (s : store) : list node :=
  omap (fun ev => match ev with
                  | Enter n => Some n
                  | _ => None
                  end) (trace s).

(** The edges [build_integrated_workflow] declares. *)
Definition edge (a b : node) : bool :=
  match a, b with
  | RouterN, WeatherN | RouterN, CheckCacheN | RouterN, UnknownN => true
  | CheckCacheN, LoadIndexN | CheckCacheN, LoadPdfN => true
  | LoadPdfN, SplitDocsN => true
  | SplitDocsN, BuildIndexN => true
  | BuildIndexN, RetrieveN => true
  | LoadIndexN, RetrieveN => true
  | RetrieveN, GenerateN => true
  | _, _ => false
  end.

(** A list of nodes in which each one is joined to the next by an edge. *)
Fixpoint follows (p : list node) : bool :=
  match p with
  | a :: (b :: _) as rest => edge a b && follows rest
  | _ => true
  end.

Definition has_weather_keyword (q : string) : bool :=
  existsb (fun word => Py.str_in word (Py.lower q)) weather_keywords.

(** The keys of the state that [query] fills in from its arguments. *)
Definition inputs (st : UnifiedState) :
    option string * option string * option Z * option Z * option string * option bool * option Z :=
  (question st, pdf_path st, chunk_size st, chunk_overlap st, embed_model st,
   force_rebuild st, k st).

(** The step lines an update carries. *)
Definition added_steps (update : list entry) : list string :=
  flat_map (fun e => match e with
                     | Steps v => v
                     | _ => []
                     end) update.

(** The first block of [is_index_valid]: is the collection listed? *)
Definition collection_listed (name dir : string) : M bool :=
  try_except
    (let! client := get_or_create_client dir in
     let! collections := get_collections client in
     ret (existsb (String.eqb name) collections))
    (fun _ => ret false).

(** A process that has just started: the caches of the module are
    empty, the disk is as it was left. *)
Definition restarted (s : store) : store :=
  set_pdf_context_cache ∅
    (set_vectorstore_cache ∅ (set_client_cache ∅ (set_client_collections ∅ s))).

(** The stored documents are as they were, and so is every
    [meta.json] that was there; one that was not there is still not
    there, or it holds a registry that lists no collection. *)
Definition index_kept (s s' : store) : Prop :=
  qdrant s' = qdrant s /\
  forall path,
    match meta_files s !! path with
    | Some value => meta_files s' !! path = Some value
    | None => meta_files s' !! path = None \/
              meta_files s' !! path = Some (Parsed (registry ∅))
    end.

(** The persisted index: the documents of the storages and the files
    [meta.json]. *)
Definition index_state (s : store) :
    gmap string (gmap string (list Document)) * gmap string (json_file index_meta) :=
  (qdrant s, meta_files s).

(** The texts [extract_pdf_context] sends to the model: the stripped
    sections of at least 100 characters. *)
Definition sections (chunks : list Document) : list string :=
  List.filter (fun text => negb (negb (Py.truthy text) || (Py.len text <? 100)%nat))
         (map (fun chunk => Py.strip (page_content chunk)) chunks).

(** The number of calls to the chat model a trace records. *)
Definition chat_calls (l : list event) : nat :=
  length (List.filter (fun ev => match ev with
                                 | ChatCall _ => true
                                 | _ => false
                                 end) l).

(** ** Example worlds *)

Module Demo.

(** A short report and a revision of it of the same length, saved
    within the same second. *)
Definition report_v1 : file :=
  {| content := Hashlib.encode "abc"; st_mtime := 1700000000 |}.
Definition report_v2 : file :=
  {| content := Hashlib.encode "abd"; st_mtime := 1700000000 |}.

Definition page : Document :=
  {| page_content :=
       "The quarterly report covers revenue, costs, staffing and the outlook for the next fiscal year, section by section.";
     source := "report.pdf" |}.

Definition pune_weather : weather_payload :=
  Payload (MainDict (Some "31.4") (Some "33.0") (Some "48")) (Some "scattered clouds")
          (Some "3.6").

(** A body that parses and is not empty, without the [main] entry. *)
Definition bare_payload : weather_payload := Payload MainMissing None None.

(** A world with the report at ["report.pdf"] and in the upload
    folder, a chat model that classifies every question as [reply],
    and collaborators that answer as given. *)
Definition world (report : file) (loader : string -> outcome (list Document))
    (embedded : outcome unit) (reply : string) (location : option json_value)
    (http : http_result) : env :=
  {| disk := fun p => if String.eqb p "report.pdf" then Some report else None;
     glob_pdf := fun f => if String.eqb f "uploaded_pdfs" then Some ["report.pdf"] else None;
     writable := fun _ => true;
     pdf_loader := loader;
     text_splitter := fun _ _ ds => Ok ds;
     llm := fun p =>
              match p with
              | Classify _ _ => Ok reply
              | AnswerFromContext _ _ => Ok "The report is about revenue."
              | _ => Ok "A summary of the report."
              end;
     from_messages := fun _ => Ok tt;
     json_loads := fun _ => location;
     embed_query := fun _ _ => Ok 1536%nat;
     embed_documents := fun _ _ => embedded;
     qdrant_open := fun _ => true;
     similarity_search := fun _ stored _ _ => Ok stored;
     requests_get := fun _ _ => http |}.

Definition healthy (report : file) : env :=
  world report (fun _ => Ok [page]) (Ok tt) "rag" None RequestFailed.


(** The same, with a loader that cannot read ["report.pdf"]. *)
Definition unreadable (report : file) : env :=
  world report
        (fun p => if String.eqb p "report.pdf" then Raise (CollaboratorError "pypdf")
                  else Ok [page])
        (Ok tt) "rag" None RequestFailed.

(** A world whose extractor finds Pune, Maharashtra, and whose weather
    provider answers with status [status] and body [body]. *)
Definition weather_world (status : Z) (body : option weather_payload) : env :=
  world report_v1 (fun _ => Ok [page]) (Ok tt) "weather"
        (Some (JsonDict (Some "Pune") (Some "Maharashtra"))) (Response status body).

(** A world whose extractor finds no location. *)
Definition nowhere_world : env :=
  world report_v1 (fun _ => Ok [page]) (Ok tt) "weather"
        (Some (JsonDict None None)) (Response 200 (Some pune_weather)).

(** A world whose documents are summarised to a text with an open
    brace, which the template of the router's prompt does not accept. *)
Definition open_brace : env :=
  {| disk := fun p => if String.eqb p "report.pdf" then Some report_v1 else None;
     glob_pdf := fun f => if String.eqb f "uploaded_pdfs" then Some ["report.pdf"] else None;
     writable := fun _ => true;
     pdf_loader := fun _ => Ok [page];
     text_splitter := fun _ _ ds => Ok ds;
     llm := fun p =>
              match p with
              | MergeSummaries _ => Ok "The report defines the set S = {"
              | _ => Ok "rag"
              end;
     from_messages := fun text =>
                        if String.eqb text "The report defines the set S = {"
                        then Raise ValueError else Ok tt;
     json_loads := fun _ => None;
     embed_query := fun _ _ => Ok 1536%nat;
     embed_documents := fun _ _ => Ok tt;
     qdrant_open := fun _ => true;
     similarity_search := fun _ stored _ _ => Ok stored;
     requests_get := fun _ _ => RequestFailed |}.

(** A world without the upload folder. *)
Definition no_upload_folder : env :=
  {| disk := fun p => if String.eqb p "report.pdf" then Some report_v1 else None;
     glob_pdf := fun _ => None;
     writable := fun _ => true;
     pdf_loader := fun _ => Ok [page];
     text_splitter := fun _ _ ds => Ok ds;
     llm := fun _ => Ok "rag";
     from_messages := fun _ => Ok tt;
     json_loads := fun _ => None;
     embed_query := fun _ _ => Ok 1536%nat;
     embed_documents := fun _ _ => Ok tt;
     qdrant_open := fun _ => true;
     similarity_search := fun _ stored _ _ => Ok stored;
     requests_get := fun _ _ => RequestFailed |}.

(** A world whose upload folder holds no PDF file. *)
Definition empty_upload_folder : env :=
  {| disk := fun p => if String.eqb p "report.pdf" then Some report_v1 else None;
     glob_pdf := fun f => if String.eqb f "uploaded_pdfs" then Some [] else None;
     writable := fun _ => true;
     pdf_loader := fun _ => Ok [page];
     text_splitter := fun _ _ ds => Ok ds;
     llm := fun _ => Ok "rag";
     from_messages := fun _ => Ok tt;
     json_loads := fun _ => None;
     embed_query := fun _ _ => Ok 1536%nat;
     embed_documents := fun _ _ => Ok tt;
     qdrant_open := fun _ => true;
     similarity_search := fun _ stored _ _ => Ok stored;
     requests_get := fun _ _ => RequestFailed |}.

(** The request of the first end-to-end scenario. *)
Definition request (force : bool) : UnifiedState :=
  {| question := Some "Summarize section 2"; pdf_path := Some "report.pdf";
     agent_type := None; chunk_size := Some 1000; chunk_overlap := Some 150;
     embed_model := Some "m1"; force_rebuild := Some force; k := Some 4;
     docs := None; splits := None; collection_name := None; persist_dir := None;
     cache_hit := None; vectorstore_ := None; retrieved_docs := None; context := None;
     city := None; state := None; weather_data := None; answer := None;
     metadata := None; steps := [] |}.

(** A request that carries no document. *)
Definition no_document (q : string) : UnifiedState :=
  {| question := Some q; pdf_path := None;
     agent_type := None; chunk_size := Some 1000; chunk_overlap := Some 150;
     embed_model := Some "m1"; force_rebuild := Some false; k := Some 4;
     docs := None; splits := None; collection_name := None; persist_dir := None;
     cache_hit := None; vectorstore_ := None; retrieved_docs := None; context := None;
     city := None; state := None; weather_data := None; answer := None;
     metadata := None; steps := [] |}.

(** The store after the first version of the report was indexed. *)
Definition indexed : store :=
  snd (query "Summarize section 2" (Some "report.pdf") 1000 150 "m1" 4 false
             (healthy report_v1) empty_store).

(** The same store after [meta.json] was overwritten with text that is
    not JSON. *)
Definition corrupted : store :=
  set_meta_files
    (<[".indices/pdf_ba7816bf8f01cfea414140de/meta.json" := Malformed]> (meta_files indexed))
    indexed.

End Demo.

Arguments Hashlib.sha256_hexdigest : simpl never.
Arguments Hashlib.md5_hexdigest : simpl never.
Arguments Py.str_of_int : simpl never.
Arguments cache_file_of : simpl never.
Arguments make_quick_key : simpl never.
Arguments path_join : simpl never.

(** * Properties *)

(** ** The digests on known inputs *)

Example sha256_constants :
  length Hashlib.K256 = 64%nat /\
  nth 0 Hashlib.K256 0 = 0x428a2f98 /\ nth 63 Hashlib.K256 0 = 0xc67178f2 /\
  nth 0 Hashlib.H256 0 = 0x6a09e667 /\ nth 7 Hashlib.H256 0 = 0x5be0cd19.
Proof. repeat split. Qed.

Example sha256_known_digests :
  Hashlib.sha256_hexdigest (Hashlib.encode "")
  = "e3b0c44298fc1c149afbf4c8996fb92427ae41e4649b934ca495991b7852b855" /\
  Hashlib.sha256_hexdigest (Hashlib.encode "abc")
  = "ba7816bf8f01cfea414140de5dae2223b00361a396177a9cb410ff61f20015ad" /\
  Hashlib.sha256_hexdigest (repeat Byte.x61 119)
  = "31eba51c313a5c08226adf18d4a359cfdfd8d2e816b13f4af952f7ea6584dcfb".
Proof. repeat split; vm_compute; reflexivity. Qed.

Example md5_known_digests :
  Hashlib.md5_hexdigest (Hashlib.encode "") = "d41d8cd98f00b204e9800998ecf8427e" /\
  Hashlib.md5_hexdigest (Hashlib.encode "abc") = "900150983cd24fb0d6963f7d28e17f72" /\
  Hashlib.md5_hexdigest (repeat Byte.x61 119) = "8a7bd0732ed6a28ce75f6dabc90e1613".
Proof. repeat split; vm_compute; reflexivity. Qed.

(** ** Reasoning about computations *)

Section Computations.
Context {A B : Type}.
Implicit Types (m : M A) (f : A -> M B) (w : env) (s : store).

Lemma bind_ok m f w s b s2 :
  bind m f w s = (Ok b, s2) ->
  exists a s1, m w s = (Ok a, s1) /\ f a w s1 = (Ok b, s2).
Proof.
  unfold bind. destruct (m w s) as [[a | e] s1]; intros H.
  - exists a, s1. split; [reflexivity | exact H].
  - discriminate H.
Qed.

Lemma bind_raise m f w s e s2 :
  bind m f w s = (Raise e, s2) ->
  m w s = (Raise e, s2) \/
  exists a s1, m w s = (Ok a, s1) /\ f a w s1 = (Raise e, s2).
Proof.
  unfold bind. destruct (m w s) as [[a | e'] s1]; intros H.
  - right. exists a, s1. split; [reflexivity | exact H].
  - left. inversion H; subst. reflexivity.
Qed.

Lemma bind_step m f w s a s1 :
  m w s = (Ok a, s1) -> bind m f w s = f a w s1.
Proof. unfold bind. intros ->. reflexivity. Qed.

Lemma bind_abort m f w s e s1 :
  m w s = (Raise e, s1) -> bind m f w s = (Raise e, s1).
Proof. unfold bind. intros ->. reflexivity. Qed.

Lemma item_ok key (v : option A) w s a s1 :
  item key v w s = (Ok a, s1) -> v = Some a /\ s1 = s.
Proof. destruct v; cbn; intros H; inversion H; auto. Qed.
End Computations.

(** Takes apart a hypothesis [bind m f w s = (Ok b, s')]: [a] and [s1]
    name what the first computation returned and the store it left,
    [H1] the equation of its run. *)
Tactic Notation "bind_inv" hyp(H) "as" ident(a) ident(s1) ident(H1) :=
  apply bind_ok in H; destruct H as (a & s1 & H1 & H).

Ltac item_inv H :=
  let E := fresh "Hkey" in
  apply item_ok in H; destruct H as [E ->].

(** ** The footprint of the helpers on the store *)

Lemma same_but_cache_refl s : same_but_cache s s.
Proof. destruct s; reflexivity. Qed.

Section Preservation.
Context {X : Type} (proj : store -> X).

Lemma preserves_ret {A} (a : A) : preserves proj (ret a).
Proof. intros w s. reflexivity. Qed.

Lemma preserves_raise {A} (e : exn) : preserves proj (@raise A e).
Proof. intros w s. reflexivity. Qed.

Lemma preserves_ask {A} (f : env -> A) : preserves proj (ask f).
Proof. intros w s. reflexivity. Qed.

Lemma preserves_get {A} (f : store -> A) : preserves proj (get f).
Proof. intros w s. reflexivity. Qed.

Lemma preserves_lift {A} (o : outcome A) : preserves proj (lift o).
Proof. intros w s. reflexivity. Qed.

Lemma preserves_item {A} key (v : option A) : preserves proj (item key v).
Proof. intros w s. destruct v; reflexivity. Qed.

Lemma preserves_modify (f : store -> store) :
  (forall s, proj (f s) = proj s) -> preserves proj (modify f).
Proof. intros H w s. apply H. Qed.

Lemma preserves_bind {A B} (m : M A) (f : A -> M B) :
  preserves proj m -> (forall a, preserves proj (f a)) -> preserves proj (bind m f).
Proof.
  intros Hm Hf w s. unfold bind. specialize (Hm w s).
  destruct (m w s) as [[a | e] s1]; cbn in *.
  - rewrite (Hf a w s1). exact Hm.
  - exact Hm.
Qed.

Lemma preserves_try {A} (m : M A) (h : exn -> M A) :
  preserves proj m -> (forall e, preserves proj (h e)) -> preserves proj (try_except m h).
Proof.
  intros Hm Hh w s. unfold try_except. specialize (Hm w s).
  destruct (m w s) as [[a | e] s1]; cbn in *.
  - exact Hm.
  - rewrite (Hh e w s1). exact Hm.
Qed.

(** When the computation is run: the component after it. *)
Lemma preserves_run {A} (m : M A) w s r s' :
  preserves proj m -> m w s = (r, s') -> proj s' = proj s.
Proof. intros H E. specialize (H w s). rewrite E in H. exact H. Qed.
End Preservation.

Create HintDb footprint.

(** Proves [preserves proj m] by following the structure of [m]. *)
Ltac footprint :=
  repeat first
    [ apply preserves_ret | apply preserves_raise | apply preserves_ask
    | apply preserves_get | apply preserves_lift | apply preserves_item
    | apply preserves_modify; intros []; reflexivity
    | apply preserves_bind; [| intros ?]
    | apply preserves_try; [| intros ?]
    | solve [eauto with footprint]
    | match goal with
      | |- preserves _ (if ?b then _ else _) => destruct b
      | |- preserves _ (match ?x with _ => _ end) => destruct x
      end ].

Lemma emit_preserves {X} (proj : store -> X) ev :
  (forall s l, proj (set_trace l s) = proj s) -> preserves proj (emit ev).
Proof. intros H. apply preserves_modify. intros s. apply H. Qed.

Lemma chat_preserves {X} (proj : store -> X) p :
  (forall s l, proj (set_trace l s) = proj s) -> preserves proj (chat p).
Proof. intros H. unfold chat. pose proof (emit_preserves proj (ChatCall p) H). footprint. Qed.

(** ** The fingerprint *)

Lemma read_cached_hit c qk :
  quick_key c = qk -> read_cached (Some (Parsed c)) qk = Some c.
Proof. intros <-. unfold read_cached. rewrite String.eqb_refl. reflexivity. Qed.

(** What a call of [file_fingerprint] does, by cases. *)
Lemma file_fingerprint_cases path w s :
  match disk w path with
  | None => file_fingerprint path w s = (Raise FileNotFoundError, s)
  | Some stat =>
      match read_cached (cache_files s !! cache_file_of path) (make_quick_key stat) with
      | Some cached => file_fingerprint path w s = (Ok cached, s)
      | None =>
          file_fingerprint path w s =
            (Ok (hashed stat),
             if writable w (cache_file_of path)
             then set_cache_files (<[cache_file_of path := Parsed (hashed stat)]> (cache_files s)) s
             else s)
      end
  end.
Proof.
  unfold file_fingerprint, bind, ask, get, ret, raise, modify.
  destruct (disk w path) as [stat |]; [| reflexivity].
  destruct (read_cached _ _); [reflexivity |].
  destruct (writable w _); reflexivity.
Qed.

(** Whatever it returns, a call touches the cache files only. *)
Lemma file_fingerprint_footprint path w s :
  same_but_cache s (snd (file_fingerprint path w s)).
Proof.
  pose proof (file_fingerprint_cases path w s) as H.
  destruct (disk w path) as [stat |]; [| rewrite H; apply same_but_cache_refl].
  destruct (read_cached _ _); [rewrite H; apply same_but_cache_refl |].
  rewrite H. destruct (writable w _); [| apply same_but_cache_refl].
  destruct s; reflexivity.
Qed.

(** A fingerprint that was returned is returned again, with no further
    write, as long as the document and its cache file stay as they are. *)
Lemma file_fingerprint_settled path w s fp s' :
  file_fingerprint path w s = (Ok fp, s') ->
  forall s2, cache_files s2 = cache_files s' ->
  file_fingerprint path w s2 = (Ok fp, s2).
Proof.
  intros H s2 Hc.
  pose proof (file_fingerprint_cases path w s) as H1.
  pose proof (file_fingerprint_cases path w s2) as H2.
  destruct (disk w path) as [stat |]; [| congruence].
  rewrite Hc in H2.
  destruct (read_cached (cache_files s !! _) _) as [c |] eqn:E.
  - rewrite H1 in H. inversion H; subst. rewrite E in H2. exact H2.
  - rewrite H1 in H. inversion H; subst. clear H.
    destruct (writable w (cache_file_of path)) eqn:Ew.
    + cbn in H2. rewrite lookup_insert_eq in H2.
      rewrite read_cached_hit in H2 by reflexivity. exact H2.
    + rewrite E in H2. exact H2.
Qed.

(** *** The quick key determines size and modification time *)

Lemma string_of_uint_free d : free_of "_"%char (NilEmpty.string_of_uint d).
Proof. induction d; cbn; auto; split; auto; discriminate. Qed.

Lemma str_of_int_free z : free_of "_"%char (Py.str_of_int z).
Proof.
  unfold Py.str_of_int, NilZero.string_of_int, NilZero.string_of_uint.
  destruct (Z.to_int z) as [d | d]; destruct d; cbn;
    repeat split; try discriminate; apply string_of_uint_free.
Qed.

Lemma str_of_int_inj a b : Py.str_of_int a = Py.str_of_int b -> a = b.
Proof.
  unfold Py.str_of_int. intros H.
  assert (Hn : forall z, Z.to_int z <> Decimal.Pos Decimal.Nil /\
                         Z.to_int z <> Decimal.Neg Decimal.Nil).
  { intros [| p | p]; cbn; split; try discriminate;
      intros [= E]; exact (Unsigned.to_uint_nonnil p E). }
  apply DecimalZ.to_int_inj.
  assert (E : Some (Z.to_int a) = Some (Z.to_int b)).
  { rewrite <- (NilZero.isi (Z.to_int a)) by apply Hn.
    rewrite <- (NilZero.isi (Z.to_int b)) by apply Hn.
    rewrite H. reflexivity. }
  congruence.
Qed.

Lemma split_at_separator c a a' b b' :
  free_of c a -> free_of c a' ->
  a +:+ String c b = a' +:+ String c b' -> a = a' /\ b = b'.
Proof.
  revert a'. induction a as [| x a IH]; intros [| y a'] Fa Fa' H; cbn in *.
  - inversion H. auto.
  - inversion H; subst. destruct Fa' as [Hy _]. congruence.
  - inversion H; subst. destruct Fa as [Hx _]. congruence.
  - inversion H; subst. destruct Fa as [_ Fa], Fa' as [_ Fa'].
    destruct (IH a' Fa Fa' H2) as [-> ->]. auto.
Qed.

Lemma make_quick_key_inj f g :
  make_quick_key f = make_quick_key g ->
  st_size f = st_size g /\ st_mtime f = st_mtime g.
Proof.
  unfold make_quick_key. intros H.
  apply split_at_separator in H; try apply str_of_int_free.
  destruct H as [H1 H2]. split; apply str_of_int_inj; assumption.
Qed.

(** *** The fingerprint follows the quick key *)

(** C2, as stated, fails: the report is fingerprinted, then its
    content changes while its size and modification time stay the
    same; the next fingerprint is the cached one, with the hash of the
    old content, and the validity check of the index built from the old
    content reports a hit. *)
Lemma stale_hash_under_same_quick_key :
  let cached := snd (file_fingerprint "report.pdf" (Demo.healthy Demo.report_v1) empty_store) in
  content Demo.report_v2 <> content Demo.report_v1 /\
  make_quick_key Demo.report_v2 = make_quick_key Demo.report_v1 /\
  (exists fp,
     file_fingerprint "report.pdf" (Demo.healthy Demo.report_v2) cached = (Ok fp, cached) /\
     sha256 fp = Hashlib.sha256_hexdigest (content Demo.report_v1) /\
     sha256 fp <> Hashlib.sha256_hexdigest (content Demo.report_v2)) /\
  (exists update s',
     check_cache_node (Demo.request false) (Demo.healthy Demo.report_v2) Demo.indexed
       = (Ok update, s') /\
     cache_hit (merge (Demo.request false) update) = Some true).
Proof.
  cbv zeta. split; [| split; [| split]].
  - vm_compute. discriminate.
  - vm_compute. reflexivity.
  - eexists. split; [vm_compute; reflexivity |]. split.
    + vm_compute. reflexivity.
    + vm_compute. discriminate.
  - eexists. eexists. split; vm_compute; reflexivity.
Qed.

(** C2, amended: the fingerprint carries the hash of the current
    content whenever the cache file is missing or unreadable, or was
    written for a version of the file with another size or another
    modification time (in whole seconds); an entry written under the
    current quick key is returned as it is, without hashing. *)
Theorem fingerprint_follows_quick_key (path : string) (w : env) (s : store) (stat : file) :
  disk w path = Some stat ->
  (cache_files s !! cache_file_of path = None \/
   cache_files s !! cache_file_of path = Some Malformed \/
   (exists c old,
      cache_files s !! cache_file_of path = Some (Parsed c) /\
      quick_key c = make_quick_key old /\
      (st_size old <> st_size stat \/ st_mtime old <> st_mtime stat)) ->
   exists fp s',
     file_fingerprint path w s = (Ok fp, s') /\
     sha256 fp = Hashlib.sha256_hexdigest (content stat) /\
     size fp = st_size stat /\ mtime fp = st_mtime stat) /\
  (forall c,
     cache_files s !! cache_file_of path = Some (Parsed c) ->
     quick_key c = make_quick_key stat ->
     file_fingerprint path w s = (Ok c, s)).
Proof.
  intros Hdisk. pose proof (file_fingerprint_cases path w s) as H.
  rewrite Hdisk in H. split.
  - intros Hc.
    assert (E : read_cached (cache_files s !! cache_file_of path) (make_quick_key stat) = None).
    { destruct Hc as [-> | [-> | (c & old & -> & Hq & Hne)]]; try reflexivity.
      unfold read_cached. destruct (String.eqb_spec (quick_key c) (make_quick_key stat)) as [E |];
        [| reflexivity].
      rewrite Hq in E. apply make_quick_key_inj in E. destruct E, Hne; congruence. }
    rewrite E in H. eexists. eexists. split; [exact H |]. cbn. auto.
  - intros c Hc Hq. rewrite Hc, (read_cached_hit c _ Hq) in H. exact H.
Qed.

(** The amended C2 on the example: the revision that keeps the quick
    key gets the cached entry, a fresh file gets its own hash. *)
Lemma fingerprint_follows_quick_key_witness :
  (exists fp s',
     file_fingerprint "report.pdf" (Demo.healthy Demo.report_v1) empty_store = (Ok fp, s') /\
     sha256 fp = Hashlib.sha256_hexdigest (content Demo.report_v1) /\
     size fp = 3 /\ mtime fp = 1700000000) /\
  file_fingerprint "report.pdf" (Demo.healthy Demo.report_v2)
    (snd (file_fingerprint "report.pdf" (Demo.healthy Demo.report_v1) empty_store))
  = (Ok (hashed Demo.report_v1),
     snd (file_fingerprint "report.pdf" (Demo.healthy Demo.report_v1) empty_store)).
Proof.
  split.
  - apply (fingerprint_follows_quick_key "report.pdf" (Demo.healthy Demo.report_v1)
             empty_store Demo.report_v1); [reflexivity |].
    left. reflexivity.
  - apply (fingerprint_follows_quick_key "report.pdf" (Demo.healthy Demo.report_v2)
             _ Demo.report_v2); [reflexivity | vm_compute; reflexivity | vm_compute; reflexivity].
Defined.

(** ** The local Qdrant storage *)

Lemma lookup_collections_of client s name :
  collections_of client s !! name
  = if bool_decide (name ∈ collection_names client s)
    then Some (points_of client name s) else None.
Proof.
  unfold collections_of.
  destruct (bool_decide (name ∈ collection_names client s)) eqn:E.
  - apply bool_decide_eq_true in E.
    apply (lookup_set_to_map (fun name => (name, points_of client name s))).
    + intros y y' _ _ Hy. exact Hy.
    + exists name. split; [exact E | reflexivity].
  - apply bool_decide_eq_false in E.
    destruct (set_to_map _ _ !! name) as [x |] eqn:L; [| reflexivity].
    apply (lookup_set_to_map (fun name => (name, points_of client name s))) in L.
    + destruct L as (y & Hy & [= -> _]). contradiction.
    + intros y y' _ _ Hy. exact Hy.
Qed.

Lemma collections_of_is_Some client s name :
  is_Some (collections_of client s !! name) <-> name ∈ collection_names client s.
Proof.
  rewrite lookup_collections_of. case_bool_decide; split; intros H'; done || eauto.
Qed.

Lemma collection_names_cached client s :
  client ∈ _client_cache s -> collection_names client s = held client s.
Proof. intros H. unfold collection_names. rewrite bool_decide_eq_true_2 by exact H. reflexivity. Qed.

(** [any(c.name == name for c in collections)] *)
Lemma listed name (names : gset string) :
  existsb (String.eqb name) (elements names) = bool_decide (name ∈ names).
Proof.
  destruct (existsb _ _) eqn:E.
  - apply existsb_exists in E. destruct E as (x & Hin & Hx).
    apply String.eqb_eq in Hx. subst x.
    apply list_elem_of_In, elem_of_elements in Hin.
    symmetry. apply bool_decide_eq_true_2. exact Hin.
  - symmetry. apply bool_decide_eq_false_2. intros Hin.
    assert (E' : existsb (String.eqb name) (elements names) = true).
    { apply existsb_exists. exists name. split; [| apply String.eqb_refl].
      apply list_elem_of_In, elem_of_elements. exact Hin. }
    congruence.
Qed.

Lemma held_hold client names s : held client (hold client names s) = names.
Proof. unfold held, hold. cbn. rewrite lookup_insert_eq. reflexivity. Qed.

Lemma held_hold_ne client other names s :
  other <> client -> held other (hold client names s) = held other s.
Proof. intros H. unfold held, hold. cbn. rewrite lookup_insert_ne by congruence. reflexivity. Qed.

Lemma held_set_stored client d c s : held client (set_stored d c s) = held client s.
Proof. reflexivity. Qed.

Lemma stored_set_stored client c s : stored client (set_stored client c s) = c.
Proof. unfold stored, set_stored. cbn. rewrite lookup_insert_eq. reflexivity. Qed.

Lemma held_registered client d names s : held client (registered d names s) = held client s.
Proof. reflexivity. Qed.

Lemma held_set_trace client l s : held client (set_trace l s) = held client s.
Proof. reflexivity. Qed.

Lemma stored_hold client d names s : stored client (hold d names s) = stored client s.
Proof. reflexivity. Qed.

Lemma stored_registered client d names s : stored client (registered d names s) = stored client s.
Proof. reflexivity. Qed.

Lemma stored_set_trace client l s : stored client (set_trace l s) = stored client s.
Proof. reflexivity. Qed.

Lemma points_of_set_trace client name l s :
  points_of client name (set_trace l s) = points_of client name s.
Proof. reflexivity. Qed.

Lemma meta_files_hold d names s : meta_files (hold d names s) = meta_files s.
Proof. reflexivity. Qed.

Lemma meta_files_set_stored d c s : meta_files (set_stored d c s) = meta_files s.
Proof. reflexivity. Qed.

Lemma meta_files_set_trace l s : meta_files (set_trace l s) = meta_files s.
Proof. reflexivity. Qed.

Create Rewrite HintDb store.

#[local] Hint Rewrite held_hold held_set_stored held_registered held_set_trace
  stored_set_stored stored_hold stored_registered stored_set_trace points_of_set_trace
  meta_files_hold meta_files_set_stored meta_files_set_trace : store.

(** A client that is cached is returned as it is. *)
Lemma get_or_create_client_cached_run dir w s :
  dir ∈ _client_cache s -> get_or_create_client dir w s = (Ok dir, s).
Proof.
  intros H. unfold get_or_create_client, bind, get.
  rewrite bool_decide_eq_true_2 by exact H. reflexivity.
Qed.

(** What a call of [get_or_create_client] does, by cases. *)
Lemma get_or_create_client_cases dir w s :
  get_or_create_client dir w s =
  if bool_decide (dir ∈ _client_cache s) then (Ok dir, s)
  else
    match meta_files s !! registry_path dir with
    | None =>
        if writable w (registry_path dir) then
          if qdrant_open w dir
          then (Ok dir, opened dir ∅ (registered dir ∅ (set_dirs ({[dir]} ∪ dirs s) s)))
          else (Raise (CollaboratorError "qdrant"),
                registered dir ∅ (set_dirs ({[dir]} ∪ dirs s) s))
        else (Raise OSError, set_dirs ({[dir]} ∪ dirs s) s)
    | Some Malformed => (Raise JSONDecodeError, s)
    | Some (NonObject _) => (Raise TypeError, s)
    | Some (Parsed m) =>
        match meta_registry m with
        | None => (Raise (KeyError "collections"), s)
        | Some names =>
            if qdrant_open w dir then (Ok dir, opened dir names s)
            else (Raise (CollaboratorError "qdrant"), s)
        end
    end.
Proof.
  unfold get_or_create_client, QdrantClient, write_registry, mkdir, bind, get, ask, ret, raise,
    modify.
  destruct (bool_decide _); [reflexivity |].
  destruct (meta_files s !! registry_path dir) as [[| m | truthy] |]; cbn;
    try reflexivity.
  - destruct (meta_registry m) as [names |]; cbn; [| reflexivity].
    destruct (qdrant_open w dir); reflexivity.
  - destruct (writable w _); cbn; [| reflexivity].
    destruct (qdrant_open w dir); reflexivity.
Qed.

Lemma get_or_create_client_ok dir w s client s' :
  get_or_create_client dir w s = (Ok client, s') -> client = dir.
Proof.
  rewrite get_or_create_client_cases. intros H.
  repeat match type of H with
         | (if ?b then _ else _) = _ => destruct b
         | match ?x with _ => _ end = _ => destruct x
         end; congruence.
Qed.

Lemma get_or_create_client_cached dir w s client s' :
  get_or_create_client dir w s = (Ok client, s') -> dir ∈ _client_cache s'.
Proof.
  rewrite get_or_create_client_cases. intros H.
  destruct (bool_decide (dir ∈ _client_cache s)) eqn:E.
  - injection H as _ <-. apply bool_decide_eq_true in E. exact E.
  - repeat match type of H with
           | (if ?b then _ else _) = _ => destruct b
           | match ?x with _ => _ end = _ => destruct x
           end; try discriminate H; injection H as _ <-; cbn;
      apply elem_of_union; left; apply elem_of_singleton; reflexivity.
Qed.

Lemma get_or_create_client_keeps_qdrant dir : preserves qdrant (get_or_create_client dir).
Proof. unfold get_or_create_client, QdrantClient, write_registry, mkdir. footprint. Qed.

Lemma get_or_create_client_keeps_cache dir : preserves cache_files (get_or_create_client dir).
Proof. unfold get_or_create_client, QdrantClient, write_registry, mkdir. footprint. Qed.

Lemma get_or_create_client_keeps_trace dir : preserves trace (get_or_create_client dir).
Proof. unfold get_or_create_client, QdrantClient, write_registry, mkdir. footprint. Qed.

#[local] Hint Resolve get_or_create_client_keeps_qdrant get_or_create_client_keeps_cache
  get_or_create_client_keeps_trace : footprint.

Lemma held_opened dir names s : held dir (opened dir names s) = names.
Proof. unfold opened, held, hold. cbn. rewrite lookup_insert_eq. reflexivity. Qed.

Lemma meta_files_opened dir names s : meta_files (opened dir names s) = meta_files s.
Proof. reflexivity. Qed.

Lemma lookup_registered dir names s :
  meta_files (registered dir names s) !! registry_path dir = Some (Parsed (registry names)).
Proof. unfold registered. cbn. apply lookup_insert_eq. Qed.

(** *** The operations of a client, by cases *)

Lemma delete_collection_cases client name w s :
  try_except (delete_collection client name) (fun _ => ret tt) w s =
  (Ok tt,
   if writable w (registry_path client)
   then registered client (held client s ∖ {[name]})
          (set_stored client (delete name (stored client s))
             (hold client (held client s ∖ {[name]}) s))
   else set_stored client (delete name (stored client s))
          (hold client (held client s ∖ {[name]}) s)).
Proof.
  unfold try_except, delete_collection, save_registry, write_registry, bind, modify, get, ask,
    raise, ret.
  cbv beta. rewrite held_set_stored, held_hold.
  destruct (writable w (registry_path client)); reflexivity.
Qed.

Lemma create_collection_cases client name w s :
  create_collection client name w s =
  if bool_decide (name ∈ held client s) then (Raise ValueError, s)
  else if writable w (registry_path client)
       then (Ok tt, registered client ({[name]} ∪ held client s)
                      (hold client ({[name]} ∪ held client s) s))
       else (Raise OSError, hold client ({[name]} ∪ held client s) s).
Proof.
  unfold create_collection, save_registry, write_registry, bind, modify, get, ask, raise, ret.
  destruct (bool_decide _); [reflexivity |].
  rewrite held_hold.
  destruct (writable w (registry_path client)); reflexivity.
Qed.

Lemma upsert_cases client name points w s :
  upsert client name points w s =
  if bool_decide (name ∈ held client s)
  then (Ok tt, set_stored client
                 (<[name := (points_of client name s ++ points)%list]> (stored client s)) s)
  else (Raise ValueError, s).
Proof.
  unfold upsert, bind, modify, get, raise. destruct (bool_decide _); reflexivity.
Qed.

(** *** The footprint of the operations *)

Lemma storage_only_refl dir s : storage_only dir s s.
Proof. unfold storage_only. split_and!; auto. Qed.

Lemma storage_only_trans dir s1 s2 s3 :
  storage_only dir s1 s2 -> storage_only dir s2 s3 -> storage_only dir s1 s3.
Proof.
  unfold storage_only.
  intros (A1 & A2 & A3 & A4 & A5 & A6 & A7 & A8) (B1 & B2 & B3 & B4 & B5 & B6 & B7 & B8).
  split_and!; try congruence.
  - intros d Hd. rewrite B6, A6 by exact Hd. reflexivity.
  - intros d Hd. rewrite B7, A7 by exact Hd. reflexivity.
  - intros p Hp. rewrite B8, A8 by exact Hp. reflexivity.
Qed.

Lemma storage_only_trace dir l s : storage_only dir s (set_trace l s).
Proof. unfold storage_only. split_and!; auto. Qed.

Lemma storage_only_hold dir names s : storage_only dir s (hold dir names s).
Proof.
  unfold storage_only, hold. cbn. split_and!; auto.
  intros d Hd. apply lookup_insert_ne. congruence.
Qed.

Lemma storage_only_set_stored dir c s : storage_only dir s (set_stored dir c s).
Proof.
  unfold storage_only, set_stored. cbn. split_and!; auto.
  intros d Hd. apply lookup_insert_ne. congruence.
Qed.

Lemma storage_only_registered dir names s : storage_only dir s (registered dir names s).
Proof.
  unfold storage_only, registered. cbn. split_and!; auto.
  intros p Hp. apply lookup_insert_ne. congruence.
Qed.

Create HintDb storage.

#[local] Hint Resolve storage_only_refl storage_only_trace storage_only_hold
  storage_only_set_stored storage_only_registered : storage.

(** Chains the footprints of consecutive writes. *)
Ltac storage_only :=
  repeat first
    [ solve [eauto with storage]
    | eapply storage_only_trans; [| solve [eauto with storage]] ].

(** *** Opening a storage *)

(** A client that is returned holds the collections of the storage;
    opening stores no document and removes none, and it writes
    [meta.json] only when the file is not there. *)
Lemma get_or_create_client_opened dir w s client s1 :
  get_or_create_client dir w s = (Ok client, s1) ->
  client = dir /\
  dir ∈ _client_cache s1 /\
  held dir s1 = collection_names dir s /\
  qdrant s1 = qdrant s /\
  cache_files s1 = cache_files s /\
  (dir ∈ _client_cache s -> s1 = s) /\
  (meta_files s1 = meta_files s \/
   meta_files s !! registry_path dir = None /\ held dir s1 = ∅ /\
   meta_files s1 = <[registry_path dir := Parsed (registry ∅)]> (meta_files s)).
Proof.
  intros H. pose proof (get_or_create_client_cached _ _ _ _ _ H) as Hin.
  rewrite get_or_create_client_cases in H. unfold collection_names.
  destruct (bool_decide (dir ∈ _client_cache s)) eqn:Hc.
  - injection H as <- <-. split_and!; auto.
  - apply bool_decide_eq_false in Hc.
    destruct (meta_files s !! registry_path dir) as [[| m | truthy] |] eqn:Hm;
      try discriminate H.
    + cbn [registry_of]. destruct (meta_registry m) as [names |]; [| discriminate H].
      destruct (qdrant_open w dir); [| discriminate H].
      injection H as <- <-. rewrite held_opened.
      split_and!; auto; contradiction.
    + destruct (writable w _); [| discriminate H].
      destruct (qdrant_open w dir); [| discriminate H].
      injection H as <- <-. rewrite held_opened.
      split_and!; auto; try contradiction; try (right; split_and!; auto).
Qed.

(** Whatever it returns or raises, a call leaves [meta.json] as it is
    when the file is there. *)
Lemma get_or_create_client_meta dir w s :
  meta_files (snd (get_or_create_client dir w s)) = meta_files s \/
  meta_files s !! registry_path dir = None /\
  meta_files (snd (get_or_create_client dir w s))
  = <[registry_path dir := Parsed (registry ∅)]> (meta_files s).
Proof.
  rewrite get_or_create_client_cases.
  destruct (bool_decide (dir ∈ _client_cache s)); [left; reflexivity |].
  destruct (meta_files s !! registry_path dir) as [[| m | truthy] |] eqn:Hm;
    try (left; reflexivity).
  - destruct (meta_registry m) as [names |]; [| left; reflexivity].
    destruct (qdrant_open w dir); left; reflexivity.
  - destruct (writable w _); [| left; reflexivity].
    destruct (qdrant_open w dir); right; split; reflexivity.
Qed.

(** A call that raises has met a storage that is not open. *)
Lemma get_or_create_client_raised dir w s e s1 :
  get_or_create_client dir w s = (Raise e, s1) ->
  (dir ∉ _client_cache s) /\
  _client_cache s1 = _client_cache s /\
  client_collections s1 = client_collections s /\
  qdrant s1 = qdrant s /\
  cache_files s1 = cache_files s.
Proof.
  rewrite get_or_create_client_cases.
  destruct (bool_decide (dir ∈ _client_cache s)) eqn:Hc; [discriminate |].
  apply bool_decide_eq_false in Hc. intros H.
  repeat match type of H with
         | (if ?b then _ else _) = _ => destruct b
         | match ?x with _ => _ end = _ => destruct x
         end; try discriminate H; injection H as _ <-; split_and!; auto.
Qed.
(** ** The cache gate *)

Lemma file_fingerprint_keeps {X} (proj : store -> X) path :
  (forall f s, proj (set_cache_files f s) = proj s) ->
  preserves proj (file_fingerprint path).
Proof.
  intros Hproj w s. pose proof (file_fingerprint_footprint path w s) as H.
  unfold same_but_cache in H. rewrite H. apply Hproj.
Qed.

Lemma file_fingerprint_keeps_meta path : preserves meta_files (file_fingerprint path).
Proof. apply file_fingerprint_keeps. reflexivity. Qed.

Lemma file_fingerprint_keeps_qdrant path : preserves qdrant (file_fingerprint path).
Proof. apply file_fingerprint_keeps. reflexivity. Qed.

Lemma file_fingerprint_keeps_dirs path : preserves dirs (file_fingerprint path).
Proof. apply file_fingerprint_keeps. reflexivity. Qed.

Lemma file_fingerprint_keeps_clients path : preserves _client_cache (file_fingerprint path).
Proof. apply file_fingerprint_keeps. reflexivity. Qed.

Lemma file_fingerprint_keeps_held path : preserves client_collections (file_fingerprint path).
Proof. apply file_fingerprint_keeps. reflexivity. Qed.

#[local] Hint Resolve file_fingerprint_keeps_meta file_fingerprint_keeps_qdrant
  file_fingerprint_keeps_dirs file_fingerprint_keeps_clients file_fingerprint_keeps_held
  : footprint.

Lemma load_metadata_keeps {X} (proj : store -> X) dir : preserves proj (load_metadata dir).
Proof. unfold load_metadata. footprint. Qed.

Lemma getter_keeps {X} (proj : store -> X) value : preserves proj (getter value).
Proof. unfold getter. footprint. Qed.

Lemma get_index_metadata_keeps_meta pdf cs co em :
  preserves meta_files (get_index_metadata pdf cs co em).
Proof. unfold get_index_metadata. footprint. Qed.

Lemma get_index_metadata_keeps_qdrant pdf cs co em :
  preserves qdrant (get_index_metadata pdf cs co em).
Proof. unfold get_index_metadata. footprint. Qed.

#[local] Hint Resolve load_metadata_keeps getter_keeps get_index_metadata_keeps_meta
  get_index_metadata_keeps_qdrant : footprint.

Lemma is_index_valid_keeps_qdrant name dir pdf cs co em :
  preserves qdrant (is_index_valid name dir pdf cs co em).
Proof. unfold is_index_valid, path_exists, get_collections. footprint. Qed.

#[local] Hint Resolve is_index_valid_keeps_qdrant : footprint.

Lemma generate_collection_name_keeps_meta pdf : preserves meta_files (generate_collection_name pdf).
Proof. unfold generate_collection_name. footprint. Qed.

Lemma generate_collection_name_keeps_qdrant pdf : preserves qdrant (generate_collection_name pdf).
Proof. unfold generate_collection_name. footprint. Qed.

Lemma generate_collection_name_keeps_clients pdf :
  preserves _client_cache (generate_collection_name pdf).
Proof. unfold generate_collection_name. footprint. Qed.

Lemma generate_collection_name_keeps_held pdf :
  preserves client_collections (generate_collection_name pdf).
Proof. unfold generate_collection_name. footprint. Qed.

#[local] Hint Resolve generate_collection_name_keeps_meta generate_collection_name_keeps_qdrant
  generate_collection_name_keeps_clients generate_collection_name_keeps_held : footprint.

(** The gate stores no document and removes none. *)
Lemma check_cache_node_keeps_qdrant st : preserves qdrant (check_cache_node st).
Proof. unfold check_cache_node. footprint. Qed.

(** The first block of the validity check: the client of the storage
    is asked for its collections; an error of the client counts as a
    collection that is not there. *)
Lemma collection_listed_cases name dir w s :
  collection_listed name dir w s =
  match get_or_create_client dir w s with
  | (Ok _, s1) => (Ok (bool_decide (name ∈ held dir s1)), s1)
  | (Raise _, s1) => (Ok false, s1)
  end.
Proof.
  unfold collection_listed, try_except, bind.
  destruct (get_or_create_client dir w s) as [[client | e] s1] eqn:E; [| reflexivity].
  apply get_or_create_client_ok in E. subst client.
  unfold get_collections, get, ret. rewrite listed. reflexivity.
Qed.

Lemma is_index_valid_unfold name dir pdf cs co em :
  is_index_valid name dir pdf cs co em =
  (let! there := path_exists dir in
   if negb there then ret false
   else
     let! found := collection_listed name dir in
     if negb found then ret false
     else
       let! saved_meta := load_metadata dir in
       match saved_meta with
       | None => ret false
       | Some value =>
           if falsy value then ret false
           else
             let! current_meta := get_index_metadata pdf cs co em in
             let! saved := getter value in
             let! fp := item "pdf_fingerprint" (meta_pdf_fingerprint current_meta) in
             let! cs' := item "chunk_size" (meta_chunk_size current_meta) in
             let! co' := item "chunk_overlap" (meta_chunk_overlap current_meta) in
             let! em' := item "embedding_model" (meta_embedding_model current_meta) in
             ret (get_eq (meta_pdf_fingerprint saved) fp &&
                  get_eq (meta_chunk_size saved) cs' &&
                  get_eq (meta_chunk_overlap saved) co' &&
                  get_eq (meta_embedding_model saved) em')
       end).
Proof. reflexivity. Qed.

(** The comparison of a value read from [meta.json] with the current
    parameters: it is positive for a dictionary of the program that
    carries them, and for no other value. *)
Lemma descriptor_compared pdf cs co em w s value s' :
  (let! current_meta := get_index_metadata pdf cs co em in
   let! saved := getter value in
   let! fp := item "pdf_fingerprint" (meta_pdf_fingerprint current_meta) in
   let! cs' := item "chunk_size" (meta_chunk_size current_meta) in
   let! co' := item "chunk_overlap" (meta_chunk_overlap current_meta) in
   let! em' := item "embedding_model" (meta_embedding_model current_meta) in
   ret (get_eq (meta_pdf_fingerprint saved) fp &&
        get_eq (meta_chunk_size saved) cs' &&
        get_eq (meta_chunk_overlap saved) co' &&
        get_eq (meta_embedding_model saved) em')) w s = (Ok true, s') ->
  exists saved fp,
    value = Parsed saved /\
    meta_pdf_fingerprint saved = Some fp /\
    meta_chunk_size saved = Some cs /\
    meta_chunk_overlap saved = Some co /\
    meta_embedding_model saved = Some em /\
    file_fingerprint pdf w s = (Ok fp, s').
Proof.
  intros H.
  bind_inv H as current s1 Hcur.
  unfold get_index_metadata in Hcur. bind_inv Hcur as fp s2 Hfp.
  injection Hcur as <- <-.
  bind_inv H as saved s3 Hget. cbn in H. injection H as Hall <-.
  repeat match goal with
         | E : _ && _ = true |- _ => apply andb_true_iff in E; destruct E
         end.
  unfold get_eq in *.
  repeat match goal with
         | E : bool_decide _ = true |- _ => apply bool_decide_eq_true in E
         end.
  destruct value as [| m | truthy]; cbn in Hget; try discriminate Hget.
  injection Hget as <- <-.
  exists m, fp. split_and!; auto.
Qed.

(** What a positive answer of [is_index_valid] rests on. *)
Lemma is_index_valid_true name dir pdf cs co em w s s' :
  is_index_valid name dir pdf cs co em w s = (Ok true, s') ->
  exists saved fp s0,
    dir ∈ dirs s /\
    name ∈ collection_names dir s /\
    meta_files s !! path_join dir "meta.json" = Some (Parsed saved) /\
    meta_pdf_fingerprint saved = Some fp /\
    meta_chunk_size saved = Some cs /\
    meta_chunk_overlap saved = Some co /\
    meta_embedding_model saved = Some em /\
    cache_files s0 = cache_files s /\
    meta_files s0 = meta_files s /\
    (dir ∈ _client_cache s -> s0 = s) /\
    dir ∈ _client_cache s0 /\
    file_fingerprint pdf w s0 = (Ok fp, s').
Proof.
  rewrite is_index_valid_unfold. intros H.
  bind_inv H as there s1 Hthere.
  unfold path_exists, get in Hthere. injection Hthere as <- <-.
  destruct (bool_decide (dir ∈ dirs s)) eqn:Hdir; [| discriminate H]. cbn [negb] in H.
  apply bool_decide_eq_true in Hdir.
  bind_inv H as found s1 Hfound.
  destruct found; [| discriminate H]. cbn [negb] in H.
  rewrite collection_listed_cases in Hfound.
  destruct (get_or_create_client dir w s) as [[client | e] s2] eqn:Hclient;
    [| discriminate Hfound].
  injection Hfound as Hin <-. apply bool_decide_eq_true in Hin.
  apply get_or_create_client_opened in Hclient.
  destruct Hclient as (_ & Hopen & Hheld & _ & Hcache & Hsame & Hmeta).
  assert (Hm : meta_files s2 = meta_files s).
  { destruct Hmeta as [Hm | (_ & Hempty & _)]; [exact Hm |].
    rewrite Hempty in Hin. apply elem_of_empty in Hin. contradiction. }
  bind_inv H as saved_meta s3 Hload.
  unfold load_metadata in Hload. bind_inv Hload as f s4 Hf.
  unfold get in Hf. injection Hf as <- <-. rewrite Hm in Hload.
  destruct (meta_files s !! path_join dir "meta.json") as [value |] eqn:Hvalue;
    [| injection Hload as <- <-; discriminate H].
  assert (Hv : saved_meta = Some value /\ s3 = s2).
  { destruct value as [| m | truthy]; [discriminate Hload | |]; injection Hload as <- <-; auto. }
  destruct Hv as [-> ->].
  destruct (falsy value); [discriminate H |].
  apply descriptor_compared in H.
  destruct H as (saved & fp & -> & H1 & H2 & H3 & H4 & H5).
  exists saved, fp, s2. rewrite <- Hheld. split_and!; auto.
Qed.

(** What the gate returns, and what a valid index rests on. *)
Lemma check_cache_node_inv st w s update s' :
  check_cache_node st w s = (Ok update, s') ->
  exists pdf fp valid,
    pdf_path st = Some pdf /\
    update = [Collection_name ("pdf_" +:+ Py.slice_to 24 (sha256 fp));
              Persist_dir (path_join INDEX_ROOT ("pdf_" +:+ Py.slice_to 24 (sha256 fp)));
              Cache_hit (valid && negb (default false (force_rebuild st)));
              Steps [if valid && negb (default false (force_rebuild st))
                     then "✓ Found valid cached index" else "✗ No valid cache found"]] /\
    (valid = true ->
     exists saved,
       meta_files s !! path_join (path_join INDEX_ROOT ("pdf_" +:+ Py.slice_to 24 (sha256 fp)))
                                 "meta.json" = Some (Parsed saved) /\
       is_Some (collections_of (path_join INDEX_ROOT ("pdf_" +:+ Py.slice_to 24 (sha256 fp))) s
                  !! ("pdf_" +:+ Py.slice_to 24 (sha256 fp))) /\
       meta_chunk_size saved = chunk_size st /\
       meta_chunk_overlap saved = chunk_overlap st /\
       meta_embedding_model saved = embed_model st /\
       meta_pdf_fingerprint saved = Some fp /\
       file_fingerprint pdf w s' = (Ok fp, s')).
Proof.
  intros H. unfold check_cache_node in H.
  bind_inv H as pdf s1 Hpdf. item_inv Hpdf.
  bind_inv H as name s2 Hname.
  unfold generate_collection_name in Hname. bind_inv Hname as fp0 s3 Hfp0.
  injection Hname as <- <-.
  bind_inv H as cs s4 Hcs. item_inv Hcs.
  bind_inv H as co s5 Hco. item_inv Hco.
  bind_inv H as em s6 Hem. item_inv Hem.
  bind_inv H as valid s7 Hvalid.
  injection H as <- <-.
  pose proof (file_fingerprint_footprint pdf w s) as Hfoot.
  rewrite Hfp0 in Hfoot. cbn [snd] in Hfoot. unfold same_but_cache in Hfoot.
  exists pdf, fp0, valid. split; [assumption |]. split; [reflexivity |].
  intros ->. apply is_index_valid_true in Hvalid.
  destruct Hvalid as (saved & fp & s0 & _ & Hin & Hmeta & Hfp & Hcs' & Hco' & Hem' & Hc0 & _ & _ &
                      _ & Hrun).
  pose proof (file_fingerprint_settled _ _ _ _ _ Hfp0 s0 Hc0) as Hagain.
  rewrite Hagain in Hrun. injection Hrun as <- <-.
  assert (Hnames : collection_names (path_join INDEX_ROOT ("pdf_" +:+ Py.slice_to 24 (sha256 fp0))) s3
                   = collection_names (path_join INDEX_ROOT ("pdf_" +:+ Py.slice_to 24 (sha256 fp0))) s)
    by (rewrite Hfoot; reflexivity).
  rewrite Hfoot in Hmeta. cbn in Hmeta. rewrite Hnames in Hin.
  exists saved. split; [exact Hmeta |]. split.
  { apply collections_of_is_Some. exact Hin. }
  repeat (split; [first [assumption | congruence] |]).
  apply (file_fingerprint_settled _ _ _ _ _ Hfp0). congruence.
Qed.


(** C1: the gate reports a hit only when rebuilding is not forced, the
    descriptor [meta.json] exists at the persist location, the index
    store holds a collection with the derived name, the descriptor's
    chunk size, chunk overlap and embedding model are the requested
    ones, and its fingerprint is the one computed for the document now.
    So a request that forces the rebuild, and a request whose parameters
    differ from the descriptor's, get a miss. *)
Theorem cache_gate_hit_only_when_valid
    (st : UnifiedState) (w : env) (s s' : store) (update : list entry) :
  check_cache_node st w s = (Ok update, s') ->
  (cache_hit (merge st update) = Some true ->
   default false (force_rebuild st) = false /\
   exists pdf name dir saved fp,
     pdf_path st = Some pdf /\
     collection_name (merge st update) = Some name /\
     persist_dir (merge st update) = Some dir /\
     name = "pdf_" +:+ Py.slice_to 24 (sha256 fp) /\
     dir = path_join INDEX_ROOT name /\
     meta_files s !! path_join dir "meta.json" = Some (Parsed saved) /\
     is_Some (collections_of dir s !! name) /\
     meta_chunk_size saved = chunk_size st /\
     meta_chunk_overlap saved = chunk_overlap st /\
     meta_embedding_model saved = embed_model st /\
     meta_pdf_fingerprint saved = Some fp /\
     file_fingerprint pdf w s' = (Ok fp, s')) /\
  (force_rebuild st = Some true -> cache_hit (merge st update) = Some false) /\
  (forall dir saved,
     persist_dir (merge st update) = Some dir ->
     meta_files s !! path_join dir "meta.json" = Some (Parsed saved) ->
     meta_chunk_size saved <> chunk_size st \/
     meta_chunk_overlap saved <> chunk_overlap st \/
     meta_embedding_model saved <> embed_model st ->
     cache_hit (merge st update) = Some false).
Proof.
  intros H. apply check_cache_node_inv in H.
  destruct H as (pdf & fp & valid & Hpdf & -> & Hmain).
  assert (Hfields :
    forall hit status,
      cache_hit (merge st [Collection_name ("pdf_" +:+ Py.slice_to 24 (sha256 fp));
                           Persist_dir (path_join INDEX_ROOT ("pdf_" +:+ Py.slice_to 24 (sha256 fp)));
                           Cache_hit hit; Steps [status]]) = Some hit /\
      persist_dir (merge st [Collection_name ("pdf_" +:+ Py.slice_to 24 (sha256 fp));
                             Persist_dir (path_join INDEX_ROOT ("pdf_" +:+ Py.slice_to 24 (sha256 fp)));
                             Cache_hit hit; Steps [status]])
      = Some (path_join INDEX_ROOT ("pdf_" +:+ Py.slice_to 24 (sha256 fp))) /\
      collection_name (merge st [Collection_name ("pdf_" +:+ Py.slice_to 24 (sha256 fp));
                                 Persist_dir (path_join INDEX_ROOT ("pdf_" +:+ Py.slice_to 24 (sha256 fp)));
                                 Cache_hit hit; Steps [status]])
      = Some ("pdf_" +:+ Py.slice_to 24 (sha256 fp)))
    by (intros; destruct st; split_and!; reflexivity).
  destruct (Hfields (valid && negb (default false (force_rebuild st)))
              (if valid && negb (default false (force_rebuild st))
               then "✓ Found valid cached index" else "✗ No valid cache found"))
    as (Hit & Hdir & Hcn).
  rewrite Hit, Hdir, Hcn. clear Hfields Hit Hdir Hcn.
  split; [| split].
  - intros [= Hv]. apply andb_true_iff in Hv. destruct Hv as [Hv Hforce].
    apply negb_true_iff in Hforce. split; [exact Hforce |].
    destruct (Hmain Hv) as (saved & H1 & H2 & H3 & H4 & H5 & H6 & H7).
    do 3 eexists. exists saved, fp.
    repeat (split; [first [reflexivity | eassumption] |]). exact H7.
  - intros ->. cbn. rewrite andb_false_r. reflexivity.
  - intros dir saved [= <-] Hsaved Hdiff.
    destruct valid; [| reflexivity].
    destruct (Hmain eq_refl) as (saved' & Hsaved' & _ & ? & ? & ? & _).
    rewrite Hsaved in Hsaved'. injection Hsaved' as <-.
    destruct Hdiff as [? | [? | ?]]; congruence.
Qed.


(** C1 on the indexed report: the gate reports a hit, and rebuilding
    was not forced. *)
Lemma cache_gate_hit_only_when_valid_witness :
  exists update,
    check_cache_node (Demo.request false) (Demo.healthy Demo.report_v1) Demo.indexed
    = (Ok update,
       snd (check_cache_node (Demo.request false) (Demo.healthy Demo.report_v1)
              Demo.indexed)) /\
    cache_hit (merge (Demo.request false) update) = Some true /\
    default false (force_rebuild (Demo.request false)) = false.
Proof.
  eexists. split; [vm_compute; reflexivity |].
  split; [vm_compute; reflexivity |].
  refine (proj1 (proj1 (cache_gate_hit_only_when_valid (Demo.request false)
                          (Demo.healthy Demo.report_v1) Demo.indexed _ _ _) _));
    vm_compute; reflexivity.
Defined.

(** ** A build followed by the gate *)

Lemma collection_listed_keeps_cache name dir : preserves cache_files (collection_listed name dir).
Proof. unfold collection_listed, get_collections. footprint. Qed.

(** With the fingerprint settled, the validity check leaves the cache
    files as they are. *)
Lemma is_index_valid_settled name dir pdf cs co em w s fp :
  file_fingerprint pdf w s = (Ok fp, s) ->
  cache_files (snd (is_index_valid name dir pdf cs co em w s)) = cache_files s.
Proof.
  intros Hfp. rewrite is_index_valid_unfold.
  unfold bind at 1. unfold path_exists, get at 1.
  destruct (bool_decide (dir ∈ dirs s)); [| reflexivity]. cbn [negb].
  unfold bind at 1.
  pose proof (collection_listed_keeps_cache name dir w s) as Hc.
  destruct (collection_listed name dir w s) as [[found | e] s1]; cbn [snd] in *; [| exact Hc].
  destruct found; cbn [negb]; [| exact Hc].
  unfold bind at 1. unfold load_metadata at 1, bind at 1, get at 1.
  destruct (meta_files s1 !! _) as [[| saved | truthy] |]; cbn [raise ret snd]; try exact Hc.
  - destruct (falsy (Parsed saved)); [exact Hc |].
    unfold bind at 1, get_index_metadata. unfold bind at 1.
    rewrite (file_fingerprint_settled _ _ _ _ _ Hfp s1 Hc). cbn. exact Hc.
  - destruct (falsy (NonObject truthy)); [exact Hc |].
    unfold bind at 1, get_index_metadata. unfold bind at 1.
    rewrite (file_fingerprint_settled _ _ _ _ _ Hfp s1 Hc). cbn. exact Hc.
Qed.

Lemma is_index_valid_hit name dir pdf cs co em w s fp saved :
  dir ∈ dirs s ->
  dir ∈ _client_cache s ->
  is_Some (collections_of dir s !! name) ->
  meta_files s !! path_join dir "meta.json" = Some (Parsed saved) ->
  meta_pdf_fingerprint saved = Some fp ->
  meta_chunk_size saved = Some cs ->
  meta_chunk_overlap saved = Some co ->
  meta_embedding_model saved = Some em ->
  file_fingerprint pdf w s = (Ok fp, s) ->
  is_index_valid name dir pdf cs co em w s = (Ok true, s).
Proof.
  intros Hdir Hclient Hcol Hmeta Hfp Hcs Hco Hem Hrun.
  apply collections_of_is_Some in Hcol. rewrite collection_names_cached in Hcol by exact Hclient.
  rewrite is_index_valid_unfold.
  unfold bind at 1, path_exists, get at 1. rewrite (bool_decide_eq_true_2 _ Hdir). cbn [negb].
  unfold bind at 1. rewrite collection_listed_cases, get_or_create_client_cached_run by exact Hclient.
  rewrite (bool_decide_eq_true_2 _ Hcol). cbn [negb].
  unfold load_metadata, get_index_metadata, bind, get, ret.
  rewrite Hmeta.
  replace (falsy (Parsed saved)) with false
    by (destruct saved; cbn in *; subst; reflexivity).
  rewrite Hrun. cbn. unfold get_eq.
  rewrite !bool_decide_eq_true_2 by assumption. reflexivity.
Qed.

(** After the gate has returned, the fingerprint of the document is
    settled, and it names the collection. *)
Lemma check_cache_node_ok st w s update s' :
  check_cache_node st w s = (Ok update, s') ->
  exists pdf fp hit,
    pdf_path st = Some pdf /\
    file_fingerprint pdf w s' = (Ok fp, s') /\
    update = [Collection_name ("pdf_" +:+ Py.slice_to 24 (sha256 fp));
              Persist_dir (path_join INDEX_ROOT ("pdf_" +:+ Py.slice_to 24 (sha256 fp)));
              Cache_hit hit;
              Steps [if hit then "✓ Found valid cached index" else "✗ No valid cache found"]].
Proof.
  intros H. unfold check_cache_node in H.
  bind_inv H as pdf s1 Hpdf. item_inv Hpdf.
  bind_inv H as name s2 Hname.
  unfold generate_collection_name in Hname. bind_inv Hname as fp s3 Hfp.
  injection Hname as <- <-.
  bind_inv H as cs s4 Hcs. item_inv Hcs.
  bind_inv H as co s5 Hco. item_inv Hco.
  bind_inv H as em s6 Hem. item_inv Hem.
  bind_inv H as valid s7 Hvalid.
  injection H as <- <-.
  exists pdf, fp, (valid && negb (default false (force_rebuild st))).
  split; [assumption |]. split; [| reflexivity].
  pose proof (file_fingerprint_settled _ _ _ _ _ Hfp s3 eq_refl) as Hset.
  pose proof (is_index_valid_settled ("pdf_" +:+ Py.slice_to 24 (sha256 fp))
                (path_join INDEX_ROOT ("pdf_" +:+ Py.slice_to 24 (sha256 fp)))
                pdf cs co em w s3 fp Hset) as Hc.
  rewrite Hvalid in Hc. cbn [snd] in Hc.
  exact (file_fingerprint_settled _ _ _ _ _ Hset s7 Hc).
Qed.

(** What [build_qdrant_vectorstore] does once it has its client. *)
Lemma build_qdrant_vectorstore_run sp name dir em w s client s0 o s' :
  get_or_create_client dir w s = (Ok client, s0) ->
  build_qdrant_vectorstore sp name dir em w s = (o, s') ->
  storage_only dir s0 s' /\
  match o with
  | Ok vs =>
      vs = {| vs_client := dir; vs_collection_name := name; vs_embeddings := em |} /\
      held dir s' = {[name]} ∪ held dir s0 ∖ {[name]} /\
      stored dir s' = <[name := sp]> (delete name (stored dir s0)) /\
      writable w (registry_path dir) = true /\
      meta_files s' !! registry_path dir = Some (Parsed (registry (held dir s')))
  | Raise e =>
      embed_query w em "test" = Raise e /\ held dir s' = held dir s0 /\
      qdrant s' = qdrant s0 /\ meta_files s' = meta_files s0 \/
      (exists n, embed_query w em "test" = Ok n) /\
      held dir s' = {[name]} ∪ held dir s0 ∖ {[name]} /\
      stored dir s' = delete name (stored dir s0) /\
      (writable w (registry_path dir) = false /\ e = OSError /\
       meta_files s' = meta_files s0 \/
       writable w (registry_path dir) = true /\
       embed_documents w em (map page_content sp) = Raise e /\
       meta_files s' !! registry_path dir = Some (Parsed (registry (held dir s'))))
  end.
Proof.
  intros Hclient. unfold build_qdrant_vectorstore. rewrite (bind_step _ _ _ _ _ _ Hclient).
  apply get_or_create_client_ok in Hclient. subst client.
  unfold bind at 1, emit at 1, modify at 1.
  unfold bind at 1, ask at 1. unfold bind at 1, lift at 1.
  destruct (embed_query w em "test") as [n | e0] eqn:Hq.
  2:{ intros [= <- <-]. split; [storage_only |]. left. auto. }
  unfold bind at 1. rewrite delete_collection_cases.
  unfold bind at 1. rewrite create_collection_cases.
  assert (Hno : forall X : gset string, bool_decide (name ∈ X ∖ {[name]}) = false).
  { intros X. apply bool_decide_eq_false_2. intros Hin.
    apply elem_of_difference in Hin. destruct Hin as [_ Hn].
    apply Hn, elem_of_singleton. reflexivity. }
  destruct (writable w (registry_path dir)) eqn:Hw; autorewrite with store; rewrite Hno.
  - unfold bind at 1, add_documents. cbn [vs_client vs_collection_name vs_embeddings].
    unfold bind at 1, emit at 1, modify at 1. unfold bind at 1, ask at 1.
    unfold bind at 1, lift at 1.
    destruct (embed_documents w em (map page_content sp)) as [[] | e1] eqn:Hd.
    + rewrite upsert_cases. autorewrite with store.
      rewrite bool_decide_eq_true_2
        by (apply elem_of_union; left; apply elem_of_singleton; reflexivity).
      unfold ret. intros [= <- <-]. split; [storage_only |].
      autorewrite with store. split_and!; auto.
      * unfold points_of. autorewrite with store. rewrite lookup_delete_eq. reflexivity.
      * apply lookup_insert_eq.
    + intros [= <- <-]. split; [storage_only |]. right. autorewrite with store.
      split_and!; eauto. right. split_and!; auto. apply lookup_insert_eq.
  - intros [= <- <-]. split; [storage_only |]. right. autorewrite with store.
    split_and!; eauto.
Qed.

Lemma build_qdrant_vectorstore_ok sp name dir em w s vs s' :
  build_qdrant_vectorstore sp name dir em w s = (Ok vs, s') ->
  dir ∈ _client_cache s' /\
  name ∈ held dir s' /\
  cache_files s' = cache_files s.
Proof.
  intros H.
  destruct (get_or_create_client dir w s) as [[client | e] s0] eqn:Hclient.
  2:{ unfold build_qdrant_vectorstore in H. rewrite (bind_abort _ _ _ _ _ _ Hclient) in H.
      discriminate H. }
  pose proof (get_or_create_client_cached _ _ _ _ _ Hclient) as Hin.
  pose proof (preserves_run cache_files _ _ _ _ _ (get_or_create_client_keeps_cache dir) Hclient)
    as Hc.
  destruct (build_qdrant_vectorstore_run _ _ _ _ _ _ _ _ _ _ Hclient H)
    as ((F1 & _ & F3 & _) & _ & Hheld & _).
  split_and!; [congruence | | congruence].
  rewrite Hheld. apply elem_of_union. left. apply elem_of_singleton. reflexivity.
Qed.

Lemma save_metadata_ok dir m w s r s' :
  save_metadata dir m w s = (Ok r, s') ->
  dir ∈ dirs s' /\
  meta_files s' !! path_join dir "meta.json" = Some (Parsed m) /\
  cache_files s' = cache_files s /\ _client_cache s' = _client_cache s /\
  qdrant s' = qdrant s /\ client_collections s' = client_collections s.
Proof.
  unfold save_metadata, mkdir, bind, modify, ask, raise.
  destruct (writable w _); [| discriminate].
  intros [= _ <-]. cbn. rewrite lookup_insert_eq.
  split; [apply elem_of_union; left; apply elem_of_singleton; reflexivity |]. auto.
Qed.

(** What a build that returned has left behind. *)
Lemma build_index_node_ok st w s update s' :
  build_index_node st w s = (Ok update, s') ->
  exists name dir em pdf cs co fp s0 s1,
    collection_name st = Some name /\
    persist_dir st = Some dir /\
    embed_model st = Some em /\
    pdf_path st = Some pdf /\
    chunk_size st = Some cs /\
    chunk_overlap st = Some co /\
    cache_files s0 = cache_files s /\
    file_fingerprint pdf w s0 = (Ok fp, s1) /\
    cache_files s' = cache_files s1 /\
    dir ∈ dirs s' /\
    dir ∈ _client_cache s' /\
    is_Some (collections_of dir s' !! name) /\
    meta_files s' !! path_join dir "meta.json"
    = Some (Parsed {| meta_pdf_fingerprint := Some fp; meta_chunk_size := Some cs;
                      meta_chunk_overlap := Some co; meta_embedding_model := Some em;
                      meta_format := Some "v2"; meta_collection_name := Some name;
                      meta_registry := None; meta_other_keys := false |}).
Proof.
  intros H. unfold build_index_node in H.
  bind_inv H as sp s1 Hsp. item_inv Hsp.
  bind_inv H as name s2 Hname. item_inv Hname.
  bind_inv H as dir s3 Hdir. item_inv Hdir.
  bind_inv H as em s4 Hem. item_inv Hem.
  bind_inv H as vs s5 Hbuild.
  bind_inv H as pdf s6 Hpdf. item_inv Hpdf.
  bind_inv H as cs s7 Hcs. item_inv Hcs.
  bind_inv H as co s8 Hco. item_inv Hco.
  bind_inv H as m s9 Hmeta.
  bind_inv H as u s10 Hsave.
  injection H as <- <-.
  apply build_qdrant_vectorstore_ok in Hbuild. destruct Hbuild as (Hcc & Hcol & Hcf).
  unfold get_index_metadata in Hmeta. bind_inv Hmeta as fp s11 Hfp.
  injection Hmeta as <- <-.
  pose proof (file_fingerprint_footprint pdf w s5) as Hfoot. rewrite Hfp in Hfoot. cbn in Hfoot.
  unfold same_but_cache in Hfoot.
  apply save_metadata_ok in Hsave. cbn in Hsave.
  destruct Hsave as (Hd & Hm & Hc & Hcl & Hq' & Hh).
  assert (Hcached : dir ∈ _client_cache s10).
  { rewrite Hcl, Hfoot. exact Hcc. }
  exists name, dir, em, pdf, cs, co, fp, s5, s11.
  split_and!; try first [assumption | reflexivity].
  apply collections_of_is_Some. rewrite collection_names_cached by exact Hcached.
  unfold held. rewrite Hh, Hfoot. exact Hcol.
Qed.

(** The gate on a store that holds a matching index reports a hit. *)
Lemma check_cache_node_hit st w s pdf cs co em fp :
  pdf_path st = Some pdf ->
  chunk_size st = Some cs ->
  chunk_overlap st = Some co ->
  embed_model st = Some em ->
  default false (force_rebuild st) = false ->
  file_fingerprint pdf w s = (Ok fp, s) ->
  let name := "pdf_" +:+ Py.slice_to 24 (sha256 fp) in
  let dir := path_join INDEX_ROOT name in
  dir ∈ dirs s ->
  dir ∈ _client_cache s ->
  is_Some (collections_of dir s !! name) ->
  (exists saved,
     meta_files s !! path_join dir "meta.json" = Some (Parsed saved) /\
     meta_pdf_fingerprint saved = Some fp /\
     meta_chunk_size saved = Some cs /\
     meta_chunk_overlap saved = Some co /\
     meta_embedding_model saved = Some em) ->
  check_cache_node st w s
  = (Ok [Collection_name name; Persist_dir dir; Cache_hit true;
         Steps ["✓ Found valid cached index"]], s).
Proof.
  intros Hpdf Hcs Hco Hem Hforce Hfp name dir Hdir Hclient Hcol (saved & Hmeta & H1 & H2 & H3 & H4).
  unfold check_cache_node. rewrite Hpdf, Hcs, Hco, Hem, Hforce. cbn [item].
  unfold generate_collection_name.
  rewrite (bind_step _ _ _ _ _ _ eq_refl).
  rewrite (bind_step _ _ _ _ _ _ (bind_step _ _ _ _ _ _ Hfp)).
  unfold ret at 1.
  do 3 rewrite (bind_step _ _ _ _ _ _ eq_refl).
  rewrite (bind_step _ _ _ _ _ _
             (is_index_valid_hit _ _ _ _ _ _ _ _ _ _ Hdir Hclient Hcol Hmeta H1 H2 H3 H4 Hfp)).
  reflexivity.
Qed.


(** C5: a fresh build that returns, followed by the gate on the same
    document with the same parameters and no forced rebuild, is a hit. *)
Theorem build_then_check_hits
    (st st' : UnifiedState) (sp : list Document) (w : env) (s0 s1 s2 : store)
    (u0 u1 : list entry) :
  check_cache_node st w s0 = (Ok u0, s1) ->
  build_index_node (merge (merge st u0) [Splits sp]) w s1 = (Ok u1, s2) ->
  pdf_path st' = pdf_path st ->
  chunk_size st' = chunk_size st ->
  chunk_overlap st' = chunk_overlap st ->
  embed_model st' = embed_model st ->
  default false (force_rebuild st') = false ->
  exists u2 s3,
    check_cache_node st' w s2 = (Ok u2, s3) /\
    cache_hit (merge st' u2) = Some true.
Proof.
  intros Hcheck Hbuild Epdf Ecs Eco Eem Hforce.
  apply check_cache_node_ok in Hcheck.
  destruct Hcheck as (pdf & fp & hit & Hpdf & Hset & ->).
  apply build_index_node_ok in Hbuild.
  destruct Hbuild as (name & dir & em & pdf' & cs & co & fp' & sa & sb &
                      Hname & Hdir & Hem & Hpdf' & Hcs & Hco & Hca & Hfp' & Hcb &
                      Hd & Hcl & Hcol & Hmeta).
  assert (Hfields :
    name = "pdf_" +:+ Py.slice_to 24 (sha256 fp) /\
    dir = path_join INDEX_ROOT ("pdf_" +:+ Py.slice_to 24 (sha256 fp)) /\
    embed_model st = Some em /\ pdf_path st = Some pdf' /\
    chunk_size st = Some cs /\ chunk_overlap st = Some co).
  { destruct st; cbn in *. split_and!; congruence. }
  destruct Hfields as (-> & -> & Hem0 & Hpdf0 & Hcs0 & Hco0).
  assert (pdf' = pdf) by congruence. subst pdf'.
  pose proof (file_fingerprint_settled _ _ _ _ _ Hset sa Hca) as Hagain.
  rewrite Hagain in Hfp'. injection Hfp' as <- <-.
  assert (Hset2 : file_fingerprint pdf w s2 = (Ok fp, s2)).
  { apply (file_fingerprint_settled _ _ _ _ _ Hset). congruence. }
  eexists. exists s2. split.
  - apply (check_cache_node_hit st' w s2 pdf cs co em fp); try congruence; try assumption.
    eexists. split; [exact Hmeta |]. cbn. auto.
  - destruct st'; reflexivity.
Qed.

(** C5 on the example: the report is indexed from scratch, then the
    gate is asked again. *)
Lemma build_then_check_hits_witness :
  let st := Demo.request false in
  let w := Demo.healthy Demo.report_v1 in
  let first := check_cache_node st w empty_store in
  exists u0 u1 u2 s3,
    first = (Ok u0, snd first) /\
    cache_hit (merge st u0) = Some false /\
    build_index_node (merge (merge st u0) [Splits [Demo.page]]) w (snd first)
      = (Ok u1, snd (build_index_node (merge (merge st u0) [Splits [Demo.page]]) w (snd first))) /\
    check_cache_node st w
      (snd (build_index_node (merge (merge st u0) [Splits [Demo.page]]) w (snd first)))
      = (Ok u2, s3) /\
    cache_hit (merge st u2) = Some true.
Proof.
  cbv zeta. eexists. eexists.
  assert (H0 : check_cache_node (Demo.request false) (Demo.healthy Demo.report_v1)
                 empty_store
               = (Ok [Collection_name "pdf_ba7816bf8f01cfea414140de";
                      Persist_dir ".indices/pdf_ba7816bf8f01cfea414140de";
                      Cache_hit false; Steps ["✗ No valid cache found"]],
                  snd (check_cache_node (Demo.request false)
                         (Demo.healthy Demo.report_v1) empty_store)))
    by (vm_compute; reflexivity).
  assert (H1 : build_index_node
                 (merge (merge (Demo.request false)
                           [Collection_name "pdf_ba7816bf8f01cfea414140de";
                            Persist_dir ".indices/pdf_ba7816bf8f01cfea414140de";
                            Cache_hit false; Steps ["✗ No valid cache found"]])
                        [Splits [Demo.page]])
                 (Demo.healthy Demo.report_v1)
                 (snd (check_cache_node (Demo.request false)
                         (Demo.healthy Demo.report_v1) empty_store))
               = (Ok [Vectorstore {| vs_client := ".indices/pdf_ba7816bf8f01cfea414140de";
                                     vs_collection_name := "pdf_ba7816bf8f01cfea414140de";
                                     vs_embeddings := "m1" |};
                      Steps ["✓ Built and saved new Qdrant index"]],
                  snd (build_index_node
                         (merge (merge (Demo.request false)
                                   [Collection_name "pdf_ba7816bf8f01cfea414140de";
                                    Persist_dir ".indices/pdf_ba7816bf8f01cfea414140de";
                                    Cache_hit false; Steps ["✗ No valid cache found"]])
                                [Splits [Demo.page]])
                         (Demo.healthy Demo.report_v1)
                         (snd (check_cache_node (Demo.request false)
                                 (Demo.healthy Demo.report_v1) empty_store)))))
    by (vm_compute; reflexivity).
  destruct (build_then_check_hits (Demo.request false) (Demo.request false)
              [Demo.page] (Demo.healthy Demo.report_v1) _ _ _ _ _ H0 H1
              eq_refl eq_refl eq_refl eq_refl eq_refl) as (u2 & s3 & Hc & Hh).
  exists u2, s3. split; [exact H0 |]. split; [reflexivity |].
  split; [exact H1 |]. split; [exact Hc | exact Hh].
Defined.

(** ** A build that fails *)



(** ** The router *)

Lemma prefix_app (word rest : string) : String.prefix word (word +:+ rest) = true.
Proof.
  induction word as [| c word IH].
  - destruct rest; reflexivity.
  - change (String c word +:+ rest) with (String c (word +:+ rest)).
    cbn [String.prefix]. destruct (Ascii.ascii_dec c c); [exact IH | congruence].
Qed.

(** [word in (before + word + after)] *)
Lemma str_in_app (word before after : string) :
  Py.str_in word (before +:+ word +:+ after) = true.
Proof.
  induction before as [| c before IH].
  - change (EmptyString +:+ word +:+ after) with (word +:+ after).
    destruct (word +:+ after) eqn:E; cbn [Py.str_in];
      rewrite <- E, prefix_app; reflexivity.
  - change (String c before +:+ word +:+ after) with (String c (before +:+ word +:+ after)).
    cbn [Py.str_in]. rewrite IH. apply orb_true_r.
Qed.

Lemma keyword_check_true (question_ : string) :
  (exists word, In word weather_keywords /\ Py.str_in word (Py.lower question_) = true) ->
  existsb (fun word => Py.str_in word (Py.lower question_)) weather_keywords = true.
Proof. intros (word & Hin & Hword). apply existsb_exists. exists word. auto. Qed.

(** C3: a question whose lowercase form contains one of the weather
    keywords is routed to [weather] at once, whether a document is
    available or not; the store is left as it was, so neither the
    document context nor the classifier has been consulted. *)
Theorem weather_keyword_routes_to_weather
    (question_ : string) (pdf_available : bool) (w : env) (s : store) :
  (exists word, In word weather_keywords /\ Py.str_in word (Py.lower question_) = true) ->
  route_to_agent question_ pdf_available w s = (Ok Weather, s).
Proof.
  intros H. unfold route_to_agent. rewrite (keyword_check_true _ H). reflexivity.
Qed.

(** C3 on the question of the specification, with a document attached. *)
Lemma weather_keyword_routes_to_weather_witness :
  route_to_agent "What's the weather like, referring to page 3?" true
    (Demo.healthy Demo.report_v1) Demo.indexed
  = (Ok Weather, Demo.indexed).
Proof.
  apply weather_keyword_routes_to_weather.
  exists "weather". split; [cbn; auto | vm_compute; reflexivity].
Defined.

(** C10: the keyword test is substring containment on the lowercased
    question: a keyword found between any two pieces of text, inside a
    longer word as well, routes the question to [weather], with the
    store left as it was, whether a document is available or not. *)
Theorem keyword_inside_a_word_routes_to_weather
    (word before after question_ : string) (pdf_available : bool) (w : env) (s : store) :
  In word weather_keywords ->
  Py.lower question_ = before +:+ word +:+ after ->
  route_to_agent question_ pdf_available w s = (Ok Weather, s).
Proof.
  intros Hin Hq. unfold route_to_agent.
  rewrite (keyword_check_true question_); [reflexivity |].
  exists word. split; [exact Hin |]. rewrite Hq. apply str_in_app.
Qed.

(** C10 on two questions about the document: "brain" and "training"
    contain "rain". *)
Lemma keyword_inside_a_word_routes_to_weather_witness :
  route_to_agent "What does the report say about the Brain?" true
    (Demo.healthy Demo.report_v1) Demo.indexed
  = (Ok Weather, Demo.indexed) /\
  route_to_agent "Summarize the training section" true
    (Demo.healthy Demo.report_v1) Demo.indexed
  = (Ok Weather, Demo.indexed).
Proof.
  split.
  - apply (keyword_inside_a_word_routes_to_weather
             "rain" "what does the report say about the b" "?");
      [cbn; auto | reflexivity].
  - apply (keyword_inside_a_word_routes_to_weather "rain" "summarize the t" "ing section");
      [cbn; auto | reflexivity].
Defined.

(** What holds of C4: with a context at hand from which the prompt
    can be built, a classifier that fails or answers outside the three
    intents gives [unknown], and so does an empty context. *)
Lemma router_downgrades_classifier (question_ : string) (w : env) (s s1 : store) (ctx : string) :
  existsb (fun word => Py.str_in word (Py.lower question_)) weather_keywords = false ->
  extract_all_pdf_contexts "uploaded_pdfs" LLM_MODEL w s = (Ok ctx, s1) ->
  from_messages w (Py.slice_to 3000 ctx) = Ok tt ->
  exists intent s2,
    route_to_agent question_ true w s = (Ok intent, s2) /\
    (ctx = EmptyString -> intent = Unknown) /\
    (forall e, llm w (Classify (Py.slice_to 3000 ctx) question_) = Raise e -> intent = Unknown) /\
    (forall reply,
       llm w (Classify (Py.slice_to 3000 ctx) question_) = Ok reply ->
       ~ In (Py.lower (Py.strip reply)) ["rag"; "weather"; "unknown"] ->
       intent = Unknown).
Proof.
  intros Hkw Hctx Hprompt. unfold route_to_agent. rewrite Hkw.
  rewrite (bind_step _ _ _ _ _ _ Hctx).
  destruct ctx as [| c ctx]; cbn [Py.truthy String.eqb negb].
  - exists Unknown, s1. split; [reflexivity |]. auto.
  - change (Py.truthy (String c ctx)) with true. cbn [negb].
    unfold try_except, chat, emit, bind, modify, ask, lift, ret. rewrite Hprompt.
    destruct (llm w (Classify (Py.slice_to 3000 (String c ctx)) question_)) as [reply | e] eqn:E.
    + eexists. eexists. split; [reflexivity |]. split_and!; try congruence.
      intros reply' [= <-] Hout. unfold coerce_category.
      destruct (String.eqb_spec (Py.lower (Py.strip reply)) "rag") as [Hr |];
        [exfalso; apply Hout; rewrite Hr; cbn; auto |].
      destruct (String.eqb_spec (Py.lower (Py.strip reply)) "weather") as [Hw |];
        [exfalso; apply Hout; rewrite Hw; cbn; auto | reflexivity].
    + eexists. eexists. split; [reflexivity |]. split_and!; try congruence; auto.
Qed.

(** C4 fails on the code: with a document at hand and no upload
    folder, deriving the context raises, and the router lets the error
    through; an upload folder without PDF files does the same. *)
Theorem router_propagates_context_failure :
  fst (route_to_agent "Summarize section 2" true Demo.no_upload_folder empty_store)
  = Raise FileNotFoundError /\
  fst (query "Summarize section 2" (Some "report.pdf") 1000 150 "m1" 4 false
         Demo.no_upload_folder empty_store)
  = Raise FileNotFoundError /\
  fst (route_to_agent "Summarize section 2" true Demo.empty_upload_folder empty_store)
  = Raise ValueError.
Proof. split_and!; vm_compute; reflexivity. Qed.

(** ** The workflow graph *)

Lemma run_S limit n st :
  run (S limit) n st =
  (let! _ := emit (Enter n) in
   let! update := node_function n st in
   let! succ := next_node n (merge st update) in
   match succ with
   | None => ret (merge st update)
   | Some n' => run limit n' (merge st update)
   end).
Proof. reflexivity. Qed.

(** C6: the edge out of the router leads to the unknown handler
    exactly when the intent is [unknown], or is [rag] with no document;
    and for a [rag] intent with no document the engine then enters the
    unknown handler and stops there: the record of the run grows by
    that one node, so the gate, the ingestion and the retrieval are
    never entered. *)
Theorem rag_without_document_routes_to_unknown (st : UnifiedState) :
  (route_after_classification st = "unknown" <->
   default Unknown (agent_type st) = Unknown \/
   (default Unknown (agent_type st) = Rag /\ Py.truthy_opt (pdf_path st) = false)) /\
  (default Unknown (agent_type st) = Rag ->
   Py.truthy_opt (pdf_path st) = false ->
   forall (limit : nat) (w : env) (s : store),
     next_node RouterN st w s = (Ok (Some UnknownN), s) /\
     exists result,
       run (S limit) UnknownN st w s
       = (Ok result, set_trace (trace s ++ [Enter UnknownN]) s) /\
       metadata result = Some {| agent := "unknown"; success := None; md_city := None;
                                 md_state := None; temperature := None |}).
Proof.
  split.
  - unfold route_after_classification.
    destruct (default Unknown (agent_type st)); [| split; [discriminate | intros [|[]]; discriminate] |].
    + destruct (Py.truthy_opt (pdf_path st)); cbn [negb].
      * split; [discriminate | intros [| []]; discriminate].
      * split; auto.
    + split; auto.
  - intros Hrag Hdoc limit w s. split.
    + unfold next_node, route_after_classification. rewrite Hrag, Hdoc. reflexivity.
    + rewrite run_S. unfold emit, modify, bind, node_function, unknown_node, next_node, ret.
      eexists. split; [reflexivity |]. destruct st; reflexivity.
Qed.

(** C6 on a request classified [rag] with no document. *)
Lemma rag_without_document_routes_to_unknown_witness :
  let st := merge (Demo.no_document "Summarize section 2") [Agent_type Rag] in
  route_after_classification st = "unknown" /\
  next_node RouterN st (Demo.healthy Demo.report_v1) empty_store
  = (Ok (Some UnknownN), empty_store) /\
  trace (snd (run 1 UnknownN st (Demo.healthy Demo.report_v1) empty_store))
  = [Enter UnknownN].
Proof.
  cbv zeta.
  pose proof (rag_without_document_routes_to_unknown
                (merge (Demo.no_document "Summarize section 2") [Agent_type Rag]))
    as [Hiff Hrun].
  split; [apply Hiff; right; split; reflexivity |].
  destruct (Hrun eq_refl eq_refl 0%nat (Demo.healthy Demo.report_v1) empty_store)
    as (Hnext & result & Hres & _).
  split; [exact Hnext |]. rewrite Hres. reflexivity.
Defined.

(** ** The engine and the top-level query *)

Lemma next_node_inv n st w s succ s' :
  next_node n st w s = (Ok succ, s') ->
  s' = s /\
  match succ with
  | Some n' => (rank n' < rank n)%nat
  | None => terminal n = true
  end.
Proof.
  destruct n; cbn [next_node ret]; unfold ret; try (intros [= <- <-]; cbn; split; [reflexivity | lia || reflexivity]).
  - unfold dispatch, route_after_classification.
    destruct (default Unknown (agent_type st)); [destruct (negb _) | |];
      cbn; unfold ret; intros [= <- <-]; cbn; split; (reflexivity || lia).
  - unfold should_build_index, dispatch, bind, item.
    destruct (cache_hit st) as [[|] |]; cbn; unfold ret, raise;
      intros [= <- <-] || discriminate; cbn; split; (reflexivity || lia).
Qed.

(** Any limit that covers the longest path gives the same run: the
    recursion limit of the graph never cuts a request short. *)
Lemma run_enough l1 : forall l2 n st w s,
  (rank n <= l1)%nat -> (rank n <= l2)%nat -> run l1 n st w s = run l2 n st w s.
Proof.
  induction l1 as [| l1 IH]; intros l2 n st w s H1 H2.
  - destruct n; cbn in H1; lia.
  - destruct l2 as [| l2]; [destruct n; cbn in H2; lia |].
    rewrite !run_S. unfold bind.
    destruct (emit (Enter n) w s) as [[[] | e] s1]; [| reflexivity].
    destruct (node_function n st w s1) as [[update | e] s2]; [| reflexivity].
    destruct (next_node n (merge st update) w s2) as [[succ | e] s3] eqn:E; [| reflexivity].
    destruct succ as [n' |]; [| reflexivity].
    apply next_node_inv in E. destruct E as [_ Hr].
    apply IH; lia.
Qed.

Lemma run_step w n st s n' st' s' limit :
  step w (n, st, s) (n', st', s') ->
  run (S limit) n st w s = run limit n' st' w s'.
Proof.
  intros H. inversion H as [? ? ? update s1 ? ? Hnode Hnext]; subst.
  rewrite run_S. unfold bind, emit, modify. rewrite Hnode, Hnext. reflexivity.
Qed.

Lemma step_rank w n st s n' st' s' :
  step w (n, st, s) (n', st', s') -> (rank n' < rank n)%nat.
Proof.
  intros H. inversion H as [? ? ? update s1 ? ? Hnode Hnext]; subst.
  apply next_node_inv in Hnext. tauto.
Qed.

(** An error raised by a node that the run reaches leaves the run. *)
Lemma run_raises w e sf (from to : node * UnifiedState * store) :
  rtc (step w) from to ->
  node_function to.1.1 to.1.2 w (set_trace (trace to.2 ++ [Enter to.1.1]) to.2) = (Raise e, sf) ->
  forall limit, (rank from.1.1 <= limit)%nat ->
  run limit from.1.1 from.1.2 w from.2 = (Raise e, sf).
Proof.
  intros Hpath Hraise. induction Hpath as [[[n st] s] | [[n st] s] [[n1 st1] s1] z Hstep Hpath IH];
    intros limit Hlimit; cbn [fst snd] in *.
  - destruct limit as [| limit]; [destruct n; cbn in Hlimit; lia |].
    rewrite run_S. unfold bind, emit, modify. rewrite Hraise. reflexivity.
  - destruct limit as [| limit]; [destruct n; cbn in Hlimit; lia |].
    rewrite (run_step _ _ _ _ _ _ _ _ Hstep). apply IH; [exact Hraise |].
    apply step_rank in Hstep. lia.
Qed.

Lemma appended_steps (l : list string) (x : string) : (l ++ [x])%list <> [].
Proof. destruct l; discriminate. Qed.

(** The temperature of the metadata is the one the answer shows. *)
Lemma main_temp_item_ok wd w s temp s1 :
  main_temp_item wd w s = (Ok temp, s1) -> main_temp wd = Some temp /\ s1 = s.
Proof.
  destruct wd as [| [| | t f h] d ws]; try discriminate.
  cbn. intros H. apply item_ok in H. exact H.
Qed.

(** A terminal node that returns has set the answer and added a step. *)
Lemma terminal_node_result n st w s update s' :
  terminal n = true ->
  node_function n st w s = (Ok update, s') ->
  is_Some (answer (merge st update)) /\ steps (merge st update) <> [].
Proof.
  destruct n; try discriminate; intros _ H; cbn [node_function] in H.
  - unfold weather_node in H.
    bind_inv H as q s1 Hq. item_inv Hq.
    bind_inv H as location s2 Hloc.
    destruct location as [city_ state_name |]; [| discriminate H].
    destruct (Py.truthy_opt city_); cbn [negb] in H.
    + bind_inv H as weather_data_ s3 Hfetch.
      destruct weather_data_ as [wd |].
      * bind_inv H as temp s4 Htemp. apply main_temp_item_ok in Htemp.
        destruct Htemp as [Htemp ->].
        injection H as <- <-. destruct st; cbn. split; [eauto | apply appended_steps].
      * injection H as <- <-. destruct st; cbn. split; [eauto | apply appended_steps].
    + injection H as <- <-. destruct st; cbn. split; [eauto | apply appended_steps].
  - unfold unknown_node, ret in H. injection H as <- <-.
    destruct st; cbn. split; [eauto | apply appended_steps].
  - unfold generate_answer_node in H.
    bind_inv H as q s1 Hq. item_inv Hq.
    bind_inv H as cx s2 Hcx. item_inv Hcx.
    bind_inv H as answer_ s3 Hchat.
    injection H as <- <-. destruct st; cbn. split; [eauto | apply appended_steps].
Qed.

(** A run that returns ends in a terminal node: its result carries an
    answer and a step trace. *)
Lemma run_result limit : forall n st w s r s',
  run limit n st w s = (Ok r, s') ->
  is_Some (answer r) /\ steps r <> [].
Proof.
  induction limit as [| limit IH]; intros n st w s r s' H; [discriminate H |].
  rewrite run_S in H.
  bind_inv H as u s1 Henter.
  bind_inv H as update s2 Hnode.
  bind_inv H as succ s3 Hnext.
  destruct succ as [n' |]; [exact (IH _ _ _ _ _ _ H) |].
  injection H as <- <-.
  apply next_node_inv in Hnext. destruct Hnext as [_ Hterm].
  exact (terminal_node_result _ _ _ _ _ _ Hterm Hnode).
Qed.

(** C8, as stated, fails: with a descriptor that is not valid JSON the
    query raises the decoding error, and with a document the loader
    cannot read it raises the loader's error; no result is returned. *)
Lemma query_raises_on_stage_failure :
  meta_files Demo.corrupted !! ".indices/pdf_ba7816bf8f01cfea414140de/meta.json"
  = Some Malformed /\
  fst (query "Summarize section 2" (Some "report.pdf") 1000 150 "m1" 4 false
         (Demo.healthy Demo.report_v1) Demo.corrupted)
  = Raise JSONDecodeError /\
  fst (query "Summarize section 2" (Some "report.pdf") 1000 150 "m1" 4 false
         (Demo.unreadable Demo.report_v1) empty_store)
  = Raise (CollaboratorError "pypdf").
Proof. split_and!; vm_compute; reflexivity. Qed.

(** C8, amended: a query that returns gives a result with an answer
    and a non-empty step trace; an error raised by a stage that the
    request reaches is not turned into a result: the query raises it,
    with the store as that stage left it. *)
Theorem query_returns_result_or_raises
    (question_ : string) (pdf_path_ : option string) (chunk_size_ chunk_overlap_ : Z)
    (embed_model_ : string) (k_ : Z) (force_rebuild_ : bool) (w : env) (s : store) :
  (forall r s',
     query question_ pdf_path_ chunk_size_ chunk_overlap_ embed_model_ k_ force_rebuild_ w s
     = (Ok r, s') ->
     is_Some (answer r) /\ steps r <> []) /\
  (forall n st s1 e s',
     rtc (step w)
       (RouterN,
        {| question := Some question_; pdf_path := pdf_path_; agent_type := None;
           chunk_size := Some chunk_size_; chunk_overlap := Some chunk_overlap_;
           embed_model := Some embed_model_; force_rebuild := Some force_rebuild_;
           k := Some k_; docs := None; splits := None; collection_name := None;
           persist_dir := None; cache_hit := None; vectorstore_ := None;
           retrieved_docs := None; context := None; city := None; state := None;
           weather_data := None; answer := None; metadata := None; steps := [] |},
        s)
       (n, st, s1) ->
     node_function n st w (set_trace (trace s1 ++ [Enter n]) s1) = (Raise e, s') ->
     query question_ pdf_path_ chunk_size_ chunk_overlap_ embed_model_ k_ force_rebuild_ w s
     = (Raise e, s')).
Proof.
  split.
  - intros r s' H. exact (run_result _ _ _ _ _ _ _ H).
  - intros n st s1 e s' Hpath Hraise.
    apply (run_raises w e s' _ _ Hpath Hraise). cbn. unfold recursion_limit. lia.
Qed.

(** The amended C8 on the example: the healthy request returns its
    answer; with the corrupted descriptor the request reaches the gate,
    the gate raises, and so does the query. *)
Lemma query_returns_result_or_raises_witness :
  (exists r s',
     query "Summarize section 2" (Some "report.pdf") 1000 150 "m1" 4 false
       (Demo.healthy Demo.report_v1) empty_store = (Ok r, s') /\
     is_Some (answer r) /\ steps r <> []) /\
  (exists s',
     query "Summarize section 2" (Some "report.pdf") 1000 150 "m1" 4 false
       (Demo.healthy Demo.report_v1) Demo.corrupted = (Raise JSONDecodeError, s')).
Proof.
  split.
  - eexists. eexists. split; [vm_compute; reflexivity |].
    eapply (proj1 (query_returns_result_or_raises "Summarize section 2" (Some "report.pdf")
                     1000 150 "m1" 4 false (Demo.healthy Demo.report_v1) empty_store)).
    vm_compute. reflexivity.
  - eexists.
    eapply (proj2 (query_returns_result_or_raises "Summarize section 2" (Some "report.pdf")
                     1000 150 "m1" 4 false (Demo.healthy Demo.report_v1)
                     Demo.corrupted) CheckCacheN).
    + eapply rtc_l; [| apply rtc_refl].
      eapply step_edge; vm_compute; reflexivity.
    + vm_compute. reflexivity.
Defined.

(** ** The weather handler *)

Lemma fetch_weather_data_run (city_ : string) (state_ : option string) (w : env) (s : store) :
  Py.truthy city_ = true ->
  fetch_weather_data city_ state_ w s
  = (Ok (fetched (requests_get w city_ state_)),
     set_trace (trace s ++ [WeatherFetch city_ state_]) s).
Proof.
  intros Hc. unfold fetch_weather_data. rewrite Hc. cbn [negb].
  unfold bind, emit, modify, ask, ret, fetched.
  destruct (requests_get w city_ state_); reflexivity.
Qed.

(** What holds of C9.  When the extractor's reply gives no city, the
    handler asks for one, with [success] false, and the store is as the
    extractor left it: no fetch was made.  When a city is given and the
    fetch fails, or answers with another status than 200 or without a
    body, the handler apologises for that location, with [success]
    false.  When the body carries a temperature, the handler returns
    [success] true and keeps the payload; when it does not, the handler
    raises the error of the lookup [weather_data["main"]["temp"]]. *)
Lemma weather_node_outcomes (st : UnifiedState) (w : env) (s s1 : store) (q : string)
    (city_ state_name : option string) :
  question st = Some q ->
  extract_location_from_query q w s = (Ok (JsonDict city_ state_name), s1) ->
  (Py.truthy_opt city_ = false ->
   weather_node st w s
   = (Ok [Answer no_city_answer;
          Metadata {| agent := "weather"; success := Some false; md_city := None;
                      md_state := None; temperature := None |};
          Steps ["❌ No city found in query"]], s1)) /\
  (forall c, city_ = Some c -> Py.truthy c = true ->
   match fetched (requests_get w c state_name) with
   | None =>
       weather_node st w s
       = (Ok [Answer (fetch_failed_answer c state_name);
              Metadata {| agent := "weather"; success := Some false; md_city := Some c;
                          md_state := state_name; temperature := None |};
              Steps ["❌ Weather API failed for " +:+ location_str c state_name]],
          set_trace (trace s1 ++ [WeatherFetch c state_name]) s1)
   | Some wd =>
       match main_temp wd with
       | Some temp =>
           exists step_,
             weather_node st w s
             = (Ok [City c; State state_name; Weather_data wd;
                    Answer (format_weather_answer (Some wd) c);
                    Metadata {| agent := "weather"; success := Some true; md_city := Some c;
                                md_state := state_name; temperature := Some temp |};
                    Steps [step_]],
                set_trace (trace s1 ++ [WeatherFetch c state_name]) s1)
       | None =>
           exists e,
             weather_node st w s
             = (Raise e, set_trace (trace s1 ++ [WeatherFetch c state_name]) s1) /\
             match wd with
             | NotDict => e = TypeError
             | Payload MainMissing _ _ => e = KeyError "main"
             | Payload MainOther _ _ => e = TypeError
             | Payload (MainDict _ _ _) _ _ => e = KeyError "temp"
             end
       end
   end).
Proof.
  intros Hq Hloc. unfold weather_node. rewrite Hq. cbn [item].
  rewrite (bind_step _ _ _ _ _ _ eq_refl), (bind_step _ _ _ _ _ _ Hloc).
  split.
  - intros ->. reflexivity.
  - intros c -> Hc. cbn [Py.truthy_opt default]. rewrite Hc. cbn [negb].
    rewrite (bind_step _ _ _ _ _ _ (fetch_weather_data_run c state_name w s1 Hc)).
    destruct (fetched (requests_get w c state_name)) as [wd |]; [| reflexivity].
    destruct wd as [| [| | [temp |] feels_like humidity] description wind]; cbn;
      eexists; (reflexivity || (split; reflexivity)).
Qed.

Lemma append_assoc (a b c : string) : (a +:+ b) +:+ c = a +:+ (b +:+ c).
Proof.
  induction a as [| x a IH]; [reflexivity |].
  change ((String x a +:+ b) +:+ c) with (String x ((a +:+ b) +:+ c)).
  rewrite IH. reflexivity.
Qed.

(** The apology names the city, and the state when there is one. *)
Lemma fetch_failed_answer_names_location (c : string) (state_name : option string) :
  Py.str_in c (fetch_failed_answer c state_name) = true /\
  (forall sn, state_name = Some sn -> Py.truthy sn = true ->
              Py.str_in sn (fetch_failed_answer c state_name) = true).
Proof.
  unfold fetch_failed_answer. split.
  - unfold location_str.
    destruct (Py.truthy_opt state_name); rewrite ?append_assoc; apply str_in_app.
  - intros sn -> Hsn.
    change (location_str c (Some sn)) with (if Py.truthy sn then c +:+ ", " +:+ sn else c).
    rewrite Hsn.
    assert (E : "Sorry, couldn't fetch weather data for " +:+ (c +:+ ", " +:+ sn) +:+
                ". Please check the city/state name and try again."
                = ("Sorry, couldn't fetch weather data for " +:+ c +:+ ", ") +:+ sn +:+
                  ". Please check the city/state name and try again.")
      by (rewrite !append_assoc; reflexivity).
    rewrite E. apply str_in_app.
Qed.

(** C9 fails on the code: the provider answers with status 200 and a
    body that has no [main] entry.  [format_weather_answer] falls back
    to its fixed text, and [weather_node] raises [KeyError] on the
    lookup of the temperature, at the key [main], instead of returning
    its result. *)
Theorem weather_node_raises_on_bare_payload :
  format_weather_answer (Some Demo.bare_payload) "Pune"
  = "Weather data received but couldn't parse it." /\
  fst (weather_node (Demo.no_document "What's the weather in Pune?")
         (Demo.weather_world 200 (Some Demo.bare_payload)) empty_store)
  = Raise (KeyError "main") /\
  fst (query "What's the weather in Pune?" None 1000 150 "m1" 4 false
         (Demo.weather_world 200 (Some Demo.bare_payload)) empty_store)
  = Raise (KeyError "main").
Proof. split_and!; vm_compute; reflexivity. Qed.

(** The handler on the three outcomes the specification describes. *)
Example weather_scenarios :
  (exists r s',
     query "What's the weather in Pune?" None 1000 150 "m1" 4 false
       (Demo.weather_world 200 (Some Demo.pune_weather)) empty_store = (Ok r, s') /\
     city r = Some "Pune" /\ state r = Some "Maharashtra" /\
     weather_data r = Some Demo.pune_weather /\
     (success <$> metadata r) = Some (Some true) /\
     Py.str_in "**Temperature:** 31.4" (default EmptyString (answer r)) = true) /\
  (exists r s',
     query "What's the weather in Pune?" None 1000 150 "m1" 4 false
       (Demo.weather_world 503 None) empty_store = (Ok r, s') /\
     (success <$> metadata r) = Some (Some false) /\
     answer r = Some "Sorry, couldn't fetch weather data for Pune, Maharashtra. Please check the city/state name and try again.") /\
  (exists r s',
     query "How is the weather?" None 1000 150 "m1" 4 false
       Demo.nowhere_world empty_store = (Ok r, s') /\
     (success <$> metadata r) = Some (Some false) /\
     answer r = Some no_city_answer /\
     trace s' = [Enter RouterN; Enter WeatherN; ChatCall (ExtractLocation "How is the weather?")]).
Proof.
  split_and!; eexists; eexists; split_and!; vm_compute; reflexivity.
Qed.

(** ** The end-to-end scenarios of the specification *)

(** Scenario 1: a document that was never indexed is loaded, split,
    indexed, searched and answered; the same request again finds the
    index and skips the ingestion. *)
Example scenario_first_and_second_call :
  (steps <$> fst_ok (query "Summarize section 2" (Some "report.pdf") 1000 150 "m1" 4 false
                       (Demo.healthy Demo.report_v1) empty_store))
  = Some ["🧭 Routed to: RAG agent"; "✗ No valid cache found"; "✓ Loaded PDF (1 pages)";
          "✓ Split into 1 chunks"; "✓ Built and saved new Qdrant index";
          "✓ Retrieved 1 relevant chunks"; "✓ Generated answer"] /\
  (steps <$> fst_ok (query "Summarize section 2" (Some "report.pdf") 1000 150 "m1" 4 false
                       (Demo.healthy Demo.report_v1) Demo.indexed))
  = Some ["🧭 Routed to: RAG agent"; "✓ Found valid cached index";
          "⚡ Loaded cached index (fast path)"; "✓ Retrieved 1 relevant chunks";
          "✓ Generated answer"].
Proof. split; vm_compute; reflexivity. Qed.

(** Scenario 4: a forced rebuild against a valid index is a miss, and
    so is a request with another chunk size. *)
Example scenario_forced_rebuild :
  (steps <$> fst_ok (query "Summarize section 2" (Some "report.pdf") 1000 150 "m1" 4 true
                       (Demo.healthy Demo.report_v1) Demo.indexed))
  = Some ["🧭 Routed to: RAG agent"; "✗ No valid cache found"; "✓ Loaded PDF (1 pages)";
          "✓ Split into 1 chunks"; "✓ Built and saved new Qdrant index";
          "✓ Retrieved 1 relevant chunks"; "✓ Generated answer"] /\
  (cache_hit <$> fst_ok (query "Summarize section 2" (Some "report.pdf") 500 150 "m1" 4 false
                           (Demo.healthy Demo.report_v1) Demo.indexed))
  = Some (Some false).
Proof. split; vm_compute; reflexivity. Qed.

(** * Further properties of the code *)

(** ** The nodes a run enters *)

Lemma entered_emit_other ev s :
  match ev with Enter _ => False | _ => True end ->
  entered (set_trace (trace s ++ [ev]) s) = entered s.
Proof.
  intros H. unfold entered. cbn. rewrite omap_app. destruct ev; try contradiction; cbn;
    apply app_nil_r.
Qed.

Lemma entered_emit_enter n s :
  entered (set_trace (trace s ++ [Enter n]) s) = (entered s ++ [n])%list.
Proof. unfold entered. cbn. rewrite omap_app. reflexivity. Qed.

Lemma emit_keeps_entered ev :
  match ev with Enter _ => False | _ => True end -> preserves entered (emit ev).
Proof. intros H w s. cbn. apply entered_emit_other. exact H. Qed.

#[local] Hint Extern 1 (preserves entered (emit _)) =>
  apply emit_keeps_entered; exact I : footprint.

Lemma chat_keeps_entered p : preserves entered (chat p).
Proof. unfold chat. footprint. Qed.

#[local] Hint Resolve chat_keeps_entered : footprint.

Lemma summarize_chunks_keeps_entered chunks : preserves entered (summarize_chunks chunks).
Proof.
  induction chunks as [| chunk rest IH]; cbn [summarize_chunks]; footprint.
Qed.

#[local] Hint Resolve summarize_chunks_keeps_entered : footprint.

Lemma extract_pdf_context_keeps_entered p m : preserves entered (extract_pdf_context p m).
Proof. unfold extract_pdf_context, load_pdf, split_documents. footprint. Qed.

#[local] Hint Resolve extract_pdf_context_keeps_entered : footprint.

Lemma summarize_pdfs_keeps_entered folder names m :
  preserves entered (summarize_pdfs folder names m).
Proof. induction names as [| name rest IH]; cbn [summarize_pdfs]; footprint. Qed.

#[local] Hint Resolve summarize_pdfs_keeps_entered : footprint.

Lemma file_fingerprint_keeps_entered path : preserves entered (file_fingerprint path).
Proof.
  intros w s. pose proof (file_fingerprint_footprint path w s) as H.
  unfold same_but_cache in H. rewrite H. reflexivity.
Qed.

#[local] Hint Resolve file_fingerprint_keeps_entered : footprint.

(** A node function records no entry of its own: entries are the
    engine's. *)
Lemma node_function_keeps_entered n st : preserves entered (node_function n st).
Proof.
  destruct n; cbn [node_function].
  - unfold router_node, route_to_agent, extract_all_pdf_contexts. footprint.
  - unfold weather_node, extract_location_from_query, fetch_weather_data, main_temp_item.
    footprint.
  - unfold unknown_node. footprint.
  - unfold check_cache_node, generate_collection_name, is_index_valid, path_exists,
      get_or_create_client, QdrantClient, write_registry, mkdir, get_collections,
      load_metadata, getter, get_index_metadata. footprint.
  - unfold load_pdf_node, load_pdf. footprint.
  - unfold split_docs_node, split_documents. footprint.
  - unfold build_index_node, build_qdrant_vectorstore, add_documents, upsert,
      create_collection, delete_collection, save_registry, write_registry,
      get_or_create_client, QdrantClient, mkdir, get_index_metadata, save_metadata. footprint.
  - unfold load_index_node, load_qdrant_vectorstore, get_or_create_client, QdrantClient,
      write_registry, mkdir. footprint.
  - unfold retrieve_node, retriever_invoke. footprint.
  - unfold generate_answer_node. footprint.
Qed.

Lemma next_node_keeps {X} (proj : store -> X) n st : preserves proj (next_node n st).
Proof. destruct n; cbn [next_node]; unfold dispatch, should_build_index; footprint. Qed.

Lemma next_node_edge n st w s n' s' :
  next_node n st w s = (Ok (Some n'), s') -> edge n n' = true.
Proof.
  destruct n; cbn [next_node]; unfold ret; try (intros [= <- _]; reflexivity); try discriminate.
  - unfold dispatch, route_after_classification.
    destruct (default Unknown (agent_type st)); [destruct (negb _) | |];
      cbn; unfold ret; intros [= <- _]; reflexivity.
  - unfold should_build_index, dispatch, bind, item.
    destruct (cache_hit st) as [[|] |]; cbn; unfold ret, raise;
      intros [= <- _] || discriminate; reflexivity.
Qed.

(** X1: the engine only follows the edges of the graph.  Whatever a run
    returns or raises, the nodes it has entered form a path of the
    graph that starts at the node the run started from, enters no node
    twice and is no longer than the longest path from that node (seven
    nodes from the router). *)
Theorem run_follows_graph (limit : nat) :
  forall (n : node) (st : UnifiedState) (w : env) (s : store),
  exists p,
    entered (snd (run limit n st w s)) = (entered s ++ p)%list /\
    follows p = true /\
    NoDup p /\
    (length p <= rank n)%nat /\
    Forall (fun m => (rank m <= rank n)%nat) p /\
    (p <> [] -> head p = Some n).
Proof.
  induction limit as [| limit IH]; intros n st w s.
  - exists []. cbn. rewrite app_nil_r. split_and!; auto using NoDup_nil_2 with lia.
    congruence.
  - rewrite run_S. unfold bind at 1. unfold emit at 1, modify at 1.
    pose proof (entered_emit_enter n s) as Hin.
    set (s1 := set_trace (trace s ++ [Enter n]) s) in *.
    assert (Hone : exists p, (entered s ++ [n])%list = (entered s ++ p)%list /\
                     follows p = true /\ NoDup p /\ (length p <= rank n)%nat /\
                     Forall (fun m => (rank m <= rank n)%nat) p /\
                     (p <> [] -> head p = Some n)).
    { exists [n]. split_and!; auto.
      - apply NoDup_singleton.
      - destruct n; cbn; lia. }
    unfold bind at 1.
    pose proof (node_function_keeps_entered n st w s1) as Hnode.
    destruct (node_function n st w s1) as [[update | e] s2]; cbn [snd] in *;
      [| rewrite Hnode, Hin; exact Hone].
    unfold bind at 1.
    pose proof (next_node_keeps entered n (merge st update) w s2) as Hnext.
    destruct (next_node n (merge st update) w s2) as [[succ | e] s3] eqn:E; cbn [snd] in *;
      [| rewrite Hnext, Hnode, Hin; exact Hone].
    destruct succ as [n' |]; [| cbn; rewrite Hnext, Hnode, Hin; exact Hone].
    pose proof (next_node_edge _ _ _ _ _ _ E) as Hedge.
    apply next_node_inv in E. destruct E as [_ Hrank].
    destruct (IH n' (merge st update) w s3) as (p & Hp & Hf & Hnd & Hlen & Hall & Hhd).
    exists (n :: p). rewrite Hp, Hnext, Hnode, Hin, <- app_assoc. split; [reflexivity |].
    split_and!.
    + destruct p as [| m p]; [reflexivity |].
      assert (Some m = Some n') as [= ->] by (apply Hhd; discriminate).
      cbn [follows]. rewrite Hedge. exact Hf.
    + apply NoDup_cons. split; [| exact Hnd].
      intros Hmem. rewrite Forall_forall in Hall. specialize (Hall n Hmem). lia.
    + cbn. lia.
    + apply Forall_cons. split; [lia |].
      eapply Forall_impl; [exact Hall |]. cbn. intros; lia.
    + reflexivity.
Qed.

(** X2: the recursion limit never cuts a request short: from any node,
    a limit that covers the longest path from it gives the same run as
    any larger one; in particular [invoke], with its limit of 25, runs
    as with a limit of 7. *)
Theorem recursion_limit_is_never_reached
    (n : node) (extra : nat) (st : UnifiedState) (w : env) (s : store) :
  run (rank n + extra) n st w s = run (rank n) n st w s /\
  invoke st w s = run 7 RouterN st w s.
Proof.
  split.
  - apply run_enough; lia.
  - unfold invoke, recursion_limit. apply run_enough; cbn; lia.
Qed.

(** ** Requests without a document *)

(** Without a document the router answers from the keywords alone:
    [weather] or [unknown], never [rag], and it calls no collaborator. *)
Lemma router_without_document (q : string) (w : env) (s : store) :
  route_to_agent q false w s
  = (Ok (if has_weather_keyword q then Weather else Unknown), s).
Proof.
  unfold route_to_agent, has_weather_keyword.
  destruct (existsb _ weather_keywords); reflexivity.
Qed.

Lemma weather_node_keeps_index st :
  preserves cache_files (weather_node st) /\
  preserves meta_files (weather_node st) /\
  preserves qdrant (weather_node st) /\
  preserves client_collections (weather_node st).
Proof.
  split_and!;
    unfold weather_node, extract_location_from_query, fetch_weather_data, main_temp_item, chat;
    footprint.
Qed.

(** A merge changes the intent only through an [Agent_type] pair. *)
Lemma merge_keeps_agent (update : list entry) : forall st,
  Forall (fun e => match e with Agent_type _ => False | _ => True end) update ->
  agent_type (merge st update) = agent_type st.
Proof.
  unfold merge. induction update as [| e update IH]; intros st H; [reflexivity |].
  apply Forall_cons in H. destruct H as [He H]. cbn [fold_left]. rewrite (IH _ H).
  destruct st, e; try contradiction; reflexivity.
Qed.

Lemma weather_node_keeps_agent st w s update s' a :
  agent_type st = a ->
  weather_node st w s = (Ok update, s') ->
  agent_type (merge st update) = a.
Proof.
  intros <- H. apply merge_keeps_agent. unfold weather_node in H.
  bind_inv H as q s1 Hq. item_inv Hq.
  bind_inv H as location s2 Hloc.
  destruct location as [city_ state_name |]; [| discriminate H].
  destruct (Py.truthy_opt city_); cbn [negb] in H.
  - bind_inv H as weather_data_ s3 Hfetch.
    destruct weather_data_ as [wd |].
    + bind_inv H as temp s4 Htemp. apply main_temp_item_ok in Htemp.
      destruct Htemp as [_ ->].
      injection H as <- <-. repeat constructor.
    + injection H as <- <-. repeat constructor.
  - injection H as <- <-. repeat constructor.
Qed.

Lemma request_without_document_run
    (q : string) (pdf : option string) (cs co : Z) (em : string) (k_ : Z) (force : bool)
    (w : env) (s : store) :
  Py.truthy_opt pdf = false ->
  exists o final,
    query q pdf cs co em k_ force w s = (o, final) /\
    entered final
    = (entered s ++ [RouterN; if has_weather_keyword q then WeatherN else UnknownN])%list /\
    cache_files final = cache_files s /\
    meta_files final = meta_files s /\
    qdrant final = qdrant s /\
    client_collections final = client_collections s /\
    forall r, o = Ok r ->
              agent_type r = Some (if has_weather_keyword q then Weather else Unknown).
Proof.
  intros Hpdf. unfold query, invoke, recursion_limit.
  rewrite run_S. unfold bind at 1. unfold emit at 1, modify at 1.
  pose proof (entered_emit_enter RouterN s) as Hin.
  set (s1 := set_trace (trace s ++ [Enter RouterN]) s) in *.
  cbn [node_function]. unfold router_node. cbn [question pdf_path item]. rewrite Hpdf.
  unfold bind at 1. unfold bind at 1. unfold ret at 1.
  unfold bind at 1. rewrite router_without_document. unfold ret at 1.
  unfold bind at 1.
  set (st1 := merge _ _).
  assert (Hst1 : agent_type st1 = Some (if has_weather_keyword q then Weather else Unknown) /\
                 pdf_path st1 = pdf /\ question st1 = Some q)
    by (split_and!; reflexivity).
  destruct Hst1 as (Hagent & Hpath & Hq).
  assert (Hnext : next_node RouterN st1 w s1
                  = (Ok (Some (if has_weather_keyword q then WeatherN else UnknownN)), s1)).
  { cbn [next_node]. unfold route_after_classification. rewrite Hagent.
    destruct (has_weather_keyword q); reflexivity. }
  rewrite Hnext. rewrite run_S.
  unfold bind at 1. unfold emit at 1, modify at 1.
  pose proof (entered_emit_enter (if has_weather_keyword q then WeatherN else UnknownN) s1)
    as Hin2.
  set (s2 := set_trace _ s1) in *.
  assert (Hs2 : cache_files s2 = cache_files s /\ meta_files s2 = meta_files s /\
                qdrant s2 = qdrant s /\ client_collections s2 = client_collections s)
    by (destruct s; split_and!; reflexivity).
  destruct Hs2 as (Hc2 & Hm2 & Hq2 & Hh2).
  rewrite Hin, <- app_assoc in Hin2. cbn [app] in Hin2.
  destruct (has_weather_keyword q).
  - cbn [node_function]. unfold bind at 1.
    pose proof (node_function_keeps_entered WeatherN st1 w s2) as He.
    destruct (weather_node_keeps_index st1) as (Kc & Km & Kq & Kh).
    specialize (Kc w s2). specialize (Km w s2). specialize (Kq w s2). specialize (Kh w s2).
    cbn [node_function] in He.
    destruct (weather_node st1 w s2) as [[update | e] s3] eqn:E; cbn [snd fst] in *.
    + unfold bind, next_node, ret. eexists. eexists. split; [reflexivity |].
      split_and!; try congruence.
      intros r [= <-]. eapply weather_node_keeps_agent; [exact Hagent | exact E].
    + eexists. eexists. split; [reflexivity |]. split_and!; congruence.
  - cbn [node_function]. unfold unknown_node, bind, ret, next_node.
    eexists. eexists. split; [reflexivity |].
    split_and!; try congruence.
    intros r [= <-]. exact Hagent.
Qed.

(** X3: a request that carries no document (no path, or an empty one)
    enters the router and then exactly one handler: the weather handler
    when the question contains a weather keyword, the unknown handler
    otherwise.  It never enters a node of the document pipeline, and it
    leaves the fingerprint cache files, the descriptors and the index
    store (the stored documents and the collections of the clients) as
    they were; when it returns, its intent is never [rag]. *)
Theorem request_without_document
    (q : string) (pdf : option string) (cs co : Z) (em : string) (k_ : Z) (force : bool)
    (w : env) (s : store) :
  Py.truthy_opt pdf = false ->
  let final := snd (query q pdf cs co em k_ force w s) in
  entered final
  = (entered s ++ [RouterN; if has_weather_keyword q then WeatherN else UnknownN])%list /\
  cache_files final = cache_files s /\
  meta_files final = meta_files s /\
  qdrant final = qdrant s /\
  client_collections final = client_collections s /\
  forall r, fst (query q pdf cs co em k_ force w s) = Ok r ->
            agent_type r = Some (if has_weather_keyword q then Weather else Unknown).
Proof.
  intros Hpdf.
  destruct (request_without_document_run q pdf cs co em k_ force w s Hpdf)
    as (o & final & -> & H).
  exact H.
Qed.

(** X3 on a request whose document path is the empty string. *)
Lemma request_without_document_witness :
  entered (snd (query "Summarize section 2" (Some EmptyString) 1000 150 "m1" 4 false
                  (Demo.healthy Demo.report_v1) Demo.indexed))
  = (entered Demo.indexed ++ [RouterN; UnknownN])%list.
Proof.
  exact (proj1 (request_without_document "Summarize section 2" (Some EmptyString) 1000 150
                  "m1" 4 false (Demo.healthy Demo.report_v1) Demo.indexed eq_refl)).
Defined.

(** ** The state along a run *)

Lemma merge_inputs (update : list entry) : forall st, inputs (merge st update) = inputs st.
Proof.
  unfold merge. induction update as [| e update IH]; intros st; [reflexivity |].
  cbn [fold_left]. rewrite IH. destruct st, e; reflexivity.
Qed.

Lemma merge_steps (update : list entry) : forall st,
  steps (merge st update) = (steps st ++ added_steps update)%list.
Proof.
  unfold merge. induction update as [| e update IH]; intros st.
  - cbn. rewrite app_nil_r. reflexivity.
  - cbn [fold_left added_steps flat_map]. rewrite IH.
    destruct st, e; cbn; rewrite ?app_assoc; reflexivity.
Qed.

(** Takes apart the run of a node function that returned. *)
Ltac unravel :=
  repeat match goal with
         | H : bind _ _ _ _ = (Ok _, _) |- _ =>
             apply bind_ok in H; destruct H as (? & ? & ? & H); cbv beta in H
         | H : ret _ _ _ = (Ok _, _) |- _ => unfold ret in H; injection H as <- <-
         | H : raise _ _ _ = (Ok _, _) |- _ => discriminate H
         | H : (if ?b then _ else _) _ _ = (Ok _, _) |- _ => destruct b
         | H : (match ?x with _ => _ end) _ _ = (Ok _, _) |- _ => destruct x
         end.

(** Every node that returns adds one line to the step trace. *)
Lemma node_adds_one_step n st w s update s' :
  node_function n st w s = (Ok update, s') -> length (added_steps update) = 1%nat.
Proof.
  intros H. destruct n; cbn [node_function] in H.
  - unfold router_node in H. unravel. reflexivity.
  - unfold weather_node in H. unravel; reflexivity.
  - unfold unknown_node in H. unravel. reflexivity.
  - apply check_cache_node_ok in H. destruct H as (? & ? & ? & _ & _ & ->). reflexivity.
  - unfold load_pdf_node in H. unravel. reflexivity.
  - unfold split_docs_node in H. unravel. reflexivity.
  - unfold build_index_node in H. unravel. reflexivity.
  - unfold load_index_node in H. unravel. reflexivity.
  - unfold retrieve_node in H. unravel. reflexivity.
  - unfold generate_answer_node in H. unravel. reflexivity.
Qed.

(** X4: a run that returns has left the keys of the request (question,
    document path, chunk size, chunk overlap, embedding model, forced
    rebuild, k) as they were, and has appended to the step trace, after
    the lines that were there, exactly one line for each node it
    entered. *)
Theorem run_keeps_request_and_appends_steps (limit : nat) :
  forall (n : node) (st : UnifiedState) (w : env) (s : store) (r : UnifiedState) (s' : store),
  run limit n st w s = (Ok r, s') ->
  inputs r = inputs st /\
  exists added p,
    steps r = (steps st ++ added)%list /\
    entered s' = (entered s ++ p)%list /\
    length added = length p.
Proof.
  induction limit as [| limit IH]; intros n st w s r s' H; [discriminate H |].
  rewrite run_S in H.
  apply bind_ok in H. destruct H as ([] & s1 & Henter & H).
  unfold emit, modify in Henter. injection Henter as <-.
  apply bind_ok in H. destruct H as (update & s2 & Hnode & H).
  apply bind_ok in H. destruct H as (succ & s3 & Hnext & H).
  pose proof (preserves_run entered _ _ _ _ _ (node_function_keeps_entered n st) Hnode) as He.
  pose proof (preserves_run entered _ _ _ _ _ (next_node_keeps entered n _) Hnext) as He'.
  rewrite entered_emit_enter in He.
  pose proof (node_adds_one_step _ _ _ _ _ _ Hnode) as Hone.
  destruct succ as [n' |].
  - apply IH in H. destruct H as (Hin & added & p & Hsteps & Hent & Hlen).
    rewrite merge_inputs in Hin. rewrite merge_steps in Hsteps. split; [exact Hin |].
    exists (added_steps update ++ added)%list, (n :: p).
    rewrite Hsteps, Hent, He', He, <- !app_assoc. split_and!; try reflexivity.
    rewrite length_app, Hone. cbn. lia.
  - injection H as <- <-. split; [apply merge_inputs |].
    exists (added_steps update), [n]. rewrite He', He. split_and!; auto using merge_steps.
Qed.

(** X4 on the first request of the example: seven nodes, seven lines. *)
Lemma run_keeps_request_and_appends_steps_witness :
  exists r s',
    run recursion_limit RouterN (Demo.request false) (Demo.healthy Demo.report_v1) empty_store
    = (Ok r, s') /\
    inputs r = inputs (Demo.request false) /\
    length (steps r) = 7%nat /\ length (entered s') = 7%nat.
Proof.
  eexists. eexists. split; [vm_compute; reflexivity |].
  split; [| split; vm_compute; reflexivity].
  refine (proj1 (run_keeps_request_and_appends_steps recursion_limit RouterN (Demo.request false)
                   (Demo.healthy Demo.report_v1) empty_store _ _ _)).
  vm_compute. reflexivity.
Defined.

(** ** More on the fingerprint *)

(** X5: [file_fingerprint] raises for a file that does not exist, and
    then writes nothing; for a file that exists it returns a
    fingerprint that carries the current quick key, whatever the cache
    file held and whether or not it can be written, and the only thing
    it may change is the cache file of that very path, which then holds
    the fingerprint returned. *)
Theorem file_fingerprint_outcomes (path : string) (w : env) (s : store) :
  (disk w path = None -> file_fingerprint path w s = (Raise FileNotFoundError, s)) /\
  (forall stat, disk w path = Some stat ->
   exists fp s',
     file_fingerprint path w s = (Ok fp, s') /\
     quick_key fp = make_quick_key stat /\
     same_but_cache s s' /\
     (forall other, other <> cache_file_of path ->
                    cache_files s' !! other = cache_files s !! other) /\
     (s' = s \/ cache_files s' !! cache_file_of path = Some (Parsed fp)) /\
     (writable w (cache_file_of path) = false -> s' = s)).
Proof.
  pose proof (file_fingerprint_cases path w s) as H. split.
  - intros E. rewrite E in H. exact H.
  - intros stat E. rewrite E in H.
    destruct (read_cached (cache_files s !! cache_file_of path) (make_quick_key stat))
      as [c |] eqn:Hc.
    + exists c, s. split_and!; auto using same_but_cache_refl.
      unfold read_cached in Hc.
      destruct (cache_files s !! cache_file_of path) as [[| c' | truthy] |];
        try discriminate Hc.
      destruct (String.eqb_spec (quick_key c') (make_quick_key stat)); congruence.
    + eexists. eexists. split; [exact H |].
      destruct (writable w (cache_file_of path)).
      * split_and!; [reflexivity | destruct s; reflexivity | | | discriminate].
        -- intros other Hne. cbn. apply lookup_insert_ne. congruence.
        -- right. cbn. apply lookup_insert_eq.
      * split_and!; auto using same_but_cache_refl.
Qed.

(** X5 on the report and on a path with no file. *)
Lemma file_fingerprint_outcomes_witness :
  file_fingerprint "missing.pdf" (Demo.healthy Demo.report_v1) empty_store
  = (Raise FileNotFoundError, empty_store) /\
  exists fp s',
    file_fingerprint "report.pdf" (Demo.healthy Demo.report_v1) empty_store = (Ok fp, s') /\
    quick_key fp = make_quick_key Demo.report_v1.
Proof.
  split.
  - apply (file_fingerprint_outcomes "missing.pdf" (Demo.healthy Demo.report_v1) empty_store).
    reflexivity.
  - destruct (proj2 (file_fingerprint_outcomes "report.pdf" (Demo.healthy Demo.report_v1)
                       empty_store) Demo.report_v1 eq_refl)
      as (fp & s' & H1 & H2 & _).
    exists fp, s'. split; assumption.
Defined.

(** X6: a fingerprint that was returned is returned again by the next
    call, which writes nothing: the second call finds the entry of the
    first one or, where the cache file cannot be written, computes the
    same value again. *)
Theorem file_fingerprint_twice (path : string) (w : env) (s s' : store) (fp : fingerprint) :
  file_fingerprint path w s = (Ok fp, s') ->
  file_fingerprint path w s' = (Ok fp, s').
Proof. intros H. exact (file_fingerprint_settled path w s fp s' H s' eq_refl). Qed.

Lemma file_fingerprint_twice_witness :
  file_fingerprint "report.pdf" (Demo.healthy Demo.report_v1)
    (snd (file_fingerprint "report.pdf" (Demo.healthy Demo.report_v1) empty_store))
  = (Ok (hashed Demo.report_v1),
     snd (file_fingerprint "report.pdf" (Demo.healthy Demo.report_v1) empty_store)).
Proof.
  apply (file_fingerprint_twice "report.pdf" (Demo.healthy Demo.report_v1) empty_store).
  vm_compute. reflexivity.
Defined.

(** X7: the quick key [f"{size}_{int(mtime)}"] identifies the size and
    the modification time in whole seconds: two files have the same
    quick key exactly when they agree on both. *)
Theorem quick_key_identifies_size_and_mtime (f g : file) :
  make_quick_key f = make_quick_key g <->
  st_size f = st_size g /\ st_mtime f = st_mtime g.
Proof.
  split; [apply make_quick_key_inj |].
  unfold make_quick_key. intros [-> ->]. reflexivity.
Qed.

(** The outcome of a fingerprint depends on the cache files only. *)
Lemma file_fingerprint_fst path w s s2 :
  cache_files s2 = cache_files s ->
  fst (file_fingerprint path w s2) = fst (file_fingerprint path w s).
Proof.
  intros Hc.
  pose proof (file_fingerprint_cases path w s) as H1.
  pose proof (file_fingerprint_cases path w s2) as H2.
  rewrite Hc in H2.
  destruct (disk w path); [| rewrite H1, H2; reflexivity].
  destruct (read_cached _ _); rewrite H1, H2; reflexivity.
Qed.

(** ** More on the validity check *)

(** The first block of the validity check never raises, and it stores
    no document.  It answers yes only for a collection of the storage,
    and then [meta.json] is as it was: the file is written only when it
    is not there, with a registry that lists nothing. *)
Lemma collection_listed_spec name dir w s :
  exists found s1,
    collection_listed name dir w s = (Ok found, s1) /\
    qdrant s1 = qdrant s /\
    cache_files s1 = cache_files s /\
    (dir ∈ _client_cache s -> s1 = s) /\
    (meta_files s1 = meta_files s \/
     found = false /\ meta_files s !! registry_path dir = None /\
     meta_files s1 = <[registry_path dir := Parsed (registry ∅)]> (meta_files s)) /\
    (found = true -> name ∈ collection_names dir s) /\
    (found = false ->
     name ∉ collection_names dir s \/ exists e, fst (get_or_create_client dir w s) = Raise e).
Proof.
  rewrite collection_listed_cases.
  pose proof (get_or_create_client_meta dir w s) as Hmeta.
  destruct (get_or_create_client dir w s) as [[client | e] s1] eqn:Hclient; cbn [snd] in Hmeta.
  - apply get_or_create_client_opened in Hclient.
    destruct Hclient as (_ & _ & Hheld & Hq & Hc & Hsame & Hm).
    eexists. exists s1. split; [reflexivity |]. rewrite Hheld.
    split_and!; auto.
    + destruct Hm as [Hm | (Hnone & Hempty & Hm)]; [left; exact Hm |].
      right. split_and!; auto. apply bool_decide_eq_false_2.
      rewrite <- Hheld, Hempty. apply not_elem_of_empty.
    + intros Hf. apply bool_decide_eq_true in Hf. exact Hf.
    + intros Hf. apply bool_decide_eq_false in Hf. left. exact Hf.
  - pose proof (get_or_create_client_raised _ _ _ _ _ Hclient) as (Hnc & _ & _ & Hq & Hc).
    exists false, s1. split; [reflexivity |].
    split_and!; auto; try contradiction; try discriminate.
    + destruct Hmeta as [Hm | [Hnone Hm]]; [left; exact Hm | right; auto].
    + intros _. right. exists e. reflexivity.
Qed.

(** [is_index_valid], stage by stage. *)
Lemma is_index_valid_stages name dir pdf cs co em w s :
  is_index_valid name dir pdf cs co em w s =
  if bool_decide (dir ∈ dirs s) then
    match collection_listed name dir w s with
    | (Raise e, s1) => (Raise e, s1)
    | (Ok false, s1) => (Ok false, s1)
    | (Ok true, s1) =>
        match meta_files s1 !! path_join dir "meta.json" with
        | None => (Ok false, s1)
        | Some Malformed => (Raise JSONDecodeError, s1)
        | Some value =>
            if falsy value then (Ok false, s1)
            else
              match file_fingerprint pdf w s1 with
              | (Raise e, s2) => (Raise e, s2)
              | (Ok fp, s2) =>
                  match value with
                  | Parsed saved =>
                      (Ok (get_eq (meta_pdf_fingerprint saved) fp &&
                           get_eq (meta_chunk_size saved) cs &&
                           get_eq (meta_chunk_overlap saved) co &&
                           get_eq (meta_embedding_model saved) em), s2)
                  | _ => (Raise AttributeError, s2)
                  end
              end
        end
    end
  else (Ok false, s).
Proof.
  rewrite is_index_valid_unfold.
  unfold bind at 1. unfold path_exists, get at 1.
  destruct (bool_decide (dir ∈ dirs s)); [| reflexivity]. cbn [negb].
  unfold bind at 1.
  destruct (collection_listed name dir w s) as [[[|] | e] s1]; try reflexivity.
  cbn [negb]. unfold bind at 1. unfold load_metadata, bind at 1, get at 1.
  destruct (meta_files s1 !! path_join dir "meta.json") as [[| saved | truthy] |];
    try reflexivity; cbv beta iota; unfold ret at 1.
  - destruct (falsy (Parsed saved)); [reflexivity |].
    unfold bind at 1. unfold get_index_metadata. unfold bind at 1.
    destruct (file_fingerprint pdf w s1) as [[fp | e] s2]; reflexivity.
  - destruct (falsy (NonObject truthy)); [reflexivity |].
    unfold bind at 1. unfold get_index_metadata. unfold bind at 1.
    destruct (file_fingerprint pdf w s1) as [[fp | e] s2]; reflexivity.
Qed.

(** A storage whose client the process has not opened, with a
    [meta.json] that carries no registry, as the descriptor the build
    saves: the client cannot be built, and the index is rejected. *)
Lemma unopened_descriptor_is_rejected name dir pdf cs co em w s saved :
  (dir ∉ _client_cache s) ->
  meta_files s !! path_join dir "meta.json" = Some (Parsed saved) ->
  meta_registry saved = None ->
  is_index_valid name dir pdf cs co em w s = (Ok false, s).
Proof.
  intros Hnc Hmeta Hreg. rewrite is_index_valid_stages, collection_listed_cases,
    get_or_create_client_cases.
  rewrite (bool_decide_eq_false_2 _ Hnc). unfold registry_path. rewrite Hmeta, Hreg.
  destruct (bool_decide (dir ∈ dirs s)); reflexivity.
Qed.

(** X8: the validity check raises in three situations only.  The
    storage has a client in this process and holds the collection, and
    [meta.json] is not valid JSON ([JSONDecodeError]) or parses to a
    value that is no object and is not empty ([AttributeError], at
    [saved_meta.get]); or the collection is listed, [meta.json] is not
    empty and the document does not exist ([FileNotFoundError]).  What
    the client raises when the storage cannot be opened is no error of
    the check. *)
Theorem is_index_valid_raises_only
    (name dir pdf : string) (cs co : Z) (em : string) (w : env) (s s' : store) (e : exn) :
  is_index_valid name dir pdf cs co em w s = (Raise e, s') ->
  (e = JSONDecodeError /\ dir ∈ _client_cache s /\
   meta_files s !! path_join dir "meta.json" = Some Malformed) \/
  (e = AttributeError /\ dir ∈ _client_cache s /\
   meta_files s !! path_join dir "meta.json" = Some (NonObject true) /\
   is_Some (disk w pdf)) \/
  (e = FileNotFoundError /\ disk w pdf = None /\
   exists value, meta_files s !! path_join dir "meta.json" = Some value /\ falsy value = false).
Proof.
  rewrite is_index_valid_stages, collection_listed_cases.
  destruct (bool_decide (dir ∈ dirs s)); [| discriminate].
  pose proof (get_or_create_client_cases dir w s) as Hcases.
  destruct (get_or_create_client dir w s) as [[client | e0] s1] eqn:Hclient; [| discriminate].
  destruct (bool_decide (name ∈ held dir s1)) eqn:Hin; [| discriminate].
  apply bool_decide_eq_true in Hin.
  pose proof (get_or_create_client_opened _ _ _ _ _ Hclient)
    as (_ & _ & _ & _ & _ & _ & Hm).
  assert (Hmeta : meta_files s1 = meta_files s).
  { destruct Hm as [Hm | (_ & Hempty & _)]; [exact Hm |].
    rewrite Hempty in Hin. apply elem_of_empty in Hin. contradiction. }
  rewrite Hmeta.
  assert (Hcached : forall value,
            meta_files s !! path_join dir "meta.json" = Some value ->
            (forall m, value <> Parsed m) -> dir ∈ _client_cache s).
  { intros value Hv Hnp.
    destruct (bool_decide (dir ∈ _client_cache s)) eqn:Hc;
      [apply bool_decide_eq_true in Hc; exact Hc |].
    exfalso. unfold registry_path in Hcases. rewrite Hv in Hcases.
    destruct value as [| m | truthy]; try discriminate Hcases.
    exact (Hnp m eq_refl). }
  destruct (meta_files s !! path_join dir "meta.json") as [[| saved | truthy] |] eqn:Hv;
    [| | | discriminate].
  - intros [= <- _]. left. split_and!; auto. apply (Hcached Malformed eq_refl). discriminate.
  - destruct (falsy (Parsed saved)) eqn:Hf; [discriminate |].
    pose proof (file_fingerprint_cases pdf w s1) as H.
    destruct (disk w pdf); [| rewrite H; intros [= <- _]; right; right; eauto].
    destruct (read_cached _ _); rewrite H; discriminate.
  - destruct (falsy (NonObject truthy)) eqn:Hf; [discriminate |].
    destruct truthy; [| discriminate Hf].
    pose proof (file_fingerprint_cases pdf w s1) as H.
    destruct (disk w pdf) as [stat |]; [| rewrite H; intros [= <- _]; right; right; eauto].
    assert (Hc : dir ∈ _client_cache s) by (apply (Hcached (NonObject true) eq_refl); discriminate).
    destruct (read_cached _ _); rewrite H; intros [= <- _]; right; left; eauto.
Qed.

(** X8 on the store whose descriptor was overwritten with text that is
    not JSON. *)
Lemma is_index_valid_raises_only_witness :
  is_index_valid "pdf_ba7816bf8f01cfea414140de" ".indices/pdf_ba7816bf8f01cfea414140de"
    "report.pdf" 1000 150 "m1" (Demo.healthy Demo.report_v1) Demo.corrupted
  = (Raise JSONDecodeError, Demo.corrupted) /\
  meta_files Demo.corrupted !! path_join ".indices/pdf_ba7816bf8f01cfea414140de" "meta.json"
  = Some Malformed.
Proof.
  assert (H : is_index_valid "pdf_ba7816bf8f01cfea414140de"
                ".indices/pdf_ba7816bf8f01cfea414140de" "report.pdf" 1000 150 "m1"
                (Demo.healthy Demo.report_v1) Demo.corrupted
              = (Raise JSONDecodeError, Demo.corrupted))
    by (vm_compute; reflexivity).
  split; [exact H |].
  destruct (is_index_valid_raises_only _ _ _ _ _ _ _ _ _ _ H)
    as [(_ & _ & Hm) | [(He & _) | (He & _)]]; [exact Hm | discriminate He | discriminate He].
Defined.

(** X9: the validity check answers False, without raising, when the
    persist directory does not exist, when its storage is not open in
    this process and cannot be locked, when the storage does not hold
    the collection, and when there is no [meta.json]; in none of these
    cases does it read the document, and it stores no document.  It
    leaves [meta.json] as it is, except that opening a storage whose
    [meta.json] is not there creates the file, with a registry that
    lists no collection. *)
Theorem is_index_valid_miss
    (name dir pdf : string) (cs co : Z) (em : string) (w : env) (s : store) :
  (dir ∉ dirs s) \/
  ((dir ∉ _client_cache s) /\ qdrant_open w dir = false) \/
  collections_of dir s !! name = None \/
  meta_files s !! path_join dir "meta.json" = None ->
  exists s',
    is_index_valid name dir pdf cs co em w s = (Ok false, s') /\
    cache_files s' = cache_files s /\ qdrant s' = qdrant s /\
    (meta_files s' = meta_files s \/
     meta_files s !! path_join dir "meta.json" = None /\
     meta_files s' = <[path_join dir "meta.json" := Parsed (registry ∅)]> (meta_files s)).
Proof.
  intros Hcase. rewrite is_index_valid_stages.
  destruct (collection_listed_spec name dir w s)
    as (found & s1 & Hrun & Hq & Hc & _ & Hm & Hyes & Hno).
  rewrite Hrun.
  destruct (bool_decide (dir ∈ dirs s)) eqn:Hd; [| exists s; auto].
  apply bool_decide_eq_true in Hd.
  assert (Hm' : meta_files s1 = meta_files s \/
                meta_files s !! path_join dir "meta.json" = None /\
                meta_files s1 = <[path_join dir "meta.json" := Parsed (registry ∅)]>
                                  (meta_files s)).
  { destruct Hm as [Hm | (_ & Hnone & Hm)]; [left; exact Hm | right; split; assumption]. }
  destruct found; [| exists s1; auto].
  specialize (Hyes eq_refl).
  assert (Hsame : meta_files s1 = meta_files s).
  { destruct Hm as [Hm | (Hf & _)]; [exact Hm | discriminate Hf]. }
  rewrite Hsame.
  destruct Hcase as [? | [[Hnc Hlock] | [Hnone | ->]]].
  - contradiction.
  - exfalso. rewrite collection_listed_cases, get_or_create_client_cases in Hrun.
    rewrite (bool_decide_eq_false_2 _ Hnc), Hlock in Hrun.
    destruct (meta_files s !! registry_path dir) as [[| m | truthy] |];
      [| destruct (meta_registry m) | | destruct (writable w _)]; discriminate Hrun.
  - exfalso. apply collections_of_is_Some in Hyes. rewrite Hnone in Hyes.
    destruct Hyes as [x Hx]. discriminate Hx.
  - exists s1. auto.
Qed.

(** X9 before anything was indexed. *)
Lemma is_index_valid_miss_witness :
  exists s',
    is_index_valid "pdf_ba7816bf8f01cfea414140de" ".indices/pdf_ba7816bf8f01cfea414140de"
      "no_such_file.pdf" 1000 150 "m1" (Demo.healthy Demo.report_v1) empty_store
    = (Ok false, s') /\
    cache_files s' = cache_files empty_store /\ qdrant s' = qdrant empty_store.
Proof.
  destruct (is_index_valid_miss "pdf_ba7816bf8f01cfea414140de"
              ".indices/pdf_ba7816bf8f01cfea414140de" "no_such_file.pdf" 1000 150 "m1"
              (Demo.healthy Demo.report_v1) empty_store) as (s' & H & Hc & Hq & _).
  - left. vm_compute. discriminate.
  - exists s'. auto.
Defined.

(** The validity check on a store that holds a matching index, in the
    process that has the storage open. *)
Lemma matching_index_is_valid name dir pdf cs co em w s fp saved :
  dir ∈ dirs s ->
  dir ∈ _client_cache s ->
  is_Some (collections_of dir s !! name) ->
  meta_files s !! path_join dir "meta.json" = Some (Parsed saved) ->
  meta_pdf_fingerprint saved = Some fp ->
  meta_chunk_size saved = Some cs ->
  meta_chunk_overlap saved = Some co ->
  meta_embedding_model saved = Some em ->
  fst (file_fingerprint pdf w s) = Ok fp ->
  exists s',
    is_index_valid name dir pdf cs co em w s = (Ok true, s') /\
    meta_files s' = meta_files s /\ qdrant s' = qdrant s /\
    client_collections s' = client_collections s.
Proof.
  intros Hd Hopen Hcol Hmeta Hfp Hcs Hco Hem Hrun. rewrite is_index_valid_stages.
  rewrite collection_listed_cases, get_or_create_client_cached_run by exact Hopen.
  apply collections_of_is_Some in Hcol. rewrite collection_names_cached in Hcol by exact Hopen.
  rewrite (bool_decide_eq_true_2 _ Hd), (bool_decide_eq_true_2 _ Hcol), Hmeta.
  replace (falsy (Parsed saved)) with false
    by (destruct saved; cbn in *; subst; reflexivity).
  assert (Hm2 := file_fingerprint_keeps_meta pdf w s).
  assert (Hq2 := file_fingerprint_keeps_qdrant pdf w s).
  assert (Hh2 := file_fingerprint_keeps_held pdf w s).
  destruct (file_fingerprint pdf w s) as [[fp' | e] s2]; cbn in Hrun; [| discriminate].
  injection Hrun as ->. cbn in Hm2, Hq2, Hh2.
  exists s2. unfold get_eq. rewrite !bool_decide_eq_true_2 by assumption.
  split_and!; [reflexivity | congruence | congruence | congruence].
Qed.

(** X10: an index is recognised by the process that built it, and not
    by a process started later.  When the persist directory exists, the
    process has the storage open and the storage holds the collection,
    and [meta.json] records the requested chunk size, chunk overlap and
    embedding model and the fingerprint the document has now, the
    validity check answers True, and it changes neither descriptors nor
    collections.  When the process has not opened the storage, the same
    descriptor makes the check answer False: the file is read as the
    registry of the storage, which the descriptor is not, the client is
    not built, and the store is left as it was. *)
Theorem is_index_valid_recognises
    (name dir pdf : string) (cs co : Z) (em : string) (w : env) (s : store)
    (fp : fingerprint) (saved : index_meta) :
  meta_files s !! path_join dir "meta.json" = Some (Parsed saved) ->
  meta_pdf_fingerprint saved = Some fp ->
  meta_chunk_size saved = Some cs ->
  meta_chunk_overlap saved = Some co ->
  meta_embedding_model saved = Some em ->
  fst (file_fingerprint pdf w s) = Ok fp ->
  (dir ∈ dirs s ->
   dir ∈ _client_cache s ->
   is_Some (collections_of dir s !! name) ->
   exists s',
     is_index_valid name dir pdf cs co em w s = (Ok true, s') /\
     meta_files s' = meta_files s /\ qdrant s' = qdrant s /\
     client_collections s' = client_collections s) /\
  ((dir ∉ _client_cache s) ->
   meta_registry saved = None ->
   is_index_valid name dir pdf cs co em w s = (Ok false, s)).
Proof.
  intros Hmeta Hfp Hcs Hco Hem Hrun. split.
  - intros Hd Hopen Hcol. eapply matching_index_is_valid; eassumption.
  - intros Hnc Hreg. eapply unopened_descriptor_is_rejected; eassumption.
Qed.

(** X10 on the indexed report, in the process that indexed it and
    after a restart. *)
Lemma is_index_valid_recognises_witness :
  (exists s',
     is_index_valid "pdf_ba7816bf8f01cfea414140de" ".indices/pdf_ba7816bf8f01cfea414140de"
       "report.pdf" 1000 150 "m1" (Demo.healthy Demo.report_v1) Demo.indexed
     = (Ok true, s')) /\
  is_index_valid "pdf_ba7816bf8f01cfea414140de" ".indices/pdf_ba7816bf8f01cfea414140de"
    "report.pdf" 1000 150 "m1" (Demo.healthy Demo.report_v1) (restarted Demo.indexed)
  = (Ok false, restarted Demo.indexed).
Proof.
  split.
  - destruct (proj1 (is_index_valid_recognises "pdf_ba7816bf8f01cfea414140de"
             ".indices/pdf_ba7816bf8f01cfea414140de" "report.pdf" 1000 150 "m1"
             (Demo.healthy Demo.report_v1) Demo.indexed (hashed Demo.report_v1)
             {| meta_pdf_fingerprint := Some (hashed Demo.report_v1);
                meta_chunk_size := Some 1000; meta_chunk_overlap := Some 150;
                meta_embedding_model := Some "m1"; meta_format := Some "v2";
                meta_collection_name := Some "pdf_ba7816bf8f01cfea414140de";
                meta_registry := None; meta_other_keys := false |}
             ltac:(vm_compute; reflexivity) eq_refl eq_refl eq_refl eq_refl
             ltac:(vm_compute; reflexivity)))
      as (s' & H & _).
    + vm_compute. reflexivity.
    + vm_compute. reflexivity.
    + vm_compute. eauto.
    + exists s'. exact H.
  - apply (proj2 (is_index_valid_recognises "pdf_ba7816bf8f01cfea414140de"
             ".indices/pdf_ba7816bf8f01cfea414140de" "report.pdf" 1000 150 "m1"
             (Demo.healthy Demo.report_v1) (restarted Demo.indexed) (hashed Demo.report_v1)
             {| meta_pdf_fingerprint := Some (hashed Demo.report_v1);
                meta_chunk_size := Some 1000; meta_chunk_overlap := Some 150;
                meta_embedding_model := Some "m1"; meta_format := Some "v2";
                meta_collection_name := Some "pdf_ba7816bf8f01cfea414140de";
                meta_registry := None; meta_other_keys := false |}
             ltac:(vm_compute; reflexivity) eq_refl eq_refl eq_refl eq_refl
             ltac:(vm_compute; reflexivity))).
    + vm_compute. discriminate.
    + reflexivity.
Defined.
(** ** Who writes the index *)

Lemma file_fingerprint_keeps_index path : preserves index_state (file_fingerprint path).
Proof. apply file_fingerprint_keeps. reflexivity. Qed.

#[local] Hint Resolve file_fingerprint_keeps_index : footprint.

Lemma summarize_chunks_keeps_index chunks : preserves index_state (summarize_chunks chunks).
Proof.
  induction chunks as [| chunk rest IH]; cbn [summarize_chunks]; unfold chat; footprint.
Qed.

#[local] Hint Resolve summarize_chunks_keeps_index : footprint.

Lemma extract_pdf_context_keeps_index p m : preserves index_state (extract_pdf_context p m).
Proof. unfold extract_pdf_context, load_pdf, split_documents, chat. footprint. Qed.

#[local] Hint Resolve extract_pdf_context_keeps_index : footprint.

Lemma summarize_pdfs_keeps_index folder names m :
  preserves index_state (summarize_pdfs folder names m).
Proof. induction names as [| name rest IH]; cbn [summarize_pdfs]; footprint. Qed.

#[local] Hint Resolve summarize_pdfs_keeps_index : footprint.

(** The nodes that use no Qdrant client leave the documents of the
    index and every [meta.json] as they are. *)
Lemma node_function_keeps_index n st :
  n <> BuildIndexN -> n <> CheckCacheN -> n <> LoadIndexN ->
  preserves index_state (node_function n st).
Proof.
  intros Hb Hc Hl. destruct n; try congruence; cbn [node_function].
  - unfold router_node, route_to_agent, extract_all_pdf_contexts, chat. footprint.
  - unfold weather_node, extract_location_from_query, fetch_weather_data, main_temp_item, chat.
    footprint.
  - unfold unknown_node. footprint.
  - unfold load_pdf_node, load_pdf. footprint.
  - unfold split_docs_node, split_documents. footprint.
  - unfold retrieve_node, retriever_invoke. footprint.
  - unfold generate_answer_node, chat. footprint.
Qed.

Lemma index_kept_refl s : index_kept s s.
Proof.
  split; [reflexivity |]. intros path. destruct (meta_files s !! path); auto.
Qed.

Lemma index_kept_trans s1 s2 s3 : index_kept s1 s2 -> index_kept s2 s3 -> index_kept s1 s3.
Proof.
  intros [Hq1 Hm1] [Hq2 Hm2]. split; [congruence |].
  intros path. specialize (Hm1 path). specialize (Hm2 path).
  destruct (meta_files s1 !! path) as [value |].
  - rewrite Hm1 in Hm2. exact Hm2.
  - destruct Hm1 as [Hm1 | Hm1]; rewrite Hm1 in Hm2; auto.
Qed.

Lemma index_kept_same s s' : index_state s' = index_state s -> index_kept s s'.
Proof.
  unfold index_state. intros [= Hq Hm]. split; [exact Hq |].
  intros path. rewrite Hm. destruct (meta_files s !! path); auto.
Qed.

Lemma index_kept_created dir s s' :
  qdrant s' = qdrant s ->
  meta_files s' = meta_files s \/
  meta_files s !! registry_path dir = None /\
  meta_files s' = <[registry_path dir := Parsed (registry ∅)]> (meta_files s) ->
  index_kept s s'.
Proof.
  intros Hq [Hm | [Hnone Hm]].
  - apply index_kept_same. unfold index_state. congruence.
  - split; [exact Hq |]. intros path. rewrite Hm.
    destruct (decide (path = registry_path dir)) as [-> | Hne].
    + rewrite Hnone, lookup_insert_eq. auto.
    + rewrite lookup_insert_ne by congruence. destruct (meta_files s !! path); auto.
Qed.

Lemma respects_bind {A B} (m : M A) (f : A -> M B) :
  respects index_kept m -> (forall a, respects index_kept (f a)) ->
  respects index_kept (bind m f).
Proof.
  intros Hm Hf w s. unfold bind. specialize (Hm w s).
  destruct (m w s) as [[a | e] s1]; cbn [snd] in *; [| exact Hm].
  eapply index_kept_trans; [exact Hm | apply Hf].
Qed.

Lemma respects_try {A} (m : M A) (h : exn -> M A) :
  respects index_kept m -> (forall e, respects index_kept (h e)) ->
  respects index_kept (try_except m h).
Proof.
  intros Hm Hh w s. unfold try_except. specialize (Hm w s).
  destruct (m w s) as [[a | e] s1]; cbn [snd] in *; [exact Hm |].
  eapply index_kept_trans; [exact Hm | apply Hh].
Qed.

Lemma respects_preserves {A} (m : M A) : preserves index_state m -> respects index_kept m.
Proof. intros H w s. apply index_kept_same, H. Qed.

Lemma get_or_create_client_keeps_index dir : respects index_kept (get_or_create_client dir).
Proof.
  intros w s. apply (index_kept_created dir).
  - apply get_or_create_client_keeps_qdrant.
  - apply get_or_create_client_meta.
Qed.

(** The gate stores no document and changes no [meta.json] that is
    there. *)
Lemma is_index_valid_keeps_index name dir pdf cs co em :
  respects index_kept (is_index_valid name dir pdf cs co em).
Proof.
  unfold is_index_valid.
  apply respects_bind; [solve [apply respects_preserves; unfold path_exists; footprint] |].
  intros there. destruct (negb there); [solve [apply respects_preserves; footprint] |].
  apply respects_bind.
  - apply respects_try; [| intros e; apply respects_preserves; footprint].
    apply respects_bind; [apply get_or_create_client_keeps_index | intros client].
    apply respects_preserves. unfold get_collections. footprint.
  - intros found. apply respects_preserves. footprint.
Qed.

Lemma check_cache_node_keeps_index st : respects index_kept (check_cache_node st).
Proof.
  unfold check_cache_node.
  do 5 (apply respects_bind; [solve [apply respects_preserves; footprint] | intros ?]).
  apply respects_bind; [apply is_index_valid_keeps_index | intros valid].
  apply respects_preserves. footprint.
Qed.

Lemma load_index_node_keeps_index st : respects index_kept (load_index_node st).
Proof.
  unfold load_index_node, load_qdrant_vectorstore.
  do 3 (apply respects_bind; [solve [apply respects_preserves; footprint] | intros ?]).
  apply respects_bind; [| intros vs; apply respects_preserves; footprint].
  apply respects_bind; [solve [apply respects_preserves; footprint] | intros [vs |]].
  - apply respects_preserves. footprint.
  - apply respects_bind; [apply get_or_create_client_keeps_index | intros client].
    apply respects_preserves. footprint.
Qed.

(** No node but the build node stores or removes a document, or
    changes a [meta.json] that is there. *)
Lemma node_function_index_kept n st :
  n <> BuildIndexN -> respects index_kept (node_function n st).
Proof.
  intros Hn.
  destruct (decide (n = CheckCacheN)) as [-> | Hc]; [apply check_cache_node_keeps_index |].
  destruct (decide (n = LoadIndexN)) as [-> | Hl]; [apply load_index_node_keeps_index |].
  apply respects_preserves, node_function_keeps_index; assumption.
Qed.

(** One turn of the engine that led to a result. *)
Lemma run_unroll limit n st w s r s' :
  run (S limit) n st w s = (Ok r, s') ->
  exists update s1 succ,
    node_function n st w (set_trace (trace s ++ [Enter n]) s) = (Ok update, s1) /\
    next_node n (merge st update) w s1 = (Ok succ, s1) /\
    entered s1 = (entered s ++ [n])%list /\
    (n <> BuildIndexN -> n <> CheckCacheN -> n <> LoadIndexN ->
     index_state s1 = index_state s) /\
    match succ with
    | Some n' => run limit n' (merge st update) w s1 = (Ok r, s')
    | None => r = merge st update /\ s' = s1
    end.
Proof.
  intros H. rewrite run_S in H.
  apply bind_ok in H. destruct H as ([] & s0 & Henter & H).
  unfold emit, modify in Henter. injection Henter as <-.
  apply bind_ok in H. destruct H as (update & s1 & Hnode & H).
  apply bind_ok in H. destruct H as (succ & s2 & Hnext & H).
  pose proof (next_node_inv _ _ _ _ _ _ Hnext) as [-> _].
  exists update, s1, succ. split_and!; try assumption.
  - rewrite (preserves_run entered _ _ _ _ _ (node_function_keeps_entered n st) Hnode).
    apply entered_emit_enter.
  - intros Hb Hc Hl.
    rewrite (preserves_run index_state _ _ _ _ _ (node_function_keeps_index n st Hb Hc Hl)
               Hnode).
    reflexivity.
  - destruct succ; [exact H |]. injection H as <- <-. auto.
Qed.

(** Whatever a run does, the first node it enters is the one it
    starts from. *)
Lemma run_follows_path_start limit n st w s :
  exists p, entered (snd (run (S limit) n st w s)) = (entered s ++ n :: p)%list.
Proof.
  revert n st w s. induction limit as [| limit IH]; intros n st w s;
    rewrite run_S; unfold bind at 1; unfold emit at 1, modify at 1;
    pose proof (entered_emit_enter n s) as Hin;
    set (s0 := set_trace (trace s ++ [Enter n]) s) in *;
    unfold bind at 1;
    pose proof (node_function_keeps_entered n st w s0) as He;
    (destruct (node_function n st w s0) as [[update | e] s1]; cbn [snd] in *;
     [| exists []; congruence]);
    unfold bind at 1;
    pose proof (next_node_keeps entered n (merge st update) w s1) as He';
    (destruct (next_node n (merge st update) w s1) as [[[n' |] | e] s2]; cbn [snd] in *;
     [| exists []; unfold ret; cbn [snd]; congruence | exists []; congruence]).
  - exists []. cbn [run]. unfold raise. cbn [snd]. congruence.
  - destruct (IH n' (merge st update) w s2) as (p & Hp).
    exists (n' :: p). rewrite Hp, He', He, Hin, <- app_assoc. reflexivity.
Qed.

(** X11: the documents of the index and the descriptors are written by
    the build node only.  Whatever a run returns or raises, either it
    has entered the build node, or no document was stored or removed
    and every [meta.json] that was there is as it was; where the file
    was not there, it is still not there or it holds a registry that
    lists no collection, which the client writes when the gate or the
    load node opens a storage that has none. *)
Theorem index_is_written_by_the_build_node_only (limit : nat) :
  forall (n : node) (st : UnifiedState) (w : env) (s : store),
  exists p,
    entered (snd (run limit n st w s)) = (entered s ++ p)%list /\
    (In BuildIndexN p \/ index_kept s (snd (run limit n st w s))).
Proof.
  induction limit as [| limit IH]; intros n st w s.
  - exists []. cbn. rewrite app_nil_r. split; [reflexivity |]. right. apply index_kept_refl.
  - destruct (decide (n = BuildIndexN)) as [-> | Hn].
    + destruct (run_follows_path_start limit BuildIndexN st w s) as (p & Hp).
      exists (BuildIndexN :: p). split; [exact Hp |]. left. left. reflexivity.
    + remember (run (S limit) n st w s) as out eqn:Hout.
      rewrite run_S in Hout. unfold bind at 1 in Hout. unfold emit at 1, modify at 1 in Hout.
      pose proof (entered_emit_enter n s) as Hin.
      set (s0 := set_trace (trace s ++ [Enter n]) s) in *.
      assert (Hi0 : index_kept s s0) by (apply index_kept_same; destruct s; reflexivity).
      unfold bind at 1 in Hout.
      pose proof (node_function_keeps_entered n st w s0) as He.
      pose proof (node_function_index_kept n st Hn w s0) as Hi.
      destruct (node_function n st w s0) as [[update | e] s1]; cbn [snd] in *.
      2:{ subst out. exists [n]. cbn [snd]. split; [congruence |]. right.
          exact (index_kept_trans _ _ _ Hi0 Hi). }
      unfold bind at 1 in Hout.
      pose proof (next_node_keeps entered n (merge st update) w s1) as He'.
      pose proof (next_node_keeps index_state n (merge st update) w s1) as Hi'.
      apply index_kept_same in Hi'.
      assert (Hi2 : index_kept s (snd (next_node n (merge st update) w s1)))
        by exact (index_kept_trans _ _ _ (index_kept_trans _ _ _ Hi0 Hi) Hi').
      clear Hi'.
      destruct (next_node n (merge st update) w s1) as [[[n' |] | e] s2]; cbn [snd] in *;
        subst out.
      * destruct (IH n' (merge st update) w s2) as (p & Hp & Hcase).
        exists (n :: p). split.
        -- rewrite Hp, He', He, Hin, <- app_assoc. reflexivity.
        -- destruct Hcase as [Hb | Hk]; [left; right; exact Hb |].
           right. exact (index_kept_trans _ _ _ Hi2 Hk).
      * exists [n]. unfold ret. cbn [snd]. split; [congruence |]. right. exact Hi2.
      * exists [n]. cbn [snd]. split; [congruence |]. right. exact Hi2.
Qed.
(** ** The path of a request *)

(** Only the gate writes the key [cache_hit]. *)
Lemma node_keeps_cache_hit n st w s update s' :
  n <> CheckCacheN ->
  node_function n st w s = (Ok update, s') ->
  cache_hit (merge st update) = cache_hit st.
Proof.
  intros Hn H. destruct n; try congruence; cbn [node_function] in H.
  - unfold router_node in H. unravel. destruct st; reflexivity.
  - unfold weather_node in H. unravel; destruct st; reflexivity.
  - unfold unknown_node in H. unravel. destruct st; reflexivity.
  - unfold load_pdf_node in H. unravel. destruct st; reflexivity.
  - unfold split_docs_node in H. unravel. destruct st; reflexivity.
  - unfold build_index_node in H. unravel. destruct st; reflexivity.
  - unfold load_index_node in H. unravel. destruct st; reflexivity.
  - unfold retrieve_node in H. unravel. destruct st; reflexivity.
  - unfold generate_answer_node in H. unravel. destruct st; reflexivity.
Qed.

(** One turn of a run that returned, at a node other than the gate. *)
Ltac turn H :=
  let update := fresh "update" in
  let s1 := fresh "s" in
  let succ := fresh "succ" in
  let Hnode := fresh "Hnode" in
  let Hnext := fresh "Hnext" in
  let Hent := fresh "Hent" in
  let Hidx := fresh "Hidx" in
  let Hhit := fresh "Hhit" in
  let Hne := fresh "Hne" in
  apply run_unroll in H;
  destruct H as (update & s1 & succ & Hnode & Hnext & Hent & Hidx & H);
  lazymatch type of Hnode with
  | node_function ?n _ _ _ = _ =>
      assert (Hne : n <> CheckCacheN) by discriminate;
      pose proof (node_keeps_cache_hit _ _ _ _ _ _ Hne Hnode) as Hhit;
      try (let Hb := fresh "Hb" in
           let Hl := fresh "Hl" in
           assert (Hb : n <> BuildIndexN) by discriminate;
           assert (Hl : n <> LoadIndexN) by discriminate;
           specialize (Hidx Hb Hne Hl); clear Hb Hl);
      clear Hne
  end;
  cbn [next_node] in Hnext;
  try (unfold ret in Hnext; injection Hnext as <-; cbv beta iota in H).

(** A gate that reports a hit has written nothing into the index, and
    the client of the storage is open. *)
Lemma check_cache_node_hit_keeps st w s update s' :
  check_cache_node st w s = (Ok update, s') ->
  cache_hit (merge st update) = Some true ->
  index_state s' = index_state s /\
  exists dir, persist_dir (merge st update) = Some dir /\ dir ∈ _client_cache s'.
Proof.
  intros H Hhit.
  pose proof (preserves_run qdrant _ _ _ _ _ (check_cache_node_keeps_qdrant st) H) as Hq.
  unfold check_cache_node in H.
  bind_inv H as pdf s1 Hpdf. item_inv Hpdf.
  bind_inv H as name s2 Hname.
  unfold generate_collection_name in Hname. bind_inv Hname as fp0 s3 Hfp0.
  injection Hname as <- <-.
  bind_inv H as cs s4 Hcs. item_inv Hcs.
  bind_inv H as co s5 Hco. item_inv Hco.
  bind_inv H as em s6 Hem. item_inv Hem.
  bind_inv H as valid s7 Hvalid.
  injection H as <- <-.
  assert (Hfields : forall x y hit z,
            cache_hit (merge st [Collection_name x; Persist_dir y; Cache_hit hit; Steps z])
            = Some hit /\
            persist_dir (merge st [Collection_name x; Persist_dir y; Cache_hit hit; Steps z])
            = Some y)
    by (intros; destruct st; split; reflexivity).
  rewrite (proj1 (Hfields _ _ _ _)) in Hhit. injection Hhit as Hhit.
  apply andb_true_iff in Hhit. destruct Hhit as [-> _].
  apply is_index_valid_true in Hvalid.
  destruct Hvalid as (saved & fp & s0 & _ & _ & _ & _ & _ & _ & _ & _ & Hm0 & _ & Hopen & Hrun).
  pose proof (preserves_run meta_files _ _ _ _ _ (file_fingerprint_keeps_meta pdf) Hfp0) as Hm3.
  pose proof (preserves_run meta_files _ _ _ _ _ (file_fingerprint_keeps_meta pdf) Hrun) as Hm7.
  pose proof (preserves_run _client_cache _ _ _ _ _ (file_fingerprint_keeps_clients pdf) Hrun)
    as Hc7.
  split.
  - unfold index_state. rewrite Hq. f_equal. congruence.
  - eexists. split; [apply Hfields |]. rewrite Hc7. exact Hopen.
Qed.

(** The load node on a storage that is open. *)
Lemma load_index_node_open st w s update s' dir :
  load_index_node st w s = (Ok update, s') ->
  persist_dir st = Some dir ->
  dir ∈ _client_cache s ->
  index_state s' = index_state s.
Proof.
  intros H Hdir Hopen. unfold load_index_node in H.
  bind_inv H as name s1 Hname. item_inv Hname.
  bind_inv H as dir' s2 Hd. item_inv Hd.
  assert (dir' = dir) by congruence. subst dir'.
  bind_inv H as em s3 Hem. item_inv Hem.
  bind_inv H as vs s4 Hload. injection H as _ <-.
  unfold load_qdrant_vectorstore in Hload.
  bind_inv Hload as cached s5 Hget. unfold get in Hget. injection Hget as <- <-.
  destruct (_vectorstore_cache s !! _) as [vs' |].
  - unfold ret in Hload. injection Hload as _ <-. reflexivity.
  - rewrite (bind_step _ _ _ _ _ _ (get_or_create_client_cached_run dir w s Hopen)) in Hload.
    unfold bind, modify, ret in Hload. injection Hload as _ <-. reflexivity.
Qed.

(** The run from the retrieve node on. *)
Lemma run_from_retrieve limit st w s r s' :
  run (S (S limit)) RetrieveN st w s = (Ok r, s') ->
  cache_hit r = cache_hit st /\
  entered s' = (entered s ++ [RetrieveN; GenerateN])%list /\
  index_state s' = index_state s.
Proof.
  intros H. turn H. turn H. destruct H as [-> ->].
  rewrite Hent0, Hent, <- app_assoc. split_and!; [congruence | reflexivity | congruence].
Qed.

(** X12: the key [cache_hit] of a result tells which path the request
    took.  True: the router, the gate, the cached index, retrieval and
    generation, and no collection or descriptor was changed.  False:
    the router, the gate, then the document was loaded, split and
    indexed before retrieval and generation.  Absent: the router and
    then the weather handler or the fallback handler, and again no
    collection or descriptor was changed. *)
Theorem cache_hit_tells_the_path
    (q : string) (pdf : option string) (cs co : Z) (em : string) (k_ : Z) (force : bool)
    (w : env) (s : store) (r : UnifiedState) (s' : store) :
  query q pdf cs co em k_ force w s = (Ok r, s') ->
  match cache_hit r with
  | Some true =>
      entered s' = (entered s ++ [RouterN; CheckCacheN; LoadIndexN; RetrieveN; GenerateN])%list /\
      qdrant s' = qdrant s /\ meta_files s' = meta_files s
  | Some false =>
      entered s' = (entered s ++ [RouterN; CheckCacheN; LoadPdfN; SplitDocsN; BuildIndexN;
                                  RetrieveN; GenerateN])%list
  | None =>
      (entered s' = (entered s ++ [RouterN; WeatherN])%list \/
       entered s' = (entered s ++ [RouterN; UnknownN])%list) /\
      qdrant s' = qdrant s /\ meta_files s' = meta_files s
  end.
Proof.
  unfold query, invoke, recursion_limit. intros H.
  apply run_unroll in H.
  destruct H as (update & s1 & succ & Hnode & Hnext & Hent & Hidx & H).
  assert (Hne : RouterN <> CheckCacheN) by discriminate.
  pose proof (node_keeps_cache_hit _ _ _ _ _ _ Hne Hnode) as Hhit. clear Hne.
  assert (Hidx' : index_state s1 = index_state s) by (apply Hidx; discriminate).
  clear Hidx. rename Hidx' into Hidx. cbn [cache_hit] in Hhit.
  destruct succ as [n' |].
  2:{ apply next_node_inv in Hnext. destruct Hnext as [_ Hterm]. discriminate Hterm. }
  pose proof (next_node_edge _ _ _ _ _ _ Hnext) as Hedge.
  destruct n'; try discriminate Hedge; clear Hedge Hnext.
  - (* the weather handler *)
    turn H. destruct H as [-> ->]. rewrite Hhit0, Hhit.
    unfold index_state in *. rewrite Hent0, Hent, <- app_assoc.
    split_and!; [left; reflexivity | congruence | congruence].
  - (* the fallback handler *)
    turn H. destruct H as [-> ->]. rewrite Hhit0, Hhit.
    unfold index_state in *. rewrite Hent0, Hent, <- app_assoc.
    split_and!; [right; reflexivity | congruence | congruence].
  - (* the gate *)
    apply run_unroll in H.
    destruct H as (update1 & s2 & succ & Hgate & Hnext & Hent1 & _ & H).
    cbn [node_function] in Hgate.
    pose proof (check_cache_node_hit_keeps _ _ _ _ _ Hgate) as Hkeeps.
    apply check_cache_node_ok in Hgate.
    destruct Hgate as (pdf' & fp & hit & _ & _ & ->).
    assert (Hhit1 : forall st hit x y z,
              cache_hit (merge st [Collection_name x; Persist_dir y; Cache_hit hit; Steps z])
              = Some hit)
      by (intros; destruct st; reflexivity).
    cbn [next_node] in Hnext. unfold should_build_index in Hnext.
    rewrite Hhit1 in Hnext. destruct hit.
    + cbn in Hnext. unfold ret in Hnext. injection Hnext as <-.
      destruct (Hkeeps (Hhit1 _ _ _ _ _)) as (Hidx1 & dir & Hdir & Hopen).
      turn H. cbn [node_function] in Hnode0.
      pose proof (load_index_node_open _ _ _ _ _ dir Hnode0 Hdir Hopen) as Hidx2.
      apply run_from_retrieve in H. destruct H as (Hr & He & Hi).
      rewrite Hr, Hhit0, Hhit1. unfold index_state in *.
      rewrite He, Hent0, Hent1, Hent, <- !app_assoc. cbn in Hidx1, Hidx2.
      split_and!; [reflexivity | congruence | congruence].
    + cbn in Hnext. unfold ret in Hnext. injection Hnext as <-.
      turn H. turn H. turn H. apply run_from_retrieve in H. destruct H as (Hr & He & Hi).
      rewrite Hr, Hhit3, Hhit2, Hhit0, Hhit1.
      rewrite He, Hent3, Hent2, Hent0, Hent1, Hent, <- !app_assoc. reflexivity.
Qed.

(** X12 on the report: indexed by the first request, served from the
    index by the second. *)
Lemma cache_hit_tells_the_path_witness :
  entered (snd (query "Summarize section 2" (Some "report.pdf") 1000 150 "m1" 4 false
                  (Demo.healthy Demo.report_v1) empty_store))
  = [RouterN; CheckCacheN; LoadPdfN; SplitDocsN; BuildIndexN; RetrieveN; GenerateN] /\
  qdrant (snd (query "Summarize section 2" (Some "report.pdf") 1000 150 "m1" 4 false
                 (Demo.healthy Demo.report_v1) Demo.indexed))
  = qdrant Demo.indexed.
Proof.
  split.
  - assert (H : exists r, query "Summarize section 2" (Some "report.pdf") 1000 150 "m1" 4 false
                  (Demo.healthy Demo.report_v1) empty_store
                = (Ok r, snd (query "Summarize section 2" (Some "report.pdf") 1000 150 "m1" 4
                                false (Demo.healthy Demo.report_v1) empty_store)) /\
                cache_hit r = Some false)
      by (eexists; split; vm_compute; reflexivity).
    destruct H as (r & H & Hhit).
    pose proof (cache_hit_tells_the_path _ _ _ _ _ _ _ _ _ _ _ H) as P.
    rewrite Hhit in P. exact P.
  - assert (H : exists r, query "Summarize section 2" (Some "report.pdf") 1000 150 "m1" 4 false
                  (Demo.healthy Demo.report_v1) Demo.indexed
                = (Ok r, snd (query "Summarize section 2" (Some "report.pdf") 1000 150 "m1" 4
                                false (Demo.healthy Demo.report_v1) Demo.indexed)) /\
                cache_hit r = Some true)
      by (eexists; split; vm_compute; reflexivity).
    destruct H as (r & H & Hhit).
    pose proof (cache_hit_tells_the_path _ _ _ _ _ _ _ _ _ _ _ H) as P.
    rewrite Hhit in P. exact (proj1 (proj2 P)).
Defined.

(** ** Descriptors, collections and clients *)

(** X13: the descriptor takes the place of the registry.
    [save_metadata] creates the persist directory and, when
    [meta.json] can be written, a following [load_metadata] returns
    the saved descriptor; no other [meta.json] and no stored document
    is changed.  The file is the one the Qdrant client reads its
    registry from: once the descriptor is in it, a process that has not
    opened the storage cannot open it any more, the client raises
    [KeyError] on the key [collections].  When [meta.json] cannot be
    written, the error is raised after the directory was created, and
    every [meta.json] is as it was. *)
Theorem saved_descriptor_replaces_registry
    (dir : string) (m : index_meta) (w : env) (s : store) :
  (writable w (path_join dir "meta.json") = true ->
   exists s',
     save_metadata dir m w s = (Ok tt, s') /\
     load_metadata dir w s' = (Ok (Some (Parsed m)), s') /\
     dir ∈ dirs s' /\
     (forall other, other <> path_join dir "meta.json" ->
                    meta_files s' !! other = meta_files s !! other) /\
     qdrant s' = qdrant s /\
     (meta_registry m = None ->
      (dir ∉ _client_cache s) ->
      get_or_create_client dir w s' = (Raise (KeyError "collections"), s'))) /\
  (writable w (path_join dir "meta.json") = false ->
   exists s',
     save_metadata dir m w s = (Raise OSError, s') /\
     dir ∈ dirs s' /\ meta_files s' = meta_files s /\ qdrant s' = qdrant s).
Proof.
  split; intros Hw.
  - exists (set_meta_files (<[path_join dir "meta.json" := Parsed m]> (meta_files s))
              (set_dirs ({[dir]} ∪ dirs s) s)).
    split_and!.
    + unfold save_metadata, mkdir, bind, modify, ask. rewrite Hw. reflexivity.
    + unfold load_metadata, bind, get. cbn [meta_files set_meta_files].
      rewrite lookup_insert_eq. reflexivity.
    + cbn. apply elem_of_union. left. apply elem_of_singleton. reflexivity.
    + intros other Hne. cbn. apply lookup_insert_ne. congruence.
    + reflexivity.
    + intros Hreg Hnc. rewrite get_or_create_client_cases.
      cbn [_client_cache set_meta_files set_dirs]. rewrite (bool_decide_eq_false_2 _ Hnc).
      unfold registry_path. cbn [meta_files set_meta_files]. rewrite lookup_insert_eq, Hreg.
      reflexivity.
  - exists (set_dirs ({[dir]} ∪ dirs s) s). split_and!; try reflexivity.
    + unfold save_metadata, mkdir, bind, modify, ask. rewrite Hw. reflexivity.
    + cbn. apply elem_of_union. left. apply elem_of_singleton. reflexivity.
Qed.

(** X13 on the descriptor of the example: it is saved and loaded, and
    the storage cannot be opened afterwards. *)
Lemma saved_descriptor_replaces_registry_witness :
  exists s',
    save_metadata ".indices/pdf_x"
      {| meta_pdf_fingerprint := None; meta_chunk_size := Some 1000;
         meta_chunk_overlap := Some 150; meta_embedding_model := Some "m1";
         meta_format := Some "v2"; meta_collection_name := Some "pdf_x";
         meta_registry := None; meta_other_keys := false |}
      (Demo.healthy Demo.report_v1) empty_store = (Ok tt, s') /\
    get_or_create_client ".indices/pdf_x" (Demo.healthy Demo.report_v1) s'
    = (Raise (KeyError "collections"), s').
Proof.
  destruct (proj1 (saved_descriptor_replaces_registry ".indices/pdf_x"
                     {| meta_pdf_fingerprint := None; meta_chunk_size := Some 1000;
                        meta_chunk_overlap := Some 150; meta_embedding_model := Some "m1";
                        meta_format := Some "v2"; meta_collection_name := Some "pdf_x";
                        meta_registry := None; meta_other_keys := false |}
                     (Demo.healthy Demo.report_v1) empty_store) eq_refl)
    as (s' & H1 & _ & _ & _ & _ & H2).
  exists s'. split; [exact H1 |]. apply H2; [reflexivity |].
  vm_compute. discriminate.
Defined.

(** Opening a storage changes none of its collections. *)
Lemma get_or_create_client_keeps_collections dir w s client s' :
  get_or_create_client dir w s = (Ok client, s') ->
  collections_of dir s' = collections_of dir s.
Proof.
  intros H. apply get_or_create_client_opened in H.
  destruct H as (_ & Hin & Hheld & Hq & _).
  apply map_eq. intros name. rewrite !lookup_collections_of.
  rewrite (collection_names_cached dir s' Hin), Hheld.
  unfold points_of, stored. rewrite Hq. reflexivity.
Qed.

(** X14: a storage is opened once: when [get_or_create_client] has
    returned, a further call returns the same client and changes
    nothing.  Opening creates the directory, stores and removes no
    document and leaves the collections of the storage as they were.
    A call raises only for a storage that is not open yet, and then no
    client is cached and no document is stored or removed; the cause is
    that the folder cannot be locked, that [meta.json] holds no
    registry (it does not parse, or parses to a value without the key
    [collections], as the descriptor of the program), or that
    [meta.json] is not there and cannot be written. *)
Theorem client_is_opened_once (dir : string) (w : env) (s : store) :
  (forall client s',
     get_or_create_client dir w s = (Ok client, s') ->
     get_or_create_client dir w s' = (Ok client, s') /\
     dir ∈ _client_cache s' /\ qdrant s' = qdrant s /\
     collections_of dir s' = collections_of dir s /\
     (s' = s \/ dir ∈ dirs s')) /\
  (forall e s',
     get_or_create_client dir w s = (Raise e, s') ->
     (dir ∉ _client_cache s) /\ (dir ∉ _client_cache s') /\ qdrant s' = qdrant s /\
     (qdrant_open w dir = false \/
      (exists value, meta_files s !! path_join dir "meta.json" = Some value /\
                     registry_of (Some value) = None) \/
      (meta_files s !! path_join dir "meta.json" = None /\
       writable w (path_join dir "meta.json") = false))).
Proof.
  split.
  - intros client s' H.
    pose proof (get_or_create_client_keeps_collections _ _ _ _ _ H) as Hcol.
    pose proof (get_or_create_client_opened _ _ _ _ _ H) as (-> & Hin & _ & Hq & _ & _ & _).
    split_and!; auto.
    + apply get_or_create_client_cached_run. exact Hin.
    + rewrite get_or_create_client_cases in H.
      destruct (bool_decide (dir ∈ _client_cache s)); [injection H as <-; left; reflexivity |].
      right.
      repeat match type of H with
             | (if ?b then _ else _) = _ => destruct b
             | match ?x with _ => _ end = _ => destruct x
             end; try discriminate H; injection H as <-; cbn;
        apply elem_of_union; left; apply elem_of_singleton; reflexivity.
  - intros e s' H.
    pose proof (get_or_create_client_raised _ _ _ _ _ H) as (Hnc & Hc & _ & Hq & _).
    split_and!; auto; [rewrite Hc; exact Hnc |].
    rewrite get_or_create_client_cases in H. rewrite (bool_decide_eq_false_2 _ Hnc) in H.
    unfold registry_path in H.
    destruct (meta_files s !! path_join dir "meta.json") as [[| m | truthy] |] eqn:Hm.
    + right. left. eexists. split; reflexivity.
    + destruct (meta_registry m) as [names |] eqn:Hr.
      * destruct (qdrant_open w dir); [discriminate H | left; reflexivity].
      * right. left. eexists. split; [reflexivity | exact Hr].
    + right. left. eexists. split; reflexivity.
    + destruct (writable w _); [| right; right; auto].
      destruct (qdrant_open w dir); [discriminate H | left; reflexivity].
Qed.

(** X14 on a storage that is opened for the first time. *)
Lemma client_is_opened_once_witness :
  exists s',
    get_or_create_client ".indices/pdf_x" (Demo.healthy Demo.report_v1) empty_store
    = (Ok ".indices/pdf_x", s') /\
    get_or_create_client ".indices/pdf_x" (Demo.healthy Demo.report_v1) s'
    = (Ok ".indices/pdf_x", s').
Proof.
  eexists. split; [vm_compute; reflexivity |].
  apply (proj1 (client_is_opened_once ".indices/pdf_x" (Demo.healthy Demo.report_v1)
                  empty_store)).
  vm_compute. reflexivity.
Defined.

Lemma collections_of_trace client l s :
  collections_of client (set_trace l s) = collections_of client s.
Proof. reflexivity. Qed.

(** X15: a build that returns leaves, under the collection name, the
    chunks it was given and nothing else: what the collection held
    before is gone.  The other collections of the storage and the
    other storages are as they were, and a retrieval through the
    vector store it returns searches exactly these chunks. *)
Theorem build_replaces_collection
    (sp : list Document) (name dir em : string) (w : env) (s s' : store) (vs : vectorstore) :
  build_qdrant_vectorstore sp name dir em w s = (Ok vs, s') ->
  vs = {| vs_client := dir; vs_collection_name := name; vs_embeddings := em |} /\
  collections_of dir s' !! name = Some sp /\
  (forall other, other <> name ->
                 collections_of dir s' !! other = collections_of dir s !! other) /\
  (forall d, d <> dir -> qdrant s' !! d = qdrant s !! d) /\
  (forall k_ q, fst (retriever_invoke vs k_ q w s') = similarity_search w em sp q k_).
Proof.
  intros H.
  destruct (get_or_create_client dir w s) as [[client | e] s0] eqn:Hclient.
  2:{ unfold build_qdrant_vectorstore in H. rewrite (bind_abort _ _ _ _ _ _ Hclient) in H.
      discriminate H. }
  destruct (build_qdrant_vectorstore_run _ _ _ _ _ _ _ _ _ _ Hclient H)
    as ((_ & _ & Hcache & _ & _ & Hothers & _ & _) & -> & Hheld & Hstored & _).
  apply get_or_create_client_opened in Hclient.
  destruct Hclient as (_ & Hin & Hheld0 & Hq0 & _).
  assert (Hin' : dir ∈ _client_cache s') by (rewrite Hcache; exact Hin).
  assert (Hcol : collections_of dir s' !! name = Some sp).
  { rewrite lookup_collections_of, (collection_names_cached dir s' Hin'), Hheld.
    rewrite bool_decide_eq_true_2
      by (apply elem_of_union; left; apply elem_of_singleton; reflexivity).
    unfold points_of. rewrite Hstored, lookup_insert_eq. reflexivity. }
  split_and!; [reflexivity | exact Hcol | | |].
  - intros other Hne. rewrite !lookup_collections_of.
    rewrite (collection_names_cached dir s' Hin'), Hheld, <- Hheld0.
    assert (Hiff : other ∈ {[name]} ∪ held dir s0 ∖ {[name]} <-> other ∈ held dir s0).
    { rewrite elem_of_union, elem_of_difference, !elem_of_singleton. intuition congruence. }
    assert (Hpoints : points_of dir other s' = points_of dir other s).
    { unfold points_of. rewrite Hstored.
      rewrite lookup_insert_ne, lookup_delete_ne by congruence.
      unfold stored. rewrite Hq0. reflexivity. }
    rewrite Hpoints.
    destruct (bool_decide (other ∈ held dir s0)) eqn:E.
    + apply bool_decide_eq_true in E. rewrite bool_decide_eq_true_2 by (apply Hiff; exact E).
      reflexivity.
    + apply bool_decide_eq_false in E.
      rewrite bool_decide_eq_false_2 by (rewrite Hiff; exact E). reflexivity.
  - intros d Hne. rewrite Hothers, Hq0 by exact Hne. reflexivity.
  - intros k_ q. unfold retriever_invoke, bind, emit, modify, get, ask, lift.
    cbn [vs_client vs_collection_name vs_embeddings].
    rewrite collections_of_trace, Hcol. reflexivity.
Qed.

(** X15 on a forced rebuild of the indexed report with other chunks. *)
Lemma build_replaces_collection_witness :
  exists s',
    build_qdrant_vectorstore [] "pdf_ba7816bf8f01cfea414140de"
      ".indices/pdf_ba7816bf8f01cfea414140de" "m1" (Demo.healthy Demo.report_v1) Demo.indexed
    = (Ok {| vs_client := ".indices/pdf_ba7816bf8f01cfea414140de";
             vs_collection_name := "pdf_ba7816bf8f01cfea414140de";
             vs_embeddings := "m1" |}, s') /\
    collections_of ".indices/pdf_ba7816bf8f01cfea414140de" Demo.indexed
      !! "pdf_ba7816bf8f01cfea414140de" = Some [Demo.page] /\
    collections_of ".indices/pdf_ba7816bf8f01cfea414140de" s'
      !! "pdf_ba7816bf8f01cfea414140de" = Some [].
Proof.
  eexists. split; [vm_compute; reflexivity |]. split; [vm_compute; reflexivity |].
  refine (proj1 (proj2 (build_replaces_collection [] "pdf_ba7816bf8f01cfea414140de"
                          ".indices/pdf_ba7816bf8f01cfea414140de" "m1"
                          (Demo.healthy Demo.report_v1) Demo.indexed _ _ _))).
  vm_compute. reflexivity.
Defined.
(** ** The context of the documents *)

Lemma set_trace_same s : set_trace (trace s ++ []) s = s.
Proof. destruct s. cbn. rewrite app_nil_r. reflexivity. Qed.

Lemma set_trace_twice l1 l2 s :
  set_trace (trace (set_trace (trace s ++ l1) s) ++ l2) (set_trace (trace s ++ l1) s)
  = set_trace (trace s ++ l1 ++ l2) s.
Proof. destruct s. cbn. rewrite app_assoc. reflexivity. Qed.

Lemma sections_length chunks : (length (sections chunks) <= length chunks)%nat.
Proof.
  unfold sections. etransitivity; [apply List.filter_length_le |].
  rewrite length_map. reflexivity.
Qed.

Lemma chat_calls_app l1 l2 : chat_calls (l1 ++ l2) = (chat_calls l1 + chat_calls l2)%nat.
Proof. unfold chat_calls. rewrite List.filter_app, length_app. reflexivity. Qed.

Lemma chat_calls_map (ps : list prompt) : chat_calls (map ChatCall ps) = length ps.
Proof. induction ps as [| p ps IH]; [reflexivity |]. cbn. rewrite <- IH. reflexivity. Qed.

(** The loop over the sections returns, whatever the model does. *)
Lemma summarize_chunks_spec chunks w : forall s,
  exists summaries,
    summarize_chunks chunks w s
    = (Ok summaries,
       set_trace (trace s ++ map ChatCall (map SummarizeSection (sections chunks))) s) /\
    (length summaries <= length (sections chunks))%nat.
Proof.
  induction chunks as [| chunk rest IH]; intros s.
  - exists []. cbn. unfold ret. rewrite set_trace_same. auto.
  - cbn [summarize_chunks]. unfold sections. cbn [map List.filter].
    fold (sections rest).
    destruct (negb (Py.truthy (Py.strip (page_content chunk)))
              || (Py.len (Py.strip (page_content chunk)) <? 100)%nat).
    + cbn [negb]. apply IH.
    + cbn [negb map]. unfold bind at 1, try_except, chat, bind, emit, modify, ask, lift, ret.
      destruct (llm w (SummarizeSection (Py.strip (page_content chunk)))) as [r | e].
      * destruct (IH (set_trace (trace s ++
                       [ChatCall (SummarizeSection (Py.strip (page_content chunk)))]) s))
          as (l & -> & Hl).
        exists (r :: l). rewrite set_trace_twice. cbn. split; [reflexivity | lia].
      * destruct (IH (set_trace (trace s ++
                       [ChatCall (SummarizeSection (Py.strip (page_content chunk)))]) s))
          as (l & -> & Hl).
        exists l. rewrite set_trace_twice. cbn. split; [reflexivity | lia].
Qed.

(** X16: the loop that summarises the sections of a document never
    raises: a section whose summary fails is skipped, and the loop goes
    on with the next one.  It calls the model once for each of the
    texts [sections] selects, in their order, and for no other; it
    returns at most one summary per call, and changes nothing in the
    store beyond the record of these calls. *)
Theorem summarize_chunks_never_raises (chunks : list Document) (w : env) (s : store) :
  exists summaries,
    summarize_chunks chunks w s
    = (Ok summaries,
       set_trace (trace s ++ map ChatCall (map SummarizeSection (sections chunks))) s) /\
    (length summaries <= length (sections chunks) <= length chunks)%nat.
Proof.
  destruct (summarize_chunks_spec chunks w s) as (l & H & Hl).
  exists l. split; [exact H |]. split; [exact Hl | apply sections_length].
Qed.

(** A run of [extract_pdf_context], whatever its outcome. *)
Lemma extract_pdf_context_run pdf model_name w s o s' :
  extract_pdf_context pdf model_name w s = (o, s') ->
  (forall summary,
     _pdf_context_cache s !! (pdf +:+ ":" +:+ model_name) = Some summary ->
     o = Ok summary /\ s' = s) /\
  (exists calls, trace s' = (trace s ++ calls)%list /\ (chat_calls calls <= 11)%nat) /\
  match o with
  | Raise e =>
      _pdf_context_cache s' = _pdf_context_cache s /\
      (pdf_loader w pdf = Raise e \/
       exists ds, pdf_loader w pdf = Ok ds /\ text_splitter w 2000 200 ds = Raise e)
  | Ok r =>
      _pdf_context_cache s' = _pdf_context_cache s \/
      _pdf_context_cache s' = <[pdf +:+ ":" +:+ model_name := r]> (_pdf_context_cache s)
  end.
Proof.
  unfold extract_pdf_context. unfold bind at 1. unfold get at 1.
  destruct (_pdf_context_cache s !! (pdf +:+ ":" +:+ model_name)) as [c |] eqn:Hc.
  { unfold ret. intros [= <- <-]. split_and!.
    - intros summary [= <-]. auto.
    - exists []. rewrite app_nil_r. split; [reflexivity | cbn; lia].
    - auto. }
  intros H. split; [discriminate |]. revert H.
  unfold load_pdf, split_documents. unfold bind at 1. unfold bind at 1.
  unfold emit at 1, modify at 1. unfold bind at 1. unfold ask at 1. unfold lift at 1.
  destruct (pdf_loader w pdf) as [ds | e0] eqn:Hload.
  2:{ intros [= <- <-]. split.
      - exists [PdfLoad pdf]. split; [reflexivity | cbn; lia].
      - auto. }
  unfold bind at 1. unfold bind at 1. unfold ask at 1. unfold lift at 1.
  destruct (text_splitter w 2000 200 ds) as [chunks | e0] eqn:Hsplit.
  2:{ intros [= <- <-]. split.
      - exists [PdfLoad pdf]. split; [reflexivity | cbn; lia].
      - split; [reflexivity |]. right. eauto. }
  unfold bind at 1.
  destruct (summarize_chunks_spec (firstn 10 chunks) w (set_trace (trace s ++ [PdfLoad pdf]) s))
    as (l & -> & Hl).
  rewrite set_trace_twice.
  assert (Hten : (length (sections (firstn 10 chunks)) <= 10)%nat).
  { etransitivity; [apply sections_length |]. rewrite length_firstn. lia. }
  set (calls := map ChatCall (map SummarizeSection (sections (firstn 10 chunks)))) in *.
  assert (Hcalls : chat_calls calls = length (sections (firstn 10 chunks)))
    by (unfold calls; rewrite chat_calls_map, length_map; reflexivity).
  destruct l as [| x l].
  { unfold ret. intros [= <- <-]. split.
    - exists (PdfLoad pdf :: calls). split; [reflexivity |].
      change (PdfLoad pdf :: calls) with ([PdfLoad pdf] ++ calls)%list.
      rewrite chat_calls_app, Hcalls. cbn. lia.
    - auto. }
  unfold try_except, chat, bind, emit, modify, ask, lift, ret.
  destruct (llm w (CombineSummaries (Py.join (Py.nl +:+ Py.nl) (x :: l)))) as [final | e0];
    intros [= <- <-]; cbn [snd trace set_trace set_pdf_context_cache].
  - split.
    + exists ([PdfLoad pdf] ++ calls ++
              [ChatCall (CombineSummaries (Py.join (Py.nl +:+ Py.nl) (x :: l)))])%list.
      split; [rewrite <- !app_assoc; reflexivity |].
      rewrite !chat_calls_app, Hcalls. cbn. lia.
    + right. destruct s; reflexivity.
  - split.
    + exists ([PdfLoad pdf] ++ calls ++
              [ChatCall (CombineSummaries (Py.join (Py.nl +:+ Py.nl) (x :: l)))])%list.
      split; [rewrite <- !app_assoc; reflexivity |].
      rewrite !chat_calls_app, Hcalls. cbn. lia.
    + left. destruct s; reflexivity.
Qed.

(** X17: [extract_pdf_context] on a document whose summary is cached
    returns it without loading the document or calling the model.
    Otherwise it calls the model at most eleven times; it raises only
    what the loader or the splitter raises, a failure of the model
    never; and the summary cache afterwards is as before or holds, for
    this document, the very text that was returned. *)
Theorem extract_pdf_context_outcomes (pdf model_name : string) (w : env) (s : store) :
  (forall summary,
     _pdf_context_cache s !! (pdf +:+ ":" +:+ model_name) = Some summary ->
     extract_pdf_context pdf model_name w s = (Ok summary, s)) /\
  (exists calls,
     trace (snd (extract_pdf_context pdf model_name w s)) = (trace s ++ calls)%list /\
     (chat_calls calls <= 11)%nat) /\
  (forall e s',
     extract_pdf_context pdf model_name w s = (Raise e, s') ->
     _pdf_context_cache s' = _pdf_context_cache s /\
     (pdf_loader w pdf = Raise e \/
      exists ds, pdf_loader w pdf = Ok ds /\ text_splitter w 2000 200 ds = Raise e)) /\
  (forall r s',
     extract_pdf_context pdf model_name w s = (Ok r, s') ->
     _pdf_context_cache s' = _pdf_context_cache s \/
     _pdf_context_cache s' = <[pdf +:+ ":" +:+ model_name := r]> (_pdf_context_cache s)).
Proof.
  destruct (extract_pdf_context pdf model_name w s) as [o s1] eqn:H.
  destruct (extract_pdf_context_run _ _ _ _ _ _ H) as (Hcached & Hcalls & Ho).
  split_and!.
  - intros summary Hc. destruct (Hcached summary Hc) as [-> ->]. reflexivity.
  - exact Hcalls.
  - intros e s' [= -> <-]. exact Ho.
  - intros r s' [= -> <-]. exact Ho.
Qed.

(** X17 on the report: the first call caches a summary, the second one
    returns it and records nothing. *)
Lemma extract_pdf_context_outcomes_witness :
  exists summary s1,
    extract_pdf_context "report.pdf" LLM_MODEL (Demo.healthy Demo.report_v1) empty_store
    = (Ok summary, s1) /\
    extract_pdf_context "report.pdf" LLM_MODEL (Demo.healthy Demo.report_v1) s1
    = (Ok summary, s1).
Proof.
  eexists. eexists. split; [vm_compute; reflexivity |].
  apply (extract_pdf_context_outcomes "report.pdf" LLM_MODEL (Demo.healthy Demo.report_v1)).
  vm_compute. reflexivity.
Defined.

(** ** What the router and the weather handler raise *)

(** X18: the router raises only for a question without weather keyword
    when a document is at hand, and then either what deriving the
    context of the uploaded documents raises, or what building the
    prompt raises: the context is pasted into the template of the
    system message, which is parsed before the classifier is called
    and outside the [try].  A failure of the classifier is never
    raised. *)
Theorem route_to_agent_raises_only
    (q : string) (pdf_available : bool) (w : env) (s s' : store) (e : exn) :
  route_to_agent q pdf_available w s = (Raise e, s') ->
  pdf_available = true /\
  has_weather_keyword q = false /\
  (extract_all_pdf_contexts "uploaded_pdfs" LLM_MODEL w s = (Raise e, s') \/
   exists ctx,
     extract_all_pdf_contexts "uploaded_pdfs" LLM_MODEL w s = (Ok ctx, s') /\
     Py.truthy ctx = true /\
     from_messages w (Py.slice_to 3000 ctx) = Raise e).
Proof.
  unfold route_to_agent, has_weather_keyword.
  destruct (existsb _ weather_keywords); [discriminate |].
  destruct pdf_available.
  - unfold bind at 1.
    destruct (extract_all_pdf_contexts "uploaded_pdfs" LLM_MODEL w s) as [[ctx | e0] s1].
    + destruct (Py.truthy ctx) eqn:Hctx; cbn [negb]; [| discriminate].
      unfold bind at 1, ask at 1. unfold bind at 1, lift at 1.
      destruct (from_messages w (Py.slice_to 3000 ctx)) as [[] | e0] eqn:Hprompt.
      * unfold try_except, chat, bind, emit, modify, ask, lift, ret.
        destruct (llm w _); discriminate.
      * intros [= <- <-]. split_and!; auto. right. exists ctx. auto.
    + intros [= <- <-]. auto.
  - unfold bind at 1, ret at 1. cbn. discriminate.
Qed.

(** X18 in the world without upload folder and in the world whose
    context holds an open brace. *)
Lemma route_to_agent_raises_only_witness :
  fst (extract_all_pdf_contexts "uploaded_pdfs" LLM_MODEL Demo.no_upload_folder empty_store)
  = Raise FileNotFoundError /\
  fst (route_to_agent "Summarize section 2" true Demo.open_brace empty_store)
  = Raise ValueError /\
  exists ctx,
    fst (extract_all_pdf_contexts "uploaded_pdfs" LLM_MODEL Demo.open_brace empty_store)
    = Ok ctx /\
    from_messages Demo.open_brace (Py.slice_to 3000 ctx) = Raise ValueError.
Proof.
  split; [| split; [vm_compute; reflexivity |]].
  - destruct (route_to_agent_raises_only "Summarize section 2" true Demo.no_upload_folder
                empty_store
                (snd (route_to_agent "Summarize section 2" true Demo.no_upload_folder
                        empty_store))
                FileNotFoundError ltac:(vm_compute; reflexivity))
      as (_ & _ & [H | (ctx & H & _)]); rewrite H; [reflexivity |].
    exfalso. vm_compute in H. discriminate H.
  - destruct (route_to_agent_raises_only "Summarize section 2" true Demo.open_brace
                empty_store
                (snd (route_to_agent "Summarize section 2" true Demo.open_brace empty_store))
                ValueError ltac:(vm_compute; reflexivity))
      as (_ & _ & [H | (ctx & H & _ & Hp)]).
    + exfalso. vm_compute in H. discriminate H.
    + exists ctx. rewrite H. split; [reflexivity | exact Hp].
Defined.

(** X19: the weather handler raises in four situations only: the state
    has no question; the model that extracts the location fails; its
    reply is JSON but not an object; or the provider's answer, with
    status 200, is a value on which the lookup
    [weather_data["main"]["temp"]] fails: [KeyError] on [main] for a
    dictionary without that entry, [KeyError] on [temp] when [main] is
    a dictionary without temperature, [TypeError] when the body or its
    entry [main] cannot be indexed by a key.  A failed request to the
    provider is never raised. *)
Theorem weather_node_raises_only (st : UnifiedState) (w : env) (s s' : store) (e : exn) :
  weather_node st w s = (Raise e, s') ->
  (question st = None /\ e = KeyError "question") \/
  (exists q, question st = Some q /\ llm w (ExtractLocation q) = Raise e) \/
  (exists q reply,
     question st = Some q /\ llm w (ExtractLocation q) = Ok reply /\
     json_loads w reply = Some JsonOther /\ e = AttributeError) \/
  (exists q reply c state_name wd,
     question st = Some q /\ llm w (ExtractLocation q) = Ok reply /\
     json_loads w reply = Some (JsonDict (Some c) state_name) /\
     fetched (requests_get w c state_name) = Some wd /\
     main_temp wd = None /\
     match wd with
     | NotDict => e = TypeError
     | Payload MainMissing _ _ => e = KeyError "main"
     | Payload MainOther _ _ => e = TypeError
     | Payload (MainDict _ _ _) _ _ => e = KeyError "temp"
     end).
Proof.
  unfold weather_node. intros H.
  destruct (question st) as [q |]; cbn [item] in H.
  2:{ left. unfold bind, raise in H. injection H as <- _. auto. }
  right. rewrite (bind_step _ _ _ _ _ _ eq_refl) in H. unfold bind at 1 in H.
  assert (Hloc : extract_location_from_query q w s
                 = match llm w (ExtractLocation q) with
                   | Ok reply =>
                       (Ok (match json_loads w reply with
                            | Some location => location
                            | None => JsonDict None None
                            end),
                        set_trace (trace s ++ [ChatCall (ExtractLocation q)]) s)
                   | Raise e0 =>
                       (Raise e0, set_trace (trace s ++ [ChatCall (ExtractLocation q)]) s)
                   end).
  { unfold extract_location_from_query, chat, bind, emit, modify, ask, lift, ret.
    destruct (llm w (ExtractLocation q)); reflexivity. }
  rewrite Hloc in H. clear Hloc.
  destruct (llm w (ExtractLocation q)) as [reply | e0] eqn:Hllm.
  2:{ injection H as <- _. left. eauto. }
  right.
  destruct (json_loads w reply) as [[city_ state_name |] |] eqn:Hjson.
  - destruct city_ as [c |]; cbn [Py.truthy_opt negb] in H;
      [| unfold ret in H; discriminate H].
    destruct (Py.truthy c) eqn:Hc; cbn [negb] in H; [| unfold ret in H; discriminate H].
    cbn [default] in H.
    rewrite (bind_step _ _ _ _ _ _ (fetch_weather_data_run c state_name w _ Hc)) in H.
    destruct (fetched (requests_get w c state_name)) as [wd |] eqn:Hwd;
      [| unfold ret in H; discriminate H].
    right. exists q, reply, c, state_name, wd.
    destruct wd as [| [| | [temp |] feels_like humidity] description wind];
      cbn [main_temp_item item] in H; unfold bind, raise, ret in H;
      try discriminate H; injection H as <- _;
      split_and!; first [assumption | reflexivity].
  - unfold raise in H. injection H as <- _. left. exists q, reply. auto.
  - cbn [Py.truthy_opt negb] in H. unfold ret in H. discriminate H.
Qed.

(** X19 on a provider that answers without temperature. *)
Lemma weather_node_raises_only_witness :
  exists q reply c state_name wd,
    question (Demo.no_document "What's the weather in Pune?") = Some q /\
    llm (Demo.weather_world 200 (Some Demo.bare_payload)) (ExtractLocation q) = Ok reply /\
    json_loads (Demo.weather_world 200 (Some Demo.bare_payload)) reply
    = Some (JsonDict (Some c) state_name) /\
    fetched (requests_get (Demo.weather_world 200 (Some Demo.bare_payload)) c state_name)
    = Some wd /\
    wd = Demo.bare_payload.
Proof.
  destruct (weather_node_raises_only (Demo.no_document "What's the weather in Pune?")
              (Demo.weather_world 200 (Some Demo.bare_payload)) empty_store
              (snd (weather_node (Demo.no_document "What's the weather in Pune?")
                      (Demo.weather_world 200 (Some Demo.bare_payload)) empty_store))
              (KeyError "main") ltac:(vm_compute; reflexivity))
    as [[H _] | [(q & H & Hl) | [(q & reply & H & Hl & Hj & He) |
                                 (q & reply & c & state_name & wd & H1 & H2 & H3 & H4 & _)]]].
  - exfalso. vm_compute in H. discriminate H.
  - exfalso. cbn in H. injection H as <-. vm_compute in Hl. discriminate Hl.
  - discriminate He.
  - exists q, reply, c, state_name, wd. split_and!; try assumption.
    cbn in H1. injection H1 as <-. vm_compute in H2. injection H2 as <-.
    vm_compute in H3. injection H3 as <- <-. vm_compute in H4. injection H4 as <-.
    reflexivity.
Defined.

(** X20: what the weather handler returns is consistent: its metadata
    name the weather agent and there is an answer; [success] is true
    exactly when the provider was asked and its payload, which carries
    the temperature reported in the metadata, is kept in the state;
    otherwise [success] is false, no temperature is reported and the
    state keeps the weather data and the city it had. *)
Theorem weather_node_result_is_consistent
    (st : UnifiedState) (w : env) (s s' : store) (update : list entry) :
  weather_node st w s = (Ok update, s') ->
  exists md,
    metadata (merge st update) = Some md /\ agent md = "weather" /\
    is_Some (answer (merge st update)) /\
    ((success md = Some true /\
      exists c state_name wd t,
        city (merge st update) = Some c /\ md_city md = Some c /\
        state (merge st update) = state_name /\ md_state md = state_name /\
        weather_data (merge st update) = Some wd /\
        main_temp wd = Some t /\ temperature md = Some t /\
        fetched (requests_get w c state_name) = Some wd /\
        last (trace s') = Some (WeatherFetch c state_name)) \/
     (success md = Some false /\ temperature md = None /\
      weather_data (merge st update) = weather_data st /\
      city (merge st update) = city st)).
Proof.
  unfold weather_node. intros H.
  bind_inv H as q s1 Hq. item_inv Hq.
  bind_inv H as location s2 Hloc.
  destruct location as [city_ state_name |]; [| discriminate H].
  destruct (negb (Py.truthy_opt city_)) eqn:Hcity.
  - injection H as <- <-. eexists. split; [destruct st; reflexivity |].
    split; [reflexivity |]. split; [destruct st; cbn; eauto |].
    right. split_and!; try reflexivity; destruct st; reflexivity.
  - apply negb_false_iff in Hcity.
    destruct city_ as [c |]; [| discriminate Hcity]. cbn [Py.truthy_opt] in Hcity.
    cbn [default] in H.
    rewrite (bind_step _ _ _ _ _ _ (fetch_weather_data_run c state_name w s2 Hcity)) in H.
    destruct (fetched (requests_get w c state_name)) as [wd |] eqn:Hwd.
    + bind_inv H as t s3 Ht. apply main_temp_item_ok in Ht. destruct Ht as [Ht ->].
      injection H as <- <-.
      eexists. split; [destruct st; reflexivity |].
      split; [reflexivity |]. split; [destruct st; cbn; eauto |].
      left. split; [reflexivity |]. exists c, state_name, wd, t.
      split_and!; try reflexivity; try assumption; try (destruct st; reflexivity).
      cbn. apply last_snoc.
    + injection H as <- <-. eexists. split; [destruct st; reflexivity |].
      split; [reflexivity |]. split; [destruct st; cbn; eauto |].
      right. split_and!; try reflexivity; destruct st; reflexivity.
Qed.

(** X20 on a provider that answers with the weather of Pune. *)
Lemma weather_node_result_is_consistent_witness :
  exists update s' md,
    weather_node (Demo.no_document "What's the weather in Pune?")
      (Demo.weather_world 200 (Some Demo.pune_weather)) empty_store = (Ok update, s') /\
    metadata (merge (Demo.no_document "What's the weather in Pune?") update) = Some md /\
    agent md = "weather" /\ success md = Some true.
Proof.
  eexists. eexists.
  destruct (weather_node_result_is_consistent
              (Demo.no_document "What's the weather in Pune?")
              (Demo.weather_world 200 (Some Demo.pune_weather)) empty_store _ _
              ltac:(vm_compute; reflexivity))
    as (md & Hmd & Hagent & _ & Hcase).
  exists md. split; [vm_compute; reflexivity |]. split; [exact Hmd |].
  split; [exact Hagent |].
  destruct Hcase as [[Hs _] | [Hs _]]; [exact Hs |].
  exfalso. vm_compute in Hmd. injection Hmd as <-. discriminate Hs.
Defined.

(** ** integrated_app.py: sources and cleanup *)

Lemma len_append (a b : string) : Py.len (a +:+ b) = (Py.len a + Py.len b)%nat.
Proof.
  induction a as [| c a IH]; [reflexivity |].
  change (String c a +:+ b) with (String c (a +:+ b)).
  cbn [Py.len]. rewrite IH. destruct (Py.is_continuation c); reflexivity.
Qed.

(** A slice of [n] characters has at most [n] characters. *)
Lemma slice_to_len s : forall n, (Py.len (Py.slice_to n s) <= n)%nat.
Proof.
  induction s as [| c s IH]; intros n; cbn [Py.slice_to Py.len]; [lia |].
  destruct (Py.is_continuation c) eqn:E.
  - cbn [Py.len]. rewrite E. apply IH.
  - destruct n as [| n]; cbn [Py.len]; [lia |]. rewrite E. specialize (IH n). lia.
Qed.

(** Only the retrieve node writes the key [retrieved_docs]. *)
Lemma node_keeps_retrieved_docs n st w s update s' :
  n <> RetrieveN ->
  node_function n st w s = (Ok update, s') ->
  retrieved_docs (merge st update) = retrieved_docs st.
Proof.
  intros Hn H. destruct n; try congruence; cbn [node_function] in H.
  - unfold router_node in H. unravel. destruct st; reflexivity.
  - unfold weather_node in H. unravel; destruct st; reflexivity.
  - unfold unknown_node in H. unravel. destruct st; reflexivity.
  - apply check_cache_node_ok in H. destruct H as (? & ? & ? & _ & _ & ->).
    destruct st; reflexivity.
  - unfold load_pdf_node in H. unravel. destruct st; reflexivity.
  - unfold split_docs_node in H. unravel. destruct st; reflexivity.
  - unfold build_index_node in H. unravel. destruct st; reflexivity.
  - unfold load_index_node in H. unravel. destruct st; reflexivity.
  - unfold generate_answer_node in H. unravel. destruct st; reflexivity.
Qed.

(** After the gate no node writes the key [cache_hit]. *)
Lemma later_nodes_keep_cache_hit limit : forall n st w s r s',
  n <> RouterN -> n <> CheckCacheN ->
  run limit n st w s = (Ok r, s') -> cache_hit r = cache_hit st.
Proof.
  induction limit as [| limit IH]; intros n st w s r s' Hr Hc H; [discriminate H |].
  apply run_unroll in H.
  destruct H as (update & s1 & succ & Hnode & Hnext & _ & _ & H).
  pose proof (node_keeps_cache_hit _ _ _ _ _ _ Hc Hnode) as Hhit.
  destruct succ as [n' |].
  - pose proof (next_node_edge _ _ _ _ _ _ Hnext) as Hedge.
    rewrite <- Hhit. apply (IH n' _ w s1 r s'); [| | exact H];
      intros ->; destruct n; try congruence; discriminate Hedge.
  - destruct H as [-> _]. exact Hhit.
Qed.

(** X21: the sources of a result: one entry for each retrieved
    document, whose text is cut to 200 characters before the three
    dots, so at most 203 characters long.  A request that was answered
    by the weather handler or by the fallback handler (its result has
    no key [cache_hit]) has no sources. *)
Theorem sources_of_a_result
    (q : string) (pdf : option string) (cs co : Z) (em : string) (k_ : Z) (force : bool)
    (w : env) (s : store) (r : UnifiedState) (s' : store) :
  query q pdf cs co em k_ force w s = (Ok r, s') ->
  length (get_sources r) = length (default [] (retrieved_docs r)) /\
  Forall (fun entry_ => (Py.len (fst entry_) <= 203)%nat) (get_sources r) /\
  (cache_hit r = None -> get_sources r = []).
Proof.
  intros H. split; [apply length_map |]. split.
  - unfold get_sources. apply List.Forall_forall. intros entry_ Hin.
    apply in_map_iff in Hin. destruct Hin as (doc & <- & _). cbn [fst].
    rewrite len_append. pose proof (slice_to_len (page_content doc) 200).
    change (Py.len "...") with 3%nat. lia.
  - intros Hnone. unfold get_sources.
    replace (retrieved_docs r) with (@None (list Document)); [reflexivity |].
    unfold query, invoke, recursion_limit in H.
    apply run_unroll in H.
    destruct H as (update & s1 & succ & Hnode & Hnext & _ & _ & H).
    assert (Hne : RouterN <> RetrieveN) by discriminate.
    pose proof (node_keeps_retrieved_docs _ _ _ _ _ _ Hne Hnode) as Hdocs. clear Hne.
    cbn [retrieved_docs] in Hdocs.
    destruct succ as [n' |].
    2:{ apply next_node_inv in Hnext. destruct Hnext as [_ Hterm]. discriminate Hterm. }
    pose proof (next_node_edge _ _ _ _ _ _ Hnext) as Hedge.
    destruct n'; try discriminate Hedge; clear Hedge Hnext.
    + apply run_unroll in H.
      destruct H as (update1 & s2 & succ & Hnode1 & Hnext & _ & _ & H).
      cbn [next_node] in Hnext. unfold ret in Hnext. injection Hnext as <-.
      destruct H as [-> _].
      assert (Hne : WeatherN <> RetrieveN) by discriminate.
      rewrite (node_keeps_retrieved_docs _ _ _ _ _ _ Hne Hnode1). congruence.
    + apply run_unroll in H.
      destruct H as (update1 & s2 & succ & Hnode1 & Hnext & _ & _ & H).
      cbn [next_node] in Hnext. unfold ret in Hnext. injection Hnext as <-.
      destruct H as [-> _].
      assert (Hne : UnknownN <> RetrieveN) by discriminate.
      rewrite (node_keeps_retrieved_docs _ _ _ _ _ _ Hne Hnode1). congruence.
    + exfalso. apply run_unroll in H.
      destruct H as (update1 & s2 & succ & Hgate & Hnext & _ & _ & H).
      apply check_cache_node_ok in Hgate.
      destruct Hgate as (pdf' & fp & hit & _ & _ & ->).
      destruct succ as [n' |].
      2:{ apply next_node_inv in Hnext. destruct Hnext as [_ Hterm]. discriminate Hterm. }
      pose proof (next_node_edge _ _ _ _ _ _ Hnext) as Hedge.
      assert (Hhit : cache_hit r = Some hit).
      { assert (Hr : n' <> RouterN) by (intros ->; discriminate Hedge).
        assert (Hc : n' <> CheckCacheN) by (intros ->; discriminate Hedge).
        rewrite (later_nodes_keep_cache_hit _ _ _ _ _ _ _ Hr Hc H).
        destruct (merge _ update); reflexivity. }
      congruence.
Qed.

(** X21 on a question about the weather. *)
Lemma sources_of_a_result_witness :
  exists r s',
    query "What's the weather in Pune?" None 1000 150 "m1" 4 false
      (Demo.weather_world 200 (Some Demo.pune_weather)) empty_store = (Ok r, s') /\
    get_sources r = [].
Proof.
  eexists. eexists. split; [vm_compute; reflexivity |].
  refine (proj2 (proj2 (sources_of_a_result "What's the weather in Pune?" None 1000 150 "m1" 4
                          false (Demo.weather_world 200 (Some Demo.pune_weather)) empty_store
                          _ _ _)) _);
    vm_compute; reflexivity.
Defined.

Lemma close_all_returns close clients w s : close_all close clients w s = (Ok tt, s).
Proof.
  induction clients as [| client rest IH]; [reflexivity |].
  cbn [close_all]. unfold bind, try_except, lift, ret.
  destruct (close client) as [[] | e]; exact IH.
Qed.

Lemma cleanup_clients_run close w s :
  cleanup_clients close w s = (Ok tt, set_vectorstore_cache ∅ (set_client_cache ∅ s)).
Proof.
  unfold cleanup_clients. unfold bind at 1. unfold get at 1.
  unfold bind at 1. rewrite close_all_returns. reflexivity.
Qed.

(** X22: [cleanup_clients] never raises, whatever closing a client
    does.  It empties the client cache and the vector store cache and
    nothing else: the summary cache, the directories, the stored
    documents, the files [meta.json] and the fingerprint cache files
    are as they were.  After it every storage has to be opened again,
    and a storage whose [meta.json] holds the descriptor of the
    program, which carries no registry, cannot be: the validity check
    answers False for it, whatever it answered before the cleanup. *)
Theorem cleanup_clients_never_raises (close : string -> outcome unit) (w : env) (s : store) :
  (exists s',
     cleanup_clients close w s = (Ok tt, s') /\
     _client_cache s' = ∅ /\ _vectorstore_cache s' = ∅ /\
     _pdf_context_cache s' = _pdf_context_cache s /\
     dirs s' = dirs s /\ qdrant s' = qdrant s /\ meta_files s' = meta_files s /\
     cache_files s' = cache_files s /\ trace s' = trace s) /\
  (forall name dir pdf cs co em saved,
     meta_files s !! path_join dir "meta.json" = Some (Parsed saved) ->
     meta_registry saved = None ->
     is_index_valid name dir pdf cs co em w (snd (cleanup_clients close w s))
     = (Ok false, snd (cleanup_clients close w s))).
Proof.
  rewrite cleanup_clients_run. split.
  - eexists. split; [reflexivity |]. destruct s; cbn. split_and!; reflexivity.
  - intros name dir pdf cs co em saved Hmeta Hreg. cbn [snd].
    apply (unopened_descriptor_is_rejected name dir pdf cs co em w _ saved);
      [apply not_elem_of_empty | exact Hmeta | exact Hreg].
Qed.

(** X22 on the indexed report: the check accepts the index, the
    clients are cleaned up with a [close] that always fails, and the
    check rejects the index. *)
Lemma cleanup_clients_never_raises_witness :
  fst (is_index_valid "pdf_ba7816bf8f01cfea414140de" ".indices/pdf_ba7816bf8f01cfea414140de"
         "report.pdf" 1000 150 "m1" (Demo.healthy Demo.report_v1) Demo.indexed)
  = Ok true /\
  fst (is_index_valid "pdf_ba7816bf8f01cfea414140de" ".indices/pdf_ba7816bf8f01cfea414140de"
         "report.pdf" 1000 150 "m1" (Demo.healthy Demo.report_v1)
         (snd (cleanup_clients (fun _ => Raise OSError) (Demo.healthy Demo.report_v1)
                 Demo.indexed)))
  = Ok false.
Proof.
  split; [vm_compute; reflexivity |].
  rewrite (proj2 (cleanup_clients_never_raises (fun _ => Raise OSError)
                    (Demo.healthy Demo.report_v1) Demo.indexed)
             "pdf_ba7816bf8f01cfea414140de" ".indices/pdf_ba7816bf8f01cfea414140de"
             "report.pdf" 1000 150 "m1"
             {| meta_pdf_fingerprint := Some (hashed Demo.report_v1);
                meta_chunk_size := Some 1000; meta_chunk_overlap := Some 150;
                meta_embedding_model := Some "m1"; meta_format := Some "v2";
                meta_collection_name := Some "pdf_ba7816bf8f01cfea414140de";
                meta_registry := None; meta_other_keys := false |}
             ltac:(vm_compute; reflexivity) eq_refl).
  reflexivity.
Defined.
(** ** The errors of a run *)

(** After a node that returned, its edge can be followed: the key a
    conditional edge computes is in its table, and the gate has set
    the key [cache_hit] that its edge reads. *)
Lemma next_node_returns n st w s update s1 :
  node_function n st w s = (Ok update, s1) ->
  exists succ, next_node n (merge st update) w s1 = (Ok succ, s1).
Proof.
  intros H. destruct n; cbn [next_node]; unfold ret; eauto.
  - unfold dispatch, route_after_classification.
    destruct (default Unknown (agent_type (merge st update))); [destruct (negb _) | |];
      cbn; unfold ret; eauto.
  - cbn [node_function] in H. apply check_cache_node_ok in H.
    destruct H as (pdf & fp & hit & _ & _ & ->).
    unfold should_build_index, dispatch, bind.
    replace (cache_hit (merge st _)) with (Some hit) by (destruct st; reflexivity).
    destruct hit; cbn; unfold ret; eauto.
Qed.

(** X23: a run raises exactly what a node raises: with a limit that
    covers the longest path, a run raises an error if and only if it
    reaches, along the edges, a node whose function raises that error
    there.  So the engine adds no error of its own: the recursion
    limit is never exceeded and a conditional edge never computes a key
    outside its table. *)
Theorem run_raises_exactly_what_a_node_raises (limit : nat) :
  forall (n : node) (st : UnifiedState) (w : env) (s : store) (e : exn) (s' : store),
  (rank n <= limit)%nat ->
  run limit n st w s = (Raise e, s') <->
  exists m st1 s1,
    rtc (step w) (n, st, s) (m, st1, s1) /\
    node_function m st1 w (set_trace (trace s1 ++ [Enter m]) s1) = (Raise e, s').
Proof.
  intros n st w s e s' Hlimit. split.
  - revert n st s Hlimit.
    induction limit as [| limit IH]; intros n st s Hlimit H;
      [destruct n; cbn in Hlimit; lia |].
    rewrite run_S in H. unfold bind at 1 in H. unfold emit at 1, modify at 1 in H.
    unfold bind at 1 in H.
    destruct (node_function n st w (set_trace (trace s ++ [Enter n]) s))
      as [[update | e0] s1] eqn:Hnode.
    2:{ injection H as <- <-. exists n, st, s. split; [apply rtc_refl | exact Hnode]. }
    destruct (next_node_returns _ _ _ _ _ _ Hnode) as (succ & Hnext).
    unfold bind at 1 in H. rewrite Hnext in H.
    destruct succ as [n' |]; [| discriminate H].
    pose proof (next_node_inv _ _ _ _ _ _ Hnext) as [_ Hrank].
    assert (Hn' : (rank n' <= limit)%nat) by lia.
    destruct (IH n' (merge st update) s1 Hn' H) as (m & st1 & s2 & Hpath & Hraise).
    exists m, st1, s2. split; [| exact Hraise].
    eapply rtc_l; [| exact Hpath]. econstructor; eassumption.
  - intros (m & st1 & s1 & Hpath & Hraise).
    exact (run_raises w e s' (n, st, s) (m, st1, s1) Hpath Hraise limit Hlimit).
Qed.

(** X23 on the store whose descriptor is not valid JSON: the request
    raises what the gate raises. *)
Lemma run_raises_exactly_what_a_node_raises_witness :
  exists m st1 s1,
    rtc (step (Demo.healthy Demo.report_v1)) (RouterN, Demo.request false, Demo.corrupted)
        (m, st1, s1) /\
    node_function m st1 (Demo.healthy Demo.report_v1)
      (set_trace (trace s1 ++ [Enter m]) s1)
    = (Raise JSONDecodeError,
       snd (run recursion_limit RouterN (Demo.request false) (Demo.healthy Demo.report_v1)
              Demo.corrupted)).
Proof.
  apply (run_raises_exactly_what_a_node_raises recursion_limit RouterN (Demo.request false)
           (Demo.healthy Demo.report_v1) Demo.corrupted JSONDecodeError).
  - vm_compute. lia.
  - vm_compute. reflexivity.
Defined.

(** ** A document that was touched *)

(** X24: touching a document invalidates its index: when the descriptor
    records a fingerprint taken at another modification time (in whole
    seconds) or at another size than the document has now, the
    validity check answers False, whatever the content.  The
    fingerprint cache file is taken to be absent or written by
    [file_fingerprint]. *)
Theorem touched_document_misses
    (name dir pdf : string) (cs co : Z) (em : string) (w : env) (s : store)
    (stat : file) (saved : index_meta) (old : fingerprint) :
  disk w pdf = Some stat ->
  cache_files s !! cache_file_of pdf = None \/
  (exists f, cache_files s !! cache_file_of pdf = Some (Parsed (hashed f))) ->
  meta_files s !! path_join dir "meta.json" = Some (Parsed saved) ->
  meta_pdf_fingerprint saved = Some old ->
  mtime old <> st_mtime stat \/ size old <> st_size stat ->
  exists s', is_index_valid name dir pdf cs co em w s = (Ok false, s').
Proof.
  intros Hdisk Hcache Hmeta Hold Hdiff. rewrite is_index_valid_stages.
  destruct (collection_listed_spec name dir w s)
    as (found & s1 & -> & _ & Hc & _ & Hm & _ & _).
  destruct (bool_decide (dir ∈ dirs s)); [| eauto].
  destruct found; [| eauto].
  destruct Hm as [Hm | (Hf & _)]; [| discriminate Hf]. rewrite Hm, Hmeta.
  destruct (falsy (Parsed saved)); [eauto |].
  pose proof (file_fingerprint_cases pdf w s1) as Hfp. rewrite Hdisk, Hc in Hfp.
  assert (Hnow : exists fp s2,
            file_fingerprint pdf w s1 = (Ok fp, s2) /\
            mtime fp = st_mtime stat /\ size fp = st_size stat).
  { destruct Hcache as [Hnone | (f & Hsome)].
    - rewrite Hnone in Hfp. cbn [read_cached] in Hfp. eexists. eexists.
      split; [exact Hfp |]. split; reflexivity.
    - rewrite Hsome in Hfp. cbn [read_cached] in Hfp.
      destruct (String.eqb_spec (quick_key (hashed f)) (make_quick_key stat)) as [E |].
      + apply make_quick_key_inj in E. destruct E as [Hsize Hmtime].
        exists (hashed f), s1. split; [exact Hfp |]. split; assumption.
      + eexists. eexists. split; [exact Hfp |]. split; reflexivity. }
  destruct Hnow as (fp & s2 & -> & Hmtime & Hsize).
  exists s2. unfold get_eq at 1.
  rewrite bool_decide_eq_false_2; [reflexivity |].
  rewrite Hold. intros [= ->]. destruct Hdiff; congruence.
Qed.

(** X24 on the indexed report, touched one second later. *)
Lemma touched_document_misses_witness :
  exists s',
    is_index_valid "pdf_ba7816bf8f01cfea414140de" ".indices/pdf_ba7816bf8f01cfea414140de"
      "report.pdf" 1000 150 "m1"
      (Demo.healthy {| content := content Demo.report_v1;
                       st_mtime := st_mtime Demo.report_v1 + 1 |})
      Demo.indexed
    = (Ok false, s').
Proof.
  apply (touched_document_misses "pdf_ba7816bf8f01cfea414140de"
           ".indices/pdf_ba7816bf8f01cfea414140de" "report.pdf" 1000 150 "m1"
           (Demo.healthy {| content := content Demo.report_v1;
                            st_mtime := st_mtime Demo.report_v1 + 1 |})
           Demo.indexed
           {| content := content Demo.report_v1; st_mtime := st_mtime Demo.report_v1 + 1 |}
           {| meta_pdf_fingerprint := Some (hashed Demo.report_v1);
              meta_chunk_size := Some 1000; meta_chunk_overlap := Some 150;
              meta_embedding_model := Some "m1"; meta_format := Some "v2";
              meta_collection_name := Some "pdf_ba7816bf8f01cfea414140de";
              meta_registry := None; meta_other_keys := false |}
           (hashed Demo.report_v1)).
  - reflexivity.
  - right. exists Demo.report_v1. vm_compute. reflexivity.
  - vm_compute. reflexivity.
  - reflexivity.
  - left. vm_compute. discriminate.
Defined.

(** ** The vector store cache *)

(** What [load_qdrant_vectorstore] does, by cases. *)
Lemma load_qdrant_vectorstore_cases name dir em w s :
  load_qdrant_vectorstore name dir em w s =
  match _vectorstore_cache s !! (dir +:+ ":" +:+ name +:+ ":" +:+ em) with
  | Some vs => (Ok vs, s)
  | None =>
      match get_or_create_client dir w s with
      | (Ok client, s1) =>
          let vs := {| vs_client := client; vs_collection_name := name;
                       vs_embeddings := em |} in
          (Ok vs,
           set_vectorstore_cache
             (<[dir +:+ ":" +:+ name +:+ ":" +:+ em := vs]> (_vectorstore_cache s1)) s1)
      | (Raise e, s1) => (Raise e, s1)
      end
  end.
Proof.
  unfold load_qdrant_vectorstore. unfold bind at 1. unfold get at 1.
  destruct (_vectorstore_cache s !! _); [reflexivity |].
  unfold bind at 1. destruct (get_or_create_client dir w s) as [[client | e] s1]; reflexivity.
Qed.

(** X25: a vector store is loaded once: when [load_qdrant_vectorstore]
    has returned, a further call with the same arguments returns the
    same vector store and changes nothing.  A call stores and removes
    no document and leaves the collections of the storage as they
    were; it does not look whether the collection exists.  It raises
    only when the vector store is not cached and the client of the
    storage cannot be had, with the error of [get_or_create_client],
    and then nothing is cached. *)
Theorem vectorstore_is_loaded_once (name dir em : string) (w : env) (s : store) :
  (forall vs s',
     load_qdrant_vectorstore name dir em w s = (Ok vs, s') ->
     load_qdrant_vectorstore name dir em w s' = (Ok vs, s') /\
     qdrant s' = qdrant s /\ collections_of dir s' = collections_of dir s) /\
  (forall e s',
     load_qdrant_vectorstore name dir em w s = (Raise e, s') ->
     _vectorstore_cache s !! (dir +:+ ":" +:+ name +:+ ":" +:+ em) = None /\
     get_or_create_client dir w s = (Raise e, s') /\
     _vectorstore_cache s' = _vectorstore_cache s /\
     _client_cache s' = _client_cache s).
Proof.
  rewrite load_qdrant_vectorstore_cases.
  destruct (_vectorstore_cache s !! (dir +:+ ":" +:+ name +:+ ":" +:+ em)) as [vs0 |] eqn:Hc.
  - split; [| discriminate]. intros vs s' [= <- <-].
    rewrite load_qdrant_vectorstore_cases, Hc. auto.
  - destruct (get_or_create_client dir w s) as [[client | e0] s1] eqn:Hclient.
    + split; [| discriminate]. intros vs s' [= <- <-].
      pose proof (get_or_create_client_keeps_collections _ _ _ _ _ Hclient) as Hcol.
      pose proof (get_or_create_client_opened _ _ _ _ _ Hclient) as (_ & _ & _ & Hq & _).
      rewrite load_qdrant_vectorstore_cases.
      cbn [_vectorstore_cache set_vectorstore_cache]. rewrite lookup_insert_eq.
      split_and!; [reflexivity | exact Hq | exact Hcol].
    + split; [discriminate |]. intros e s' [= <- <-].
      pose proof (get_or_create_client_raised _ _ _ _ _ Hclient) as (_ & Hcc & _).
      split_and!; auto.
      rewrite get_or_create_client_cases in Hclient.
      repeat match type of Hclient with
             | (if ?b then _ else _) = _ => destruct b
             | match ?x with _ => _ end = _ => destruct x
             end; try discriminate Hclient; injection Hclient as _ <-; reflexivity.
Qed.

(** X25 on the indexed report, in the process that indexed it. *)
Lemma vectorstore_is_loaded_once_witness :
  exists vs s',
    load_qdrant_vectorstore "pdf_ba7816bf8f01cfea414140de"
      ".indices/pdf_ba7816bf8f01cfea414140de" "m1" (Demo.healthy Demo.report_v1)
      Demo.indexed = (Ok vs, s') /\
    load_qdrant_vectorstore "pdf_ba7816bf8f01cfea414140de"
      ".indices/pdf_ba7816bf8f01cfea414140de" "m1" (Demo.healthy Demo.report_v1) s'
    = (Ok vs, s').
Proof.
  eexists. eexists. split; [vm_compute; reflexivity |].
  apply (vectorstore_is_loaded_once "pdf_ba7816bf8f01cfea414140de"
           ".indices/pdf_ba7816bf8f01cfea414140de" "m1" (Demo.healthy Demo.report_v1)
           Demo.indexed).
  vm_compute. reflexivity.
Defined.
(** ** The context of the upload folder *)

Lemma summarize_pdfs_calls folder model_name w names : forall s,
  exists calls,
    trace (snd (summarize_pdfs folder names model_name w s)) = (trace s ++ calls)%list /\
    (chat_calls calls <= 11 * length names)%nat.
Proof.
  induction names as [| name rest IH]; intros s.
  - exists []. cbn. rewrite app_nil_r. split; [reflexivity | lia].
  - cbn [summarize_pdfs]. unfold bind at 1.
    destruct (extract_pdf_context (path_join folder name) model_name w s) as [o s1] eqn:H.
    destruct (extract_pdf_context_run _ _ _ _ _ _ H) as (_ & (calls1 & Ht1 & Hc1) & _).
    destruct o as [summary | e]; cbn [snd].
    + unfold bind at 1. destruct (IH s1) as (calls2 & Ht2 & Hc2).
      destruct (summarize_pdfs folder rest model_name w s1) as [[others | e] s2];
        cbn [snd] in *; unfold ret; cbn [snd];
        exists (calls1 ++ calls2)%list; rewrite Ht2, Ht1, <- app_assoc;
        (split; [reflexivity |]); rewrite chat_calls_app; cbn [length]; lia.
    + exists calls1. split; [exact Ht1 |]. cbn [length]. lia.
Qed.

(** A run of [extract_all_pdf_contexts], whatever its outcome. *)
Lemma extract_all_pdf_contexts_run folder model_name w s o s' :
  extract_all_pdf_contexts folder model_name w s = (o, s') ->
  match glob_pdf w folder with
  | None =>
      o = Raise FileNotFoundError /\ s' = set_trace (trace s ++ [ContextLookup folder]) s
  | Some [] =>
      o = Raise ValueError /\ s' = set_trace (trace s ++ [ContextLookup folder]) s
  | Some names =>
      exists calls,
        trace s' = (trace s ++ calls)%list /\
        (chat_calls calls <= 11 * length names + 1)%nat
  end.
Proof.
  unfold extract_all_pdf_contexts, bind at 1, emit at 1, modify at 1, bind at 1, ask at 1.
  destruct (glob_pdf w folder) as [[| name rest] |].
  - unfold raise. intros [= <- <-]. auto.
  - unfold bind at 1.
    destruct (summarize_pdfs_calls folder model_name w (name :: rest)
                (set_trace (trace s ++ [ContextLookup folder]) s)) as (calls & Ht & Hc).
    destruct (summarize_pdfs folder (name :: rest) model_name w _) as [[all | e] s1];
      cbn [snd] in Ht.
    + unfold chat, bind, emit, modify, ask, lift, ret.
      intros H.
      exists ([ContextLookup folder] ++ calls ++
              [ChatCall (MergeSummaries (Py.join Py.nl all))])%list.
      split.
      * destruct (llm w (MergeSummaries (Py.join Py.nl all))); injection H as _ <-;
          cbn [trace set_trace]; rewrite Ht; cbn [trace set_trace];
          rewrite <- !app_assoc; reflexivity.
      * rewrite !chat_calls_app. cbn. cbn in Hc. lia.
    + intros [= _ <-]. exists ([ContextLookup folder] ++ calls)%list. split.
      * rewrite Ht. cbn [trace set_trace]. rewrite <- app_assoc. reflexivity.
      * rewrite chat_calls_app. cbn. cbn in Hc. lia.
  - unfold raise. intros [= <- <-]. auto.
Qed.

(** X26: [extract_all_pdf_contexts] raises [FileNotFoundError] when the
    folder does not exist and [ValueError] when it holds no PDF file,
    in both cases before any document is loaded and any model is
    called.  For a folder with [n] PDF files it calls the model at
    most [11 * n + 1] times, whatever it returns or raises. *)
Theorem extract_all_pdf_contexts_outcomes (folder model_name : string) (w : env) (s : store) :
  (glob_pdf w folder = None ->
   extract_all_pdf_contexts folder model_name w s
   = (Raise FileNotFoundError, set_trace (trace s ++ [ContextLookup folder]) s)) /\
  (glob_pdf w folder = Some [] ->
   extract_all_pdf_contexts folder model_name w s
   = (Raise ValueError, set_trace (trace s ++ [ContextLookup folder]) s)) /\
  (forall names,
     glob_pdf w folder = Some names ->
     exists calls,
       trace (snd (extract_all_pdf_contexts folder model_name w s)) = (trace s ++ calls)%list /\
       (chat_calls calls <= 11 * length names + 1)%nat).
Proof.
  destruct (extract_all_pdf_contexts folder model_name w s) as [o s1] eqn:H.
  apply extract_all_pdf_contexts_run in H. split_and!.
  - intros E. rewrite E in H. destruct H as [-> ->]. reflexivity.
  - intros E. rewrite E in H. destruct H as [-> ->]. reflexivity.
  - intros names E. rewrite E in H. destruct names as [| name rest]; [| exact H].
    destruct H as [_ ->]. exists [ContextLookup folder]. split; [reflexivity | cbn; lia].
Qed.

(** X26 on the worlds without upload folder and with one report. *)
Lemma extract_all_pdf_contexts_outcomes_witness :
  extract_all_pdf_contexts "uploaded_pdfs" LLM_MODEL Demo.no_upload_folder empty_store
  = (Raise FileNotFoundError,
     set_trace (trace empty_store ++ [ContextLookup "uploaded_pdfs"]) empty_store) /\
  exists calls,
    trace (snd (extract_all_pdf_contexts "uploaded_pdfs" LLM_MODEL
                  (Demo.healthy Demo.report_v1) empty_store))
    = (trace empty_store ++ calls)%list /\
    (chat_calls calls <= 11 * length ["report.pdf"] + 1)%nat.
Proof.
  split.
  - apply (extract_all_pdf_contexts_outcomes "uploaded_pdfs" LLM_MODEL Demo.no_upload_folder
             empty_store).
    reflexivity.
  - apply (extract_all_pdf_contexts_outcomes "uploaded_pdfs" LLM_MODEL
             (Demo.healthy Demo.report_v1) empty_store).
    reflexivity.
Defined.

